(** * AI PowerPoint Presentation Maker: content-to-deck pipeline and deck renderer

    A shallow embedding of the backend of the presentation maker
    (pdfHandler.js, urlHandler.js, config/ai.js, pptxExport.js,
    controllers/generateController.js, middleware/errorMiddleware.js and
    the validators of models/Presentation.js) together with the
    properties its specification states about it, and with further
    properties read off the code.  In the source tree the file
    backend/utils/urlHandler.js holds the URL handler followed by the PDF
    handler and by the PowerPoint export (the premium edition, the one with
    layouts, is the one embedded here).

    JavaScript strings are sequences of UTF-16 code units; they are modelled
    as lists of code-unit values, so that [length] is the JavaScript
    [.length] and the whitespace classes of [trim] and of the regular
    expressions are the ones of ECMAScript. *)

From Stdlib Require Import String Ascii Numbers.DecimalString.
From Stdlib Require Import ZArith NArith Zquot Bool Lia Arith List.
From Stdlib Require DecimalPos.
Import ListNotations.

(* ================================================================== *)
(** ** JavaScript primitives used by the backend *)
(* ================================================================== *)

Module JS.

Definition char := N.
Definition str := list char.

(** A string literal of the source (ASCII text). *)
Definition lit (s : string) : str :=
  map N_of_ascii (list_ascii_of_string s).

Definition TAB : char := 9%N.
Definition LF : char := 10%N.
Definition FF : char := 12%N.
Definition SP : char := 32%N.
Definition HYPHEN : char := 45%N.

Definition str_eq_dec : forall a b : str, {a = b} + {a <> b} :=
  list_eq_dec N.eq_dec.

Definition str_eqb (a b : str) : bool :=
  if str_eq_dec a b then true else false.

(** ECMAScript WhiteSpace and LineTerminator code units: what
    [String.prototype.trim] strips and what [\s] matches. *)
Definition isWhiteSpace (c : char) : bool :=
  (existsb (N.eqb c)
     [9; 10; 11; 12; 13; 32; 160; 5760; 8232; 8233; 8239; 8287; 12288; 65279]%N
   || ((8192 <=? c) && (c <=? 8202)))%N.

Definition isDigit (c : char) : bool := ((48 <=? c) && (c <=? 57))%N.
Definition isUpper (c : char) : bool := ((65 <=? c) && (c <=? 90))%N.
Definition isLower (c : char) : bool := ((97 <=? c) && (c <=? 122))%N.

(** [\w] without the unicode flag: [A-Za-z0-9_]. *)
Definition isWordChar (c : char) : bool :=
  isUpper c || isLower c || isDigit c || (c =? 95)%N.

Fixpoint trimStart (s : str) : str :=
  match s with
  | [] => []
  | c :: r => if isWhiteSpace c then trimStart r else s
  end.

Definition trimEnd (s : str) : str := rev (trimStart (rev s)).

Definition trim (s : str) : str := trimEnd (trimStart s).

(** [consHead c pieces] puts [c] in front of the first piece. *)
Definition consHead (c : char) (pieces : list str) : list str :=
  match pieces with
  | [] => [[c]]
  | p :: ps => (c :: p) :: ps
  end.

(** [s.split(sep)] for a one-character separator: every occurrence
    splits, empty pieces are kept. *)
Fixpoint split (sep : char) (s : str) : list str :=
  match s with
  | [] => [[]]
  | c :: r => if (c =? sep)%N then [] :: split sep r
              else consHead c (split sep r)
  end.

(** [s.split(/[...]/)] for a character class: as [split], any member
    of the class separates. *)
Fixpoint splitClass (sep : char -> bool) (s : str) : list str :=
  match s with
  | [] => [[]]
  | c :: r => if sep c then [] :: splitClass sep r
              else consHead c (splitClass sep r)
  end.

(** [s.split(/[...]+/)]: a maximal run of class members is one
    separator.  [inrun] tells that the previous character was one. *)
Fixpoint splitRuns (sep : char -> bool) (inrun : bool) (s : str) : list str :=
  match s with
  | [] => [[]]
  | c :: r =>
      if sep c then
        if inrun then splitRuns sep true r else [] :: splitRuns sep true r
      else consHead c (splitRuns sep false r)
  end.

(** [pieces.join(sep)]. *)
Fixpoint join (sep : str) (pieces : list str) : str :=
  match pieces with
  | [] => []
  | [p] => p
  | p :: ps => p ++ sep ++ join sep ps
  end.

Fixpoint startsWith (p s : str) : bool :=
  match p, s with
  | [], _ => true
  | _ :: _, [] => false
  | a :: p', b :: s' => (a =? b)%N && startsWith p' s'
  end.

(** [s.includes(p)]. *)
Fixpoint includes (s p : str) : bool :=
  startsWith p s ||
  match s with
  | [] => false
  | _ :: r => includes r p
  end.

(** [s.indexOf(p)], counted from [i]; -1 when [p] does not occur. *)
Fixpoint indexOfFrom (i : Z) (s p : str) : Z :=
  if startsWith p s then i
  else match s with
       | [] => (-1)%Z
       | _ :: r => indexOfFrom (i + 1) r p
       end.

Definition indexOf (s p : str) : Z := indexOfFrom 0 s p.

(** [xs.slice(a, b)] for [0 <= a]. *)
Definition slice {A} (xs : list A) (a b : nat) : list A :=
  firstn (b - a) (skipn a xs).

(** [s.substring(a, b)]: both indices are clamped to [0, length] and
    swapped when out of order. *)
Definition substring (s : str) (a b : Z) : str :=
  let len := Z.of_nat (length s) in
  let a' := Z.max 0 (Z.min a len) in
  let b' := Z.max 0 (Z.min b len) in
  slice s (Z.to_nat (Z.min a' b')) (Z.to_nat (Z.max a' b')).

(** Decimal rendering of a number inside a template string. *)
Definition showNat (n : nat) : str :=
  lit (NilEmpty.string_of_uint (Nat.to_uint n)).

(** [Math.ceil(a / b)] on non-negative integers, [0 < b]. *)
Definition ceilDiv (a b : nat) : nat := (a + b - 1) / b.

End JS.

Import JS.

(* ================================================================== *)
(** ** Data model *)
(* ================================================================== *)

(** A slide as it travels through the pipeline.  A missing [slideTitle]
    and an empty one are both falsy in every test the code makes, so the
    empty string stands for both; [points], [imageKeyword] and [imageUrl]
    may be absent. *)
Record Slide := mkSlide {
  slideTitle : str;
  points : option (list str);
  imageKeyword : option str;
  imageUrl : option str
}.

Record Deck := mkDeck {
  title : str;
  slides : list Slide
}.

(** A freshly built slide object [{ slideTitle, points }]. *)
Definition basicSlide (t : str) (ps : list str) : Slide :=
  mkSlide t (Some ps) None None.

(* ================================================================== *)
(** ** utils/pdfHandler.js: text cleaning and the text fallback builder *)
(* ================================================================== *)

Module PdfHandler.

(** [.replace(/\n{3,}/g, '\n\n')]; [run] counts the newlines read and
    not yet written. *)
Definition flushNewlines (run : nat) : str :=
  if 3 <=? run then [LF; LF] else repeat LF run.

Fixpoint collapseNewlinesFrom (run : nat) (s : str) : str :=
  match s with
  | [] => flushNewlines run
  | c :: r =>
      if (c =? LF)%N then collapseNewlinesFrom (S run) r
      else flushNewlines run ++ c :: collapseNewlinesFrom 0 r
  end.

Definition collapseNewlines (s : str) : str := collapseNewlinesFrom 0 s.

(** [.replace(/[ \t]+/g, ' ')]. *)
Definition isBlank (c : char) : bool := ((c =? SP) || (c =? TAB))%N.

Fixpoint collapseSpacesFrom (inrun : bool) (s : str) : str :=
  match s with
  | [] => []
  | c :: r =>
      if isBlank c then
        if inrun then collapseSpacesFrom true r
        else SP :: collapseSpacesFrom true r
      else c :: collapseSpacesFrom false r
  end.

Definition collapseSpaces (s : str) : str := collapseSpacesFrom false s.

(** [.replace(/(\w)-\n(\w)/g, '$1$2')]: matches do not overlap, the
    scan resumes after the second word character. *)
Fixpoint joinHyphenated (s : str) : str :=
  match s with
  | a :: ((h :: n :: b :: r) as t) =>
      if isWordChar a && (h =? HYPHEN)%N && (n =? LF)%N && isWordChar b
      then a :: b :: joinHyphenated r
      else a :: joinHyphenated t
  | a :: t => a :: joinHyphenated t
  | [] => []
  end.

(** [.replace(/\f/g, '\n\n')]. *)
Definition replaceFormFeeds (s : str) : str :=
  flat_map (fun c => if (c =? FF)%N then [LF; LF] else [c]) s.

(** [.split('\n').map(line => line.trim()).join('\n')]. *)
Definition trimLines (s : str) : str :=
  join [LF] (map trim (split LF s)).

(** [cleanExtractedText(text)]; the empty text is returned at once
    ([if (!text) return '']). *)
Definition cleanExtractedText (text : str) : str :=
  match text with
  | [] => []
  | _ =>
      trim (trimLines (replaceFormFeeds (joinHyphenated
        (collapseSpaces (collapseNewlines text)))))
  end.

(** [.split(/\n\n+/)]: two or more newlines separate paragraphs; [run]
    counts the newlines just read. *)
Fixpoint splitParagraphsFrom (run : nat) (s : str) : list str :=
  match s with
  | [] =>
      match run with
      | 0 => [[]]
      | 1 => [[LF]]
      | _ => [[]; []]
      end
  | c :: r =>
      if (c =? LF)%N then splitParagraphsFrom (S run) r
      else
        let rest := consHead c (splitParagraphsFrom 0 r) in
        match run with
        | 0 => rest
        | 1 => consHead LF rest
        | _ => [] :: rest
        end
  end.

Definition splitParagraphs (s : str) : list str := splitParagraphsFrom 0 s.

Definition isTerminator (c : char) : bool :=
  ((c =? 46) || (c =? 33) || (c =? 63))%N.

(** [firstPara.split(/[.!?]/)[0]]. *)
Definition firstSentenceOf (firstPara : str) : str :=
  hd [] (splitClass isTerminator firstPara).

Definition slideTitleOf (slideParas : list str) (currentSlide : nat) : str :=
  let firstPara := hd [] slideParas in
  let firstSentence := firstSentenceOf firstPara in
  if (10 <? length firstSentence) && (length firstSentence <? 100)
  then trim firstSentence
  else lit "Section " ++ showNat currentSlide.

Definition pointsOf (slideParas : list str) : list str :=
  map trim
    (firstn 5
       (flat_map
          (fun p =>
             firstn 5
               (filter (fun s => 10 <? length (trim s))
                  (splitRuns isTerminator false p)))
          slideParas)).

(** The body of the [for] loop: the updated [slides]. *)
Definition pushGroup (slideParas : list str) (currentSlide : nat)
    (slides : list Slide) : list Slide :=
  let slideTitle := slideTitleOf slideParas currentSlide in
  let points := pointsOf slideParas in
  if 0 <? length points then slides ++ [basicSlide slideTitle points]
  else slides.

(** [for (let i = 0; i < paragraphs.length && slides.length < slideCount;
    i += paragraphsPerSlide)].  [None] when [fuel] iterations did not
    reach the exit. *)
Fixpoint slidesLoop (fuel : nat) (paragraphs : list str)
    (slideCount paragraphsPerSlide i currentSlide : nat)
    (slides : list Slide) : option (list Slide) :=
  if (i <? length paragraphs) && (length slides <? slideCount) then
    match fuel with
    | 0 => None
    | S fuel' =>
        let slideParas := slice paragraphs i (i + paragraphsPerSlide) in
        slidesLoop fuel' paragraphs slideCount paragraphsPerSlide
          (i + paragraphsPerSlide) (S currentSlide)
          (pushGroup slideParas currentSlide slides)
    end
  else Some slides.

Definition overviewSlide (cleanText : str) : Slide :=
  basicSlide (lit "Content Overview")
    [substring cleanText 0 200 ++ lit "..."].

Definition paragraphsOf (cleanText : str) : list str :=
  filter (fun p => 20 <? length (trim p)) (splitParagraphs cleanText).

(** [textToBasicSlides(text, slideCount)].  The quotient
    [paragraphs.length / slideCount] is only read inside the loop, which
    is not entered when [slideCount] is 0. *)
Definition textToBasicSlides (text : str) (slideCount : nat) : option Deck :=
  let cleanText := cleanExtractedText text in
  let paragraphs := paragraphsOf cleanText in
  let paragraphsPerSlide := ceilDiv (length paragraphs) slideCount in
  match slidesLoop (length paragraphs) paragraphs slideCount
          paragraphsPerSlide 0 1 [] with
  | None => None
  | Some slides =>
      let slides :=
        if length slides =? 0 then [overviewSlide cleanText] else slides in
      Some (mkDeck (lit "Extracted Content") slides)
  end.

End PdfHandler.

(* ================================================================== *)
(** ** config/ai.js: image resolution *)
(* ================================================================== *)

Module Ai.

(** [keyword.replace(/[^a-zA-Z0-9\s]/g, '').trim()]. *)
Definition keepsKeywordChar (c : char) : bool :=
  isLower c || isUpper c || isDigit c || isWhiteSpace c.

Definition cleanKeywordOf (keyword : str) : str :=
  trim (filter keepsKeywordChar keyword).

(** [toLowerCase] is only applied to the cleaned keyword, which holds
    ASCII letters, digits and whitespace: only [A-Z] change. *)
Definition toLowerCase (s : str) : str :=
  map (fun c => if isUpper c then (c + 32)%N else c) s.

(** ToInt32, the conversion [<<] applies to its operand and result. *)
Definition toInt32 (z : Z) : Z := ((z + 2 ^ 31) mod 2 ^ 32 - 2 ^ 31)%Z.

(** [((hash << 5) - hash) + char.charCodeAt(0)]. *)
Definition hashStep (hash : Z) (c : char) : Z :=
  (toInt32 (Z.shiftl (toInt32 hash) 5) - hash + Z.of_N c)%Z.

Definition keywordHashOf (cleanKeyword : str) : Z :=
  fold_left hashStep (toLowerCase cleanKeyword) 0%Z.

Definition unsplash (id : string) : str :=
  lit "https://images.unsplash.com/photo-" ++ lit id
    ++ lit "?w=1920&h=1080&fit=crop&q=80".

(** The object literal [imageMapping]; [Object.entries] walks its keys
    in declaration order. *)
Definition imageMapping : list (str * str) :=
  [ (lit "network", unsplash "1558494949-ef010cbdcc31");
    (lit "technology", unsplash "1518770660439-4636190af475");
    (lit "computer", unsplash "1496181133206-80ce9b88a853");
    (lit "data", unsplash "1551288049-bebda4e38f71");
    (lit "server", unsplash "1558494949-ef010cbdcc31");
    (lit "cable", unsplash "1544197150-b99a580bb7a8");
    (lit "fiber", unsplash "1516044734145-07ca8eef8731");
    (lit "wireless", unsplash "1562408590-e32931084e23");
    (lit "signal", unsplash "1606765962248-7ff407b51667");
    (lit "security", unsplash "1555949963-ff9fe0c870eb");
    (lit "cloud", unsplash "1544197150-b99a580bb7a8");
    (lit "internet", unsplash "1451187580459-43490279c0fa");
    (lit "communication", unsplash "1516321318423-f06f85e504b3");
    (lit "digital", unsplash "1550751827-4bd374c3f58b");
    (lit "hardware", unsplash "1591799264318-7e6ef8ddb7ea");
    (lit "infrastructure", unsplash "1558494949-ef010cbdcc31");
    (lit "transmission", unsplash "1544197150-b99a580bb7a8");
    (lit "physical", unsplash "1558494949-ef010cbdcc31");
    (lit "layer", unsplash "1558494949-ef010cbdcc31");
    (lit "protocol", unsplash "1550751827-4bd374c3f58b");
    (lit "business", unsplash "1507003211169-0a1dd7228f2d");
    (lit "team", unsplash "1522071820081-009f0129c71c");
    (lit "challenge", unsplash "1454165804606-c3d57bc86b40");
    (lit "solution", unsplash "1552664730-d307ca884978");
    (lit "future", unsplash "1451187580459-43490279c0fa");
    (lit "innovation", unsplash "1485827404703-89b55fcc595e");
    (lit "ai", unsplash "1677442136019-21780ecad995");
    (lit "machine", unsplash "1555255707-c07966088b7b");
    (lit "education", unsplash "1503676260728-1c00da094a0b");
    (lit "research", unsplash "1532094349884-543bc11b234d") ].

Definition fallbackImages : list str :=
  [ unsplash "1558494949-ef010cbdcc31";
    unsplash "1518770660439-4636190af475";
    unsplash "1544197150-b99a580bb7a8";
    unsplash "1451187580459-43490279c0fa";
    unsplash "1550751827-4bd374c3f58b";
    unsplash "1551288049-bebda4e38f71";
    unsplash "1516321318423-f06f85e504b3";
    unsplash "1555949963-ff9fe0c870eb" ].

(** The line written to the console before returning: which path chose
    the image. *)
Inductive ImageLog :=
| FoundMapped (matched : str)
| UsingFallback (index : nat).

(** The [for ... of Object.entries(imageMapping)] loop. *)
Fixpoint firstMatch (lowerKeyword : str) (entries : list (str * str))
    : option (str * str) :=
  match entries with
  | [] => None
  | (key, url) :: rest =>
      if includes lowerKeyword key then Some (key, url)
      else firstMatch lowerKeyword rest
  end.

(** [fetchImageForSlide(keyword)]: the URL returned and the line logged. *)
Definition fetchImageForSlide (keyword : str) : str * ImageLog :=
  let cleanKeyword := cleanKeywordOf keyword in
  let keywordHash := keywordHashOf cleanKeyword in
  let lowerKeyword := toLowerCase cleanKeyword in
  match firstMatch lowerKeyword imageMapping with
  | Some (key, url) => (url, FoundMapped key)
  | None =>
      let index :=
        Z.to_nat (Z.abs keywordHash mod Z.of_nat (length fallbackImages)) in
      (nth index fallbackImages [], UsingFallback index)
  end.

(** [fetchImagesForSlides(slides)]: a slide with a truthy keyword gets
    its [imageUrl], the others are returned as they are. *)
Definition fetchImagesForSlides (slides : list Slide) : list Slide :=
  map (fun slide =>
         match imageKeyword slide with
         | Some ((_ :: _) as kw) =>
             mkSlide (slideTitle slide) (points slide) (imageKeyword slide)
               (Some (fst (fetchImageForSlide kw)))
         | _ => slide
         end) slides.

End Ai.

(* ================================================================== *)
(** ** utils/pptxExport.js: the deck renderer *)
(* ================================================================== *)

Module PptxExport.

(** *** What a render can raise *)

Inductive Exception := TypeError.

Inductive Result (A : Type) :=
| Ok (a : A)
| Throw (e : Exception).
Arguments Ok {A} a.
Arguments Throw {A} e.

Definition bind {A B} (r : Result A) (k : A -> Result B) : Result B :=
  match r with
  | Ok a => k a
  | Throw e => Throw e
  end.

Notation "'do' x <- r ; k" := (bind r (fun x => k))
  (at level 10, x name, r at level 100, k at level 200).

(** *** Themes *)

(** [theme.background]: the registry uses
    [{ type: 'gradient', colors: [c0, c1] }]; the code also accepts a
    plain colour string. *)
Inductive Background :=
| Gradient (c0 c1 : str)
| Solid (color : str).

(** The value [THEMES[themeName]] evaluates to.  Every property read by
    the renderer may be undefined ([None]): that is the case for a value
    that is not a theme record.  ([name] is read by [getAvailableThemes]
    only, on the keys of the registry.) *)
Record Theme := mkTheme {
  name : option str;
  background : option Background;
  titleColor : option str;
  textColor : option str;
  accentColor : option str;
  bulletColor : option str;
  overlayColor : option str;
  overlayOpacity : option Z;   (* in hundredths *)
  secondaryAccent : option str
}.

Definition theme (nm : string) (c0 c1 : string)
    (titleC textC accentC bulletC overlayC : string) (opacity : Z)
    (secondary : string) : Theme :=
  mkTheme (Some (lit nm)) (Some (Gradient (lit c0) (lit c1)))
    (Some (lit titleC)) (Some (lit textC)) (Some (lit accentC))
    (Some (lit bulletC)) (Some (lit overlayC)) (Some opacity)
    (Some (lit secondary)).

Definition professional : Theme :=
  theme "Professional" "F8FAFC" "E2E8F0" "1E293B" "475569" "3B82F6"
    "3B82F6" "0F172A" 70 "60A5FA".

(** The own properties of the object literal [THEMES], in declaration
    order. *)
Definition THEMES : list (str * Theme) :=
  [ (lit "professional", professional);
    (lit "dark",
      theme "Dark Mode Pro" "0F0F23" "1A1A3E" "FFFFFF" "CBD5E1" "06B6D4"
        "22D3EE" "000000" 60 "67E8F9");
    (lit "modern",
      theme "Modern Minimal" "FAFAFA" "F5F5F5" "18181B" "52525B" "7C3AED"
        "8B5CF6" "1E1B4B" 75 "A78BFA");
    (lit "nature",
      theme "Nature Fresh" "ECFDF5" "D1FAE5" "064E3B" "047857" "10B981"
        "34D399" "022C22" 70 "6EE7B7");
    (lit "corporate",
      theme "Corporate Elite" "F0F9FF" "E0F2FE" "0C4A6E" "0369A1" "0284C7"
        "0EA5E9" "082F49" 75 "38BDF8");
    (lit "sunset",
      theme "Sunset Vibes" "FFF7ED" "FFEDD5" "7C2D12" "9A3412" "EA580C"
        "F97316" "431407" 70 "FB923C");
    (lit "royal",
      theme "Royal Purple" "FAF5FF" "F3E8FF" "581C87" "7E22CE" "9333EA"
        "A855F7" "3B0764" 75 "C084FC") ].

(** [THEMES] is a plain object: a key that is not an own property is
    looked up on [Object.prototype], whose properties are functions or
    objects (all truthy) without any of the theme fields. *)
Definition objectPrototypeKeys : list str :=
  map lit
    [ "constructor"; "__defineGetter__"; "__defineSetter__";
      "hasOwnProperty"; "__lookupGetter__"; "__lookupSetter__";
      "isPrototypeOf"; "propertyIsEnumerable"; "toString"; "valueOf";
      "__proto__"; "toLocaleString" ]%string.

Definition inheritedValue : Theme :=
  mkTheme None None None None None None None None None.

Fixpoint ownProperty (key : str) (entries : list (str * Theme))
    : option Theme :=
  match entries with
  | [] => None
  | (k, v) :: rest => if str_eqb k key then Some v else ownProperty key rest
  end.

(** [THEMES[themeName]]; [None] is [undefined]. *)
Definition getProperty (themeName : str) : option Theme :=
  match ownProperty themeName THEMES with
  | Some t => Some t
  | None =>
      if existsb (str_eqb themeName) objectPrototypeKeys
      then Some inheritedValue
      else None
  end.

(** [THEMES[themeName] || THEMES.professional]. *)
Definition resolveTheme (themeName : str) : Theme :=
  match getProperty themeName with
  | Some t => t
  | None => professional
  end.

(** *** Layouts *)

Inductive Layout :=
| TITLE_FULL_IMAGE
| SPLIT_LEFT_IMAGE
| SPLIT_RIGHT_IMAGE
| FULL_WIDTH_TOP_IMAGE
| CONCEPT_IMAGE_DOMINANT
| GRADIENT_BACKGROUND
| SUMMARY_CLEAN.

(** The string each key of [SLIDE_LAYOUTS] stands for. *)
Definition SLIDE_LAYOUTS (l : Layout) : str :=
  match l with
  | TITLE_FULL_IMAGE => lit "title-full-image"
  | SPLIT_LEFT_IMAGE => lit "split-left-image"
  | SPLIT_RIGHT_IMAGE => lit "split-right-image"
  | FULL_WIDTH_TOP_IMAGE => lit "full-width-top"
  | CONCEPT_IMAGE_DOMINANT => lit "concept-dominant"
  | GRADIENT_BACKGROUND => lit "gradient-bg"
  | SUMMARY_CLEAN => lit "summary-clean"
  end.

(** [slideData.imageUrl && slideData.imageUrl.length > 0]. *)
Definition hasImageOf (slideData : Slide) : bool :=
  match imageUrl slideData with
  | Some url => 0 <? length url
  | None => false
  end.

(** [slideData.points?.length || 0]. *)
Definition pointCountOf (slideData : Slide) : nat :=
  match points slideData with
  | Some ps => length ps
  | None => 0
  end.

Definition determineSlideLayout (index totalSlides : Z) (slideData : Slide)
    : Layout :=
  let hasImage := hasImageOf slideData in
  let pointCount := pointCountOf slideData in
  if (index =? 0)%Z then TITLE_FULL_IMAGE
  else if (index =? totalSlides - 1)%Z then SUMMARY_CLEAN
  else if hasImage && (pointCount <=? 3) then CONCEPT_IMAGE_DOMINANT
  else if hasImage then
    if (Z.rem index 2 =? 0)%Z then SPLIT_RIGHT_IMAGE else SPLIT_LEFT_IMAGE
  else GRADIENT_BACKGROUND.

(** *** Image download *)

Inductive ImageType := png | jpeg.

Record ImageData := mkImageData {
  data : str;
  type : ImageType
}.

(** What the network did for one [fetch(imageUrl, ...)]: it rejected
    (unreachable host, timeout, unreadable body) or answered. *)
Inductive FetchOutcome :=
| FetchRejected
| FetchResponse (ok : bool) (contentType : option str) (base64 : str).

(** [downloadImageAsBase64]: [null] unless the response is ok. *)
Definition downloadImageAsBase64 (outcome : FetchOutcome)
    : option ImageData :=
  match outcome with
  | FetchRejected => None
  | FetchResponse false _ _ => None
  | FetchResponse true contentType base64 =>
      let contentType :=
        match contentType with
        | Some ((_ :: _) as ct) => ct
        | _ => lit "image/jpeg"
        end in
      let imageType := if includes contentType (lit "png") then png else jpeg in
      Some (mkImageData base64 imageType)
  end.

(** *** The presentation being built *)

(** Lengths are inches in hundredths (13.33 is [Inch 1333]) or the
    percentages pptxgenjs accepts. *)
Inductive Len :=
| Inch (hundredths : Z)
| Percent (p : Z).

Record Box := mkBox { left : Len; upper : Len; width : Len; height : Len }.

Definition inches (x y w h : Z) : Box :=
  mkBox (Inch x) (Inch y) (Inch w) (Inch h).

Record Fill := mkFill {
  fillSolid : bool;              (* [type: 'solid'] written out *)
  fillColor : option str;
  fillTransparency : option Z
}.

Record Shadow := mkShadow {
  blur : Z; offset : Z; angle : Z; shadowColor : str;
  opacity : Z                    (* in tenths *)
}.

Inductive ShapeKind := rect | ellipse.
Inductive Align := alignCenter | alignRight.
Inductive VAlign := valignMiddle | valignTop.
Inductive BulletKind := bulletDot | bulletNumber.

(** One entry of a bulleted text: [{ text, options }].  Every entry
    also has [fontFace: 'Arial'] and [breakLine: true]. *)
Record Para := mkPara {
  paraText : str;
  paraBullet : option (BulletKind * option str);
  paraColor : option str;
  paraFontSize : Z;
  paraSpaceAfter : Z
}.

Inductive TextBody :=
| Plain (s : str)
| Paras (ps : list Para).

Record TextOptions := mkTextOptions {
  fontSize : option Z;
  fontFace : option str;
  color : option str;
  bold : bool;
  align : option Align;
  valign : option VAlign;
  shadow : option Shadow;
  transparency : option Z
}.

Inductive Element :=
| Image (dataUri : str) (box : Box) (rounding : option bool)
| Shape (kind : ShapeKind) (box : Box) (fill : Fill)
| Text (body : TextBody) (box : Box) (options : TextOptions).

(** A pptxgenjs slide: its background colour, when one was assigned,
    and what was added to it, in order. *)
Record SlideObject := mkSlideObject {
  slideBackground : option (option str);
  elements : list Element
}.

Definition newSlide : SlideObject := mkSlideObject None [].

Definition setBackground (slide : SlideObject) (c : option str)
    : SlideObject :=
  mkSlideObject (Some c) (elements slide).

Definition add (slide : SlideObject) (e : Element) : SlideObject :=
  mkSlideObject (slideBackground slide) (elements slide ++ [e]).

Definition addShape (slide : SlideObject) (kind : ShapeKind) (box : Box)
    (fill : Fill) : SlideObject :=
  add slide (Shape kind box fill).

Definition addText (slide : SlideObject) (body : TextBody) (box : Box)
    (options : TextOptions) : SlideObject :=
  add slide (Text body box options).

(** [data: `image/${type};base64,${data}`], with [sizing] of type
    [cover] over the same width and height. *)
Definition dataUriOf (imageData : ImageData) : str :=
  lit "image/"
    ++ (match type imageData with png => lit "png" | jpeg => lit "jpeg" end)
    ++ lit ";base64," ++ data imageData.

Definition addImage (slide : SlideObject) (imageData : ImageData)
    (box : Box) (rounding : option bool) : SlideObject :=
  add slide (Image (dataUriOf imageData) box rounding).

Definition colorFill (c : option str) : Fill := mkFill false c None.
Definition fadedFill (c : option str) (t : Z) : Fill :=
  mkFill false c (Some t).
Definition solidFill (c : option str) (t : Z) : Fill :=
  mkFill true c (Some t).

Definition arial : option str := Some (lit "Arial").

Definition fullSlide : Box :=
  mkBox (Inch 0) (Inch 0) (Percent 100) (Percent 100).

(** [addGradientBackground]: reading [theme.background.type] raises a
    TypeError when [theme.background] is undefined. *)
Definition addGradientBackground (slide : SlideObject) (theme : Theme)
    : Result SlideObject :=
  match background theme with
  | None => Throw TypeError
  | Some (Gradient c0 c1) =>
      Ok (addShape (setBackground slide (Some c0)) rect fullSlide
            (solidFill (Some c1) 50))
  | Some (Solid c) => Ok (setBackground slide (Some c))
  end.

Inductive AccentPosition := atTop | atBottom | atCorner | atCircle.

Definition addAccentShapes (slide : SlideObject) (theme : Theme)
    (position : AccentPosition) : SlideObject :=
  match position with
  | atTop =>
      addShape slide rect (mkBox (Inch 0) (Inch 0) (Percent 100) (Inch 6))
        (colorFill (accentColor theme))
  | atBottom =>
      addShape slide rect (mkBox (Inch 0) (Inch 720) (Percent 100) (Inch 30))
        (fadedFill (accentColor theme) 80)
  | atCorner =>
      addShape slide rect (inches 0 0 15 200) (colorFill (accentColor theme))
  | atCircle =>
      addShape slide ellipse (inches 1150 (-100) 300 300)
        (fadedFill (secondaryAccent theme) 85)
  end.

(** [theme.background.colors ? theme.background.colors[0] : 'FFFFFF'],
    a TypeError when [theme.background] is undefined. *)
Definition firstBackgroundColor (theme : Theme) : Result str :=
  match background theme with
  | None => Throw TypeError
  | Some (Gradient c0 _) => Ok c0
  | Some (Solid _) => Ok (lit "FFFFFF")
  end.

(** [slideData.slideTitle || fallback]. *)
Definition titleOr (slideData : Slide) (fallback : str) : str :=
  match slideTitle slideData with
  | [] => fallback
  | t => t
  end.

Definition showZ (z : Z) : str :=
  lit (NilEmpty.string_of_int (Z.to_int z)).

Definition slideLabel (index : Z) : str := lit "Slide " ++ showZ (index + 1).

Definition headingOptions (size : Z) (c : option str) (sh : option Shadow)
    : TextOptions :=
  mkTextOptions (Some size) arial c true None (Some valignMiddle) sh None.

Definition listOptions (sh : option Shadow) : TextOptions :=
  mkTextOptions None None None false None (Some valignTop) sh None.

Definition bulletParas (kind : BulletKind) (theme : Theme) (size after : Z)
    (ps : list str) : list Para :=
  map (fun point =>
         mkPara point (Some (kind, bulletColor theme)) (textColor theme)
           size after) ps.


(** *** The layouts *)

(** Split layout, image on the right and text on the left. *)
Definition createSplitRightImageSlide (slide : SlideObject)
    (slideData : Slide) (imageData : option ImageData) (theme : Theme)
    (index : Z) : Result SlideObject :=
  do bg <- firstBackgroundColor theme;
  let slide := setBackground slide (Some bg) in
  let slide := addShape slide rect (inches 0 0 10 750)
                 (colorFill (accentColor theme)) in
  let slide := addText slide (Plain (titleOr slideData (slideLabel index)))
                 (inches 50 50 550 100)
                 (headingOptions 32 (titleColor theme) None) in
  let slide := addShape slide rect (inches 50 150 250 5)
                 (colorFill (accentColor theme)) in
  let slide :=
    match points slideData with
    | Some ps =>
        addText slide (Paras (bulletParas bulletDot theme 16 12 ps))
          (inches 50 180 550 520) (listOptions None)
    | None => slide
    end in
  match imageData with
  | Some img =>
      let slide := addImage slide img (inches 633 0 700 750) (Some false) in
      do fade <- firstBackgroundColor theme;
      Ok (addShape slide rect (inches 633 0 150 750)
            (solidFill (Some fade) 70))
  | None => Ok slide
  end.

(** Split layout, image on the left and text on the right. *)
Definition createSplitLeftImageSlide (slide : SlideObject)
    (slideData : Slide) (imageData : option ImageData) (theme : Theme)
    (index : Z) : Result SlideObject :=
  do bg <- firstBackgroundColor theme;
  let slide := setBackground slide (Some bg) in
  do slide <-
    match imageData with
    | Some img =>
        let slide := addImage slide img (inches 0 0 700 750) None in
        do fade <- firstBackgroundColor theme;
        Ok (addShape slide rect (inches 550 0 150 750)
              (solidFill (Some fade) 70))
    | None => Ok slide
    end;
  let slide := addShape slide rect (inches 1323 0 10 750)
                 (colorFill (accentColor theme)) in
  let slide := addText slide (Plain (titleOr slideData (slideLabel index)))
                 (inches 730 50 550 100)
                 (headingOptions 32 (titleColor theme) None) in
  let slide := addShape slide rect (inches 730 150 250 5)
                 (colorFill (accentColor theme)) in
  Ok match points slideData with
     | Some ps =>
         addText slide (Paras (bulletParas bulletDot theme 16 12 ps))
           (inches 730 180 550 520) (listOptions None)
     | None => slide
     end.

Definition white : option str := Some (lit "FFFFFF").
Definition black : option str := Some (lit "000000").
Definition paleGrey : option str := Some (lit "E2E8F0").

Definition outerShadow (blur offset opacity : Z) : Shadow :=
  mkShadow blur offset 45 (lit "000000") opacity.

(** The three characters the source file has in front of every point
    of a concept slide, and a space. *)
Definition conceptMarker : str := [226; 8364; 162; 32]%N.

(** Image-dominant layout: the image fills the slide, the text sits at
    the bottom. *)
Definition createConceptDominantSlide (slide : SlideObject)
    (slideData : Slide) (imageData : option ImageData) (theme : Theme)
    (index : Z) : Result SlideObject :=
  do slide <-
    match imageData with
    | Some img =>
        let slide := addImage slide img (inches 0 0 1333 750) None in
        let slide := addShape slide rect (inches 0 450 1333 300)
                       (fadedFill (overlayColor theme) 25) in
        Ok (addShape slide rect (inches 0 0 1333 750) (fadedFill black 70))
    | None => addGradientBackground slide theme
    end;
  let lit_ := match imageData with Some _ => true | None => false end in
  let slide :=
    addText slide (Plain (titleOr slideData (slideLabel index)))
      (inches 80 480 1173 120)
      (headingOptions 40 (if lit_ then white else titleColor theme)
         (if lit_ then Some (outerShadow 6 2 4) else None)) in
  let slide :=
    match points slideData with
    | Some ((_ :: _) as ps) =>
        let shortPoints :=
          map (fun point =>
                 mkPara (conceptMarker ++ point) None
                   (if lit_ then paleGrey else textColor theme) 16 8)
            (slice ps 0 3) in
        addText slide (Paras shortPoints) (inches 80 600 1173 130)
          (listOptions (if lit_ then Some (outerShadow 4 1 3) else None))
    | _ => slide
    end in
  Ok (addShape slide rect (inches 80 460 300 6)
        (colorFill (accentColor theme))).

(** Summary layout of the last slide; [imageData] is not used. *)
Definition createSummarySlide (slide : SlideObject) (slideData : Slide)
    (imageData : option ImageData) (theme : Theme) (index totalSlides : Z)
    : Result SlideObject :=
  do slide <- addGradientBackground slide theme;
  let slide := addShape slide ellipse (inches 1000 (-150) 500 500)
                 (fadedFill (accentColor theme) 90) in
  let slide := addShape slide rect (inches 0 0 12 750)
                 (colorFill (accentColor theme)) in
  let slide := addText slide (Plain (titleOr slideData (lit "Summary")))
                 (inches 60 40 1200 120)
                 (headingOptions 36 (titleColor theme) None) in
  let slide := addShape slide rect (inches 60 150 300 6)
                 (colorFill (accentColor theme)) in
  let slide :=
    match points slideData with
    | Some ps =>
        addText slide (Paras (bulletParas bulletNumber theme 18 16 ps))
          (inches 60 190 1200 500) (listOptions None)
    | None => slide
    end in
  Ok (addShape slide rect (inches 0 735 1333 15)
        (colorFill (accentColor theme))).

(** Gradient-background layout, no image. *)
Definition createGradientBackgroundSlide (slide : SlideObject)
    (slideData : Slide) (theme : Theme) (index : Z) : Result SlideObject :=
  do slide <- addGradientBackground slide theme;
  let slide := addShape slide rect (inches 0 0 1333 8)
                 (colorFill (accentColor theme)) in
  let slide := addShape slide ellipse (inches 1050 (-100) 400 400)
                 (fadedFill (secondaryAccent theme) 88) in
  let slide := addText slide (Plain (titleOr slideData (slideLabel index)))
                 (inches 50 50 1233 100)
                 (headingOptions 34 (titleColor theme) None) in
  let slide := addShape slide rect (inches 50 150 250 5)
                 (colorFill (accentColor theme)) in
  let slide :=
    match points slideData with
    | Some ps =>
        addText slide (Paras (bulletParas bulletDot theme 18 14 ps))
          (inches 50 180 1233 520) (listOptions None)
    | None => slide
    end in
  Ok (addShape slide rect (inches 0 735 1333 15)
        (colorFill (accentColor theme))).

(** The [switch (layout)] of the content loop. *)
Definition applyLayout (layout : Layout) (slide : SlideObject)
    (slideData : Slide) (imageData : option ImageData) (theme : Theme)
    (index totalSlides : Z) : Result SlideObject :=
  match layout with
  | SPLIT_RIGHT_IMAGE =>
      createSplitRightImageSlide slide slideData imageData theme index
  | SPLIT_LEFT_IMAGE =>
      createSplitLeftImageSlide slide slideData imageData theme index
  | CONCEPT_IMAGE_DOMINANT =>
      createConceptDominantSlide slide slideData imageData theme index
  | SUMMARY_CLEAN =>
      createSummarySlide slide slideData imageData theme index totalSlides
  | _ => createGradientBackgroundSlide slide slideData theme index
  end.

(** The page number written in the bottom right corner. *)
Definition addSlideNumber (slide : SlideObject) (theme : Theme) (index : Z)
    : SlideObject :=
  addText slide (Plain (showZ (index + 2))) (inches 1250 705 60 35)
    (mkTextOptions (Some 11%Z) None (textColor theme) false
       (Some alignRight) None None (Some 40%Z)).

(** *** The presentation *)

Record Presentation := mkPresentation {
  author : str;
  docTitle : str;
  subject : str;
  company : str;
  layoutWidth : Z;
  layoutHeight : Z;
  renderedSlides : list SlideObject
}.

(** [pptx.addSlide()] hands out a slide object that stays shared with
    the presentation; nothing reads the presentation before the slide is
    complete, so the finished slide is appended. *)
Definition addSlide (pptx : Presentation) (slide : SlideObject)
    : Presentation :=
  mkPresentation (author pptx) (docTitle pptx) (subject pptx) (company pptx)
    (layoutWidth pptx) (layoutHeight pptx) (renderedSlides pptx ++ [slide]).

(** Where [downloadImageAsBase64] is called from: once for the title
    slide, once for each content slide that has an image. *)
Inductive FetchSite :=
| forTitleSlide
| forContentSlide (index : Z).

Section Render.

(** The network, and the date the title slide shows. *)
Variable fetch : FetchSite -> str -> FetchOutcome.
Variable today : str.

(** One turn of the content loop: the slide added for [slideData]. *)
Definition contentSlide (theme : Theme) (totalSlides index : Z)
    (slideData : Slide) : Result SlideObject :=
  let slide := newSlide in
  let layout := determineSlideLayout index totalSlides slideData in
  let hasImage := hasImageOf slideData in
  let imageData :=
    match imageUrl slideData with
    | Some url =>
        if hasImage
        then downloadImageAsBase64 (fetch (forContentSlide index) url)
        else None
    | None => None
    end in
  do slide <- applyLayout layout slide slideData imageData theme index
                totalSlides;
  Ok (addSlideNumber slide theme index).

(** [for (let index = 0; index < slides.length; index++)]. *)
Fixpoint contentLoop (theme : Theme) (totalSlides index : Z)
    (rest : list Slide) (pptx : Presentation) : Result Presentation :=
  match rest with
  | [] => Ok pptx
  | slideData :: rest' =>
      do slide <- contentSlide theme totalSlides index slideData;
      contentLoop theme totalSlides (index + 1) rest' (addSlide pptx slide)
  end.

Definition titleSlideOf (theme : Theme) (presentationData : Deck)
    : Result SlideObject :=
  let titleSlide := newSlide in
  let titleImageData :=
    match slides presentationData with
    | first :: _ =>
        match imageUrl first with
        | Some ((_ :: _) as firstSlideImage) =>
            downloadImageAsBase64 (fetch forTitleSlide firstSlideImage)
        | _ => None
        end
    | [] => None
    end in
  let lit_ := match titleImageData with Some _ => true | None => false end in
  do titleSlide <-
    match titleImageData with
    | Some img =>
        let s := addImage titleSlide img (inches 0 0 1333 750) None in
        let s := addShape s rect (inches 0 0 1333 750)
                   (fadedFill (overlayColor theme) 35) in
        Ok (addShape s rect (inches 0 450 1333 300) (fadedFill black 60))
    | None =>
        do s <- addGradientBackground titleSlide theme;
        Ok (addAccentShapes s theme atCircle)
    end;
  let titleSlide := addShape titleSlide rect (inches 467 280 400 6)
                      (colorFill (accentColor theme)) in
  let heading :=
    match title presentationData with
    | [] => lit "Untitled Presentation"
    | t => t
    end in
  let titleSlide :=
    addText titleSlide (Plain heading) (inches 80 300 1173 150)
      (mkTextOptions (Some 48%Z) arial
         (if lit_ then white else titleColor theme) true
         (Some alignCenter) (Some valignMiddle)
         (if lit_ then Some (outerShadow 8 2 5) else None) None) in
  let titleSlide :=
    addText titleSlide (Plain today) (inches 80 480 1173 60)
      (mkTextOptions (Some 18%Z) arial
         (if lit_ then paleGrey else textColor theme) false
         (Some alignCenter) None None (Some 20%Z)) in
  Ok (addShape titleSlide rect (inches 0 735 1333 15)
        (colorFill (accentColor theme))).

Definition thankYouSlideOf (theme : Theme) : Result SlideObject :=
  do s <- addGradientBackground newSlide theme;
  let s := addShape s ellipse (inches (-200) (-200) 600 600)
             (fadedFill (accentColor theme) 90) in
  let s := addShape s ellipse (inches 1000 400 500 500)
             (fadedFill (secondaryAccent theme) 85) in
  let s := addText s (Plain (lit "Thank You!")) (inches 80 250 1173 150)
             (mkTextOptions (Some 56%Z) arial (titleColor theme) true
                (Some alignCenter) (Some valignMiddle) None None) in
  let s := addShape s rect (inches 517 420 300 8)
             (colorFill (accentColor theme)) in
  let s := addText s (Plain (lit "Questions & Discussion"))
             (inches 80 450 1173 80)
             (mkTextOptions (Some 24%Z) arial (textColor theme) false
                (Some alignCenter) None None None) in
  Ok (addShape s rect (inches 0 735 1333 15)
        (colorFill (accentColor theme))).

(** [generatePowerPoint(presentationData, themeName)]: the
    presentation handed to [pptx.write], which serialises one slide
    of the file per slide added. *)
Definition generatePowerPoint (presentationData : Deck) (themeName : str)
    : Result Presentation :=
  let theme := resolveTheme themeName in
  let pptx :=
    mkPresentation (lit "AI Presentation Maker - Premium")
      (match title presentationData with
       | [] => lit "Untitled Presentation"
       | t => t
       end)
      (lit "Professional Generated Presentation")
      (lit "AI Presentation Maker") 1333 750 [] in
  let totalSlides := Z.of_nat (length (slides presentationData)) in
  do titleSlide <- titleSlideOf theme presentationData;
  let pptx := addSlide pptx titleSlide in
  do pptx <- contentLoop theme totalSlides 0 (slides presentationData) pptx;
  do thankYouSlide <- thankYouSlideOf theme;
  Ok (addSlide pptx thankYouSlide).

End Render.

(** *** Listings *)

(** One element of [getAvailableThemes()]: [{ id, name, colors: { primary,
    secondary, title, text }, preview }]. *)
Record ThemeInfo := mkThemeInfo {
  themeId : str;
  themeLabel : str;
  colorPrimary : option str;
  colorSecondary : option str;
  colorTitle : option str;
  colorText : option str;
  preview : str
}.

(** [key.charAt(0).toUpperCase() + key.slice(1)], on the ASCII keys of
    the registry. *)
Definition capitalize (key : str) : str :=
  match key with
  | [] => []
  | c :: r => (if isLower c then (c - 32)%N else c) :: r
  end.

(** [`${t.background.colors ? t.background.colors[0] : t.background}`]. *)
Definition previewOf (t : Theme) : Result str :=
  match background t with
  | None => Throw TypeError
  | Some (Gradient c0 _) => Ok c0
  | Some (Solid c) => Ok c
  end.

Definition themeInfoOf (key : str) : Result ThemeInfo :=
  match getProperty key with
  | None => Throw TypeError
  | Some t =>
      do shown <- previewOf t;
      Ok (mkThemeInfo key
            (match name t with
             | Some ((_ :: _) as n) => n
             | _ => capitalize key
             end)
            (accentColor t) (secondaryAccent t) (titleColor t) (textColor t)
            shown)
  end.

Fixpoint mapResult {A B} (f : A -> Result B) (xs : list A)
    : Result (list B) :=
  match xs with
  | [] => Ok []
  | x :: rest =>
      do y <- f x;
      do ys <- mapResult f rest;
      Ok (y :: ys)
  end.

(** [getAvailableThemes()]: [Object.keys(THEMES).map(...)]. *)
Definition getAvailableThemes : Result (list ThemeInfo) :=
  mapResult themeInfoOf (map fst THEMES).

End PptxExport.

(* ================================================================== *)
(** ** utils/urlHandler.js: slides from a scraped page *)
(* ================================================================== *)

Module UrlHandler.

Record Heading := mkHeading {
  level : str;
  text : str
}.

(** What [scrapeUrl] resolves to, as far as the slide builder reads it. *)
Record ScrapedPage := mkScrapedPage {
  pageTitle : str;
  description : str;
  content : str;
  headings : list Heading;
  listItems : list str
}.

(** *** Cleaning of the scraped text *)

(** [.] of a regular expression matches anything but a line
    terminator. *)
Definition isLineTerminator (c : char) : bool :=
  ((c =? 10) || (c =? 13) || (c =? 8232) || (c =? 8233))%N.

(** Matching a lower-case word of the pattern under the [i] flag: a
    letter also matches its upper-case form. *)
Fixpoint startsWithIgnoreCase (word s : str) : bool :=
  match word, s with
  | [], _ => true
  | _ :: _, [] => false
  | a :: word', b :: s' =>
      ((a =? b) || (isLower a && (b =? a - 32)))%N
      && startsWithIgnoreCase word' s'
  end.

Definition uiWords : list str :=
  map lit [ "cookie"; "privacy"; "subscribe"; "newsletter"; "sign up";
            "log in"; "loading" ]%string.

(** [.*?\n]: the number of characters up to and including the next
    newline, when no other line terminator comes first. *)
Fixpoint lineRest (s : str) : option nat :=
  match s with
  | [] => None
  | c :: r =>
      if (c =? LF)%N then Some 1
      else if isLineTerminator c then None
      else option_map S (lineRest r)
  end.

Definition nextIsWord (s : str) : bool :=
  match s with
  | c :: _ => isWordChar c
  | [] => false
  end.

(** The length of the match of
    [/\b(cookie|privacy|subscribe|newsletter|sign up|log in|loading)\b.*?\n/i]
    at the start of [s]; [prevWord] tells whether the character before
    is a word character.  No two of the words match at the same place. *)
Definition uiTextAt (prevWord : bool) (s : str) : option nat :=
  if prevWord then None
  else
    match find (fun word => startsWithIgnoreCase word s) uiWords with
    | Some word =>
        let rest := skipn (length word) s in
        if nextIsWord rest then None
        else option_map (fun n => length word + n) (lineRest rest)
    | None => None
    end.

(** [.replace(/\b(...)\b.*?\n/gi, '')]; [skip] counts the characters
    of the current match still to be dropped. *)
Fixpoint removeUiTextFrom (skip : nat) (prevWord : bool) (s : str) : str :=
  match s with
  | [] => []
  | c :: r =>
      match skip with
      | S k => removeUiTextFrom k (isWordChar c) r
      | 0 =>
          match uiTextAt prevWord s with
          | Some (S k) => removeUiTextFrom k (isWordChar c) r
          | _ => c :: removeUiTextFrom 0 (isWordChar c) r
          end
      end
  end.

Definition removeUiText (s : str) : str := removeUiTextFrom 0 false s.

(** [cleanContent(content)]; the empty content is returned at once. *)
Definition cleanContent (content : str) : str :=
  match content with
  | [] => []
  | _ =>
      trim
        (join [LF]
           (filter (fun line => 0 <? length line)
              (map trim
                 (split LF
                    (removeUiText
                       (PdfHandler.collapseNewlines
                          (PdfHandler.collapseSpaces content)))))))
  end.

(** *** The slide builder for scraped pages *)

(** [x || fallback] on strings. *)
Definition orElse (s fallback : str) : str :=
  match s with
  | [] => fallback
  | _ => s
  end.

Definition isDotOrNewline (c : char) : bool := ((c =? 46) || (c =? LF))%N.

(** The points of one heading: the sentences between this heading and
    the next one. *)
Definition sectionPoints (content : str) (heading : Heading)
    (next : option Heading) : list str :=
  let headingIndex := indexOf content (text heading) in
  let nextHeadingIndex :=
    match next with
    | Some h => indexOf content (text h)
    | None => Z.of_nat (length content)
    end in
  let sectionContent :=
    substring content (headingIndex + Z.of_nat (length (text heading)))
      nextHeadingIndex in
  map trim
    (slice
       (filter (fun s => (20 <? length (trim s)) && (length (trim s) <? 300))
          (splitRuns isDotOrNewline false sectionContent))
       0 5).

(** [for (let i = 0; i < slidesFromHeadings; i++)]; [todo] is
    [slidesFromHeadings - i] and [hs] the headings from index [i]. *)
Fixpoint headingLoop (content : str) (todo : nat) (hs : list Heading)
    (slides : list Slide) : list Slide :=
  match todo, hs with
  | S todo', heading :: rest =>
      let points := sectionPoints content heading (hd_error rest) in
      headingLoop content todo' rest
        (if 0 <? length points
         then slides ++ [basicSlide (text heading) points]
         else slides)
  | _, _ => slides
  end.

(** [for (let i = 0; i < listItems.length && slides.length < slideCount;
    i += itemsPerSlide)]; [None] when [fuel] turns were not enough. *)
Fixpoint listItemLoop (fuel : nat) (listItems : list str)
    (slideCount itemsPerSlide i : nat) (slides : list Slide)
    : option (list Slide) :=
  if (i <? length listItems) && (length slides <? slideCount) then
    match fuel with
    | 0 => None
    | S fuel' =>
        let slideItems := slice listItems i (i + itemsPerSlide) in
        listItemLoop fuel' listItems slideCount itemsPerSlide
          (i + itemsPerSlide)
          (if 0 <? length slideItems
           then slides ++
                  [basicSlide (lit "Key Points " ++ showNat (length slides))
                     (slice slideItems 0 5)]
           else slides)
    end
  else Some slides.

(** [content.split('\n\n')]: the separator is the two-character
    string, matches do not overlap. *)
Fixpoint splitBlankLine (s : str) : list str :=
  match s with
  | [] => [[]]
  | a :: t =>
      match t with
      | b :: r =>
          if ((a =? LF) && (b =? LF))%N then [] :: splitBlankLine r
          else consHead a (splitBlankLine t)
      | [] => [[a]]
      end
  end.

Definition sectionPointsAt (content : str) (startIndex : nat) : list str :=
  map (fun p => substring p 0 200
                  ++ (if 200 <? length p then lit "..." else []))
    (filter (fun p => 20 <? length p)
       (slice (splitBlankLine content) startIndex (startIndex + 5))).

(** [while (slides.length < slideCount)], left by [break] when no
    paragraph is found; [None] when [fuel] turns were not enough. *)
Fixpoint paragraphLoop (fuel : nat) (content : str) (slideCount : nat)
    (slides : list Slide) : option (list Slide) :=
  if length slides <? slideCount then
    match fuel with
    | 0 => None
    | S fuel' =>
        let points := sectionPointsAt content (length slides * 2) in
        if length points =? 0 then Some slides
        else paragraphLoop fuel' content slideCount
               (slides ++
                  [basicSlide (lit "Section " ++ showNat (length slides + 1))
                     points])
    end
  else Some slides.

Definition scrapedToBasicSlides (scrapedData : ScrapedPage)
    (slideCount : nat) : option Deck :=
  let title := pageTitle scrapedData in
  let content := content scrapedData in
  let slides :=
    [ basicSlide (orElse title (lit "Overview"))
        (match description scrapedData with
         | [] => [orElse (hd [] (split LF content))
                    (lit "Content from web page")]
         | d => [d]
         end) ] in
  let slides :=
    if 0 <? length (headings scrapedData) then
      let slidesFromHeadings :=
        Nat.min (length (headings scrapedData)) (slideCount - 1) in
      headingLoop content slidesFromHeadings (headings scrapedData) slides
    else slides in
  let afterItems :=
    if (length slides <? slideCount)
       && (0 <? length (listItems scrapedData)) then
      let itemsPerSlide :=
        ceilDiv (length (listItems scrapedData))
          (slideCount - length slides) in
      listItemLoop (length (listItems scrapedData)) (listItems scrapedData)
        slideCount itemsPerSlide 0 slides
    else Some slides in
  match afterItems with
  | None => None
  | Some slides =>
      match paragraphLoop slideCount content slideCount slides with
      | None => None
      | Some slides =>
          Some (mkDeck (orElse title (lit "Web Content Presentation"))
                  (slice slides 0 slideCount))
      end
  end.

End UrlHandler.

(* ================================================================== *)
(** ** middleware/errorMiddleware.js *)
(* ================================================================== *)

Module ErrorMiddleware.

(** A validator of models/Presentation.js that a document can fail:
    [required] and [maxlength: 200] of [title], [required] of the
    [slideTitle] of a slide, and the type [Boolean] of [aiEnhanced].
    The other paths get values that always pass. *)
Inductive Validator :=
| titleRequired
| titleMaxlength
| slideTitleRequired (index : nat)
| aiEnhancedBoolean.

(** An error that is no [AppError], raised while a handler runs and
    handed to [next] by [asyncHandler]: the TypeError of calling a
    method that a value does not have, and the ValidationError of
    [Presentation.create]. *)
Inductive Raised :=
| NotAFunction (expression : str)
| ValidationError (failed : list Validator).

(** The JSON bodies the backend sends: a deck, or
    [{ success: false, message }], the message that of an [AppError] or
    the one the runtime or Mongoose words for a raised error. *)
Inductive Body :=
| DeckJson (title : str) (slides : list Slide)
| FailureJson (message : str)
| RaisedJson (error : Raised).

Record HttpResponse := mkHttpResponse {
  httpStatus : Z;
  httpBody : Body
}.

Inductive Error :=
| IsAppError (message : str) (statusCode : Z)
| IsRaised (error : Raised).

(** [errorHandler].  On an [AppError(message, statusCode)] none of the
    Mongoose, JWT or Multer cases applies, and the response is
    [res.status(error.statusCode || 500).json({ success: false,
    message: error.message || 'Server Error' })].  A ValidationError
    ([err.name === 'ValidationError']) becomes an [AppError] of status
    400; a TypeError has no [statusCode] and gets 500. *)
Definition errorHandler (err : Error) : HttpResponse :=
  match err with
  | IsAppError message statusCode =>
      mkHttpResponse (if (statusCode =? 0)%Z then 500%Z else statusCode)
        (FailureJson match message with
                     | [] => lit "Server Error"
                     | _ => message
                     end)
  | IsRaised (ValidationError failed) =>
      mkHttpResponse 400 (RaisedJson (ValidationError failed))
  | IsRaised (NotAFunction expression) =>
      mkHttpResponse 500 (RaisedJson (NotAFunction expression))
  end.

End ErrorMiddleware.

(* ================================================================== *)
(** ** controllers/generateController.js *)
(* ================================================================== *)

Module GenerateController.

Import PdfHandler UrlHandler ErrorMiddleware.

(** A field of [req.body], as far as the handlers tell values apart.
    A number is given by the text [String(n)] that JavaScript makes of
    it, which is what [parseInt] and a template read: ["5"], ["7.5"],
    ["1e+21"].  An array or an object is given by its text as well
    (["7"] for [[7]], ["[object Object]"]). *)
Inductive BodyValue :=
| Missing
| JNull
| JBool (b : bool)
| JNumber (shown : str)
| JString (s : str)
| JObject (shown : str).

(** [!value] does not hold.  A number is falsy when it is 0, shown as
    ["0"]; NaN is no value of a JSON body. *)
Definition truthy (v : BodyValue) : bool :=
  match v with
  | Missing | JNull => false
  | JBool b => b
  | JNumber shown => negb (str_eqb shown (lit "0"))
  | JString s => negb (length s =? 0)
  | JObject _ => true
  end.

(** [`${value}`], and the property key [value] stands for. *)
Definition textOf (v : BodyValue) : str :=
  match v with
  | Missing => lit "undefined"
  | JNull => lit "null"
  | JBool true => lit "true"
  | JBool false => lit "false"
  | JNumber shown => shown
  | JString s => s
  | JObject shown => shown
  end.

(** [const { field = fallback } = req.body], then [`${field}`]. *)
Definition textOr (v : BodyValue) (fallback : str) : str :=
  match v with
  | Missing => fallback
  | _ => textOf v
  end.

Definition digitValue (c : char) : option Z :=
  if isDigit c then Some (Z.of_N c - 48)%Z
  else if ((97 <=? c) && (c <=? 102))%N then Some (Z.of_N c - 87)%Z
  else if ((65 <=? c) && (c <=? 70))%N then Some (Z.of_N c - 55)%Z
  else None.

Definition digitIn (radix : Z) (c : char) : option Z :=
  match digitValue c with
  | Some d => if (d <? radix)%Z then Some d else None
  | None => None
  end.

Fixpoint parseDigits (radix acc : Z) (s : str) : Z :=
  match s with
  | [] => acc
  | c :: r =>
      match digitIn radix c with
      | Some d => parseDigits radix (acc * radix + d)%Z r
      | None => acc
      end
  end.

(** [parseInt(s)] without a radix: leading whitespace, a sign, an
    optional [0x] prefix, then the longest run of digits; [None] is NaN.
    The result is the integer the digits denote; JavaScript rounds it to
    a Number, which leaves its sign, whether it is 0 and every integer up
    to 2^53 as they are. *)
Definition parseIntOfString (s : str) : option Z :=
  let s := trimStart s in
  let '(sign, s) :=
    match s with
    | c :: r => if (c =? 45)%N then ((-1)%Z, r)
                else if (c =? 43)%N then (1%Z, r)
                else (1%Z, s)
    | [] => (1%Z, s)
    end in
  let '(radix, s) :=
    match s with
    | z :: x :: r =>
        if ((z =? 48) && ((x =? 120) || (x =? 88)))%N then (16%Z, r)
        else (10%Z, s)
    | _ => (10%Z, s)
    end in
  match s with
  | c :: _ =>
      match digitIn radix c with
      | Some _ => Some (sign * parseDigits radix 0 s)%Z
      | None => None
      end
  | [] => None
  end.

(** [parseInt(value)]: the value is turned into text first, so a
    number is read from what [String] makes of it (1 from ["1e+21"],
    7 from ["7.5"]). *)
Definition parseInt (v : BodyValue) : option Z :=
  parseIntOfString (textOf v).

(** [const { slideCount = 5 } = req.body;
    const slides = Math.min(Math.max(parseInt(slideCount) || 5, 1), 20)],
    the same in the four handlers ([count] below stands for the
    constant [slides]).  [NaN] and 0 are falsy. *)
Definition validateSlideCount (slideCount : BodyValue) : Z :=
  let slideCount :=
    match slideCount with
    | Missing => JNumber (lit "5")
    | v => v
    end in
  let parsed :=
    match parseInt slideCount with
    | Some z => if (z =? 0)%Z then 5%Z else z
    | None => 5%Z
    end in
  Z.min (Z.max parsed 1) 20.

(** [enhance === 'true' || enhance === true], with the default [true]. *)
Definition enhanceWithAIOf (enhance : BodyValue) : bool :=
  match enhance with
  | Missing => true
  | JBool b => b
  | JString s => str_eqb s (lit "true")
  | _ => false
  end.

(** A promise that settled. *)
Inductive Outcome (A : Type) :=
| Resolved (a : A)
| Rejected (message : str).
Arguments Resolved {A} a.
Arguments Rejected {A} message.

(** How a handler ends: [res.status(200).json({ title, slides })],
    [next(new AppError(message, statusCode))], or an error raised on the
    way and passed to [next] by [asyncHandler]. *)
Inductive Response :=
| Json (status : Z) (title : str) (slides : list Slide)
| AppError (message : str) (statusCode : Z)
| Thrown (error : Raised).

(** What the client receives: [res.status(200).json(...)] as it is, an
    error through [errorHandler]. *)
Definition received (r : Response) : HttpResponse :=
  match r with
  | Json status title slides => mkHttpResponse status (DeckJson title slides)
  | AppError message statusCode => errorHandler (IsAppError message statusCode)
  | Thrown error => errorHandler (IsRaised error)
  end.

Inductive SourceType := fromText | fromPdf | fromUrl | fromTopic.

(** A document handed to [Presentation.create]. *)
Record Saved := mkSaved {
  savedTitle : str;
  savedSlides : list Slide;
  sourceType : SourceType;
  sourceContent : str;
  user : str;
  aiEnhanced : BodyValue;
  savedSlideCount : Z
}.

Definition Store := list Saved.

(** The values Mongoose casts to a Boolean: [true], ['true'], [1],
    ['1'], ['yes'], [false], ['false'], [0], ['0'], ['no'], and [null]
    or nothing at all. *)
Definition castsToBoolean (v : BodyValue) : bool :=
  match v with
  | Missing | JNull | JBool _ => true
  | JNumber shown => str_eqb shown (lit "1") || str_eqb shown (lit "0")
  | JString s =>
      existsb (str_eqb s)
        (map lit ["true"; "1"; "yes"; "false"; "0"; "no"]%string)
  | JObject _ => false
  end.

(** [slideTitle: { type: String, required: true, trim: true }] on the
    slides from [index] on. *)
Fixpoint slideFailures (index : nat) (slides : list Slide)
    : list Validator :=
  match slides with
  | [] => []
  | slide :: rest =>
      (if length (trim (slideTitle slide)) =? 0
       then [slideTitleRequired index] else [])
      ++ slideFailures (S index) rest
  end.

(** The validators of the schema that a document fails; the setter
    [trim] runs before them. *)
Definition schemaFailures (doc : Saved) : list Validator :=
  (if length (trim (savedTitle doc)) =? 0 then [titleRequired] else [])
  ++ (if 200 <? length (trim (savedTitle doc)) then [titleMaxlength] else [])
  ++ slideFailures 0 (savedSlides doc)
  ++ (if castsToBoolean (aiEnhanced doc) then [] else [aiEnhancedBoolean]).

Record ExtractedData := mkExtractedData {
  extractedText : str;
  infoTitle : str
}.

Record TextRequest := mkTextRequest {
  text : BodyValue;
  textSlideCount : BodyValue;
  textEnhance : BodyValue;
  textUser : option str
}.

Record PdfRequest := mkPdfRequest {
  file : option (list N);
  pdfSlideCount : BodyValue;
  pdfEnhance : BodyValue;
  pdfUser : option str
}.

Record UrlRequest := mkUrlRequest {
  url : BodyValue;
  urlSlideCount : BodyValue;
  urlEnhance : BodyValue;
  urlUser : option str
}.

Record TopicRequest := mkTopicRequest {
  topic : BodyValue;
  topicSlideCount : BodyValue;
  audience : BodyValue;
  style : BodyValue;
  topicUser : option str
}.

(** [`... ${topic} ... ${slides} ...`] of [generateFromTopic]. *)
Definition topicPromptOf (topic audience style : str) (slides : Z) : str :=
  lit "Create a comprehensive presentation about: " ++ [34%N] ++ topic
    ++ [34%N] ++ [LF; LF]
    ++ lit "Target Audience: " ++ audience ++ [LF]
    ++ lit "Style: " ++ style ++ [LF]
    ++ lit "Number of Slides: " ++ PptxExport.showZ slides ++ [LF; LF]
    ++ lit "Please create an engaging and informative presentation that covers the key aspects of this topic."
    ++ [LF]
    ++ lit "Include an introduction slide, main content slides, and a conclusion/summary slide."
    ++ [LF]
    ++ lit "Each slide should have 3-5 clear, concise bullet points.".

(** The documents the four handlers hand to [Presentation.create]. *)
Definition textDocument (presentation : Deck) (text : str)
    (enhance : BodyValue) (count : Z) (id : str) : Saved :=
  mkSaved (title presentation) (slides presentation) fromText
    (substring text 0 5000) id
    (match enhance with
     | Missing => JBool true
     | v => v
     end) count.

Definition pdfDocument (presentation : Deck) (cleanedText : str)
    (enhanceWithAI : bool) (count : Z) (id : str) : Saved :=
  mkSaved (title presentation) (slides presentation) fromPdf
    (substring cleanedText 0 5000) id (JBool enhanceWithAI) count.

Definition urlDocument (presentation : Deck) (content : str)
    (enhanceWithAI : bool) (count : Z) (id : str) : Saved :=
  mkSaved (title presentation) (slides presentation) fromUrl
    (substring content 0 5000) id (JBool enhanceWithAI) count.

Definition topicDocument (presentation : Deck) (topic : str) (count : Z)
    (id : str) : Saved :=
  mkSaved (title presentation) (slides presentation) fromTopic topic id
    (JBool true) count.

(** What [Presentation.create] does with a document: it is appended, or
    refused by the validators it fails.  A store that is unreachable is
    not part of the model. *)
Inductive Saving :=
| Kept (db : Store)
| Refused (failed : list Validator).

(** [if (req.user) { await Presentation.create({...}); ... }]. *)
Definition saveFor (who : option str) (doc : str -> Saved) (db : Store)
    : Saving :=
  match who with
  | Some id =>
      match schemaFailures (doc id) with
      | [] => Kept (db ++ [doc id])
      | failed => Refused failed
      end
  | None => Kept db
  end.

Definition respond (presentation : Deck) : Response :=
  Json 200 (title presentation) (slides presentation).

(** The end of the four handlers: the document is stored for a signed-in
    user, then the deck is sent; a document that is refused ends the
    handler with the ValidationError. *)
Definition saveAndRespond (who : option str) (doc : str -> Saved)
    (presentation : Deck) (db : Store) : Response * Store :=
  match saveFor who doc db with
  | Kept db' => (respond presentation, db')
  | Refused failed => (Thrown (ValidationError failed), db)
  end.

Section Handlers.

(** The collaborators outside the core: the generative service with
    its response parsing, the PDF parser, the URL syntax check and the
    page scraper.  A deck of the service is taken with a title that is a
    string and with slides whose fields are strings and lists of
    strings, as the prompt asks for them. *)
Variable generatePresentation : str -> Z -> Outcome Deck.
Variable extractTextFromBuffer : list N -> Outcome ExtractedData.
Variable isValidURL : str -> bool.
Variable scrapeUrl : str -> Outcome ScrapedPage.

(** In the three handlers that read a text field, [!field ||
    field.trim().length === 0] answers 400 for a falsy field and for a
    blank string; on a truthy value that is no string [field.trim] is
    not a function. *)
Definition generateFromText (req : TextRequest) (db : Store)
    : Response * Store :=
  match text req with
  | JString text =>
      if (length text =? 0) || (length (trim text) =? 0) then
        (AppError (lit "Please provide text content") 400, db)
      else if length text <? 50 then
        (AppError (lit "Text content is too short. Please provide at least 50 characters.") 400, db)
      else if (50000 <? Z.of_nat (length text))%Z then
        (AppError (lit "Text content is too long. Maximum 50,000 characters allowed.") 400, db)
      else
        let count := validateSlideCount (textSlideCount req) in
        match generatePresentation text count with
        | Rejected message =>
            (AppError (lit "Failed to generate presentation: " ++ message)
               500, db)
        | Resolved presentation =>
            saveAndRespond (textUser req)
              (textDocument presentation text (textEnhance req) count)
              presentation db
        end
  | other =>
      if truthy other then (Thrown (NotAFunction (lit "text.trim")), db)
      else (AppError (lit "Please provide text content") 400, db)
  end.

(** [textToBasicSlides], then the PDF title when there is one. *)
Definition basicSlidesOfPdf (cleanedText : str) (count : Z)
    (extractedData : ExtractedData) : option Deck :=
  match textToBasicSlides cleanedText (Z.to_nat count) with
  | Some presentation =>
      Some match infoTitle extractedData with
           | [] => presentation
           | t => mkDeck t (slides presentation)
           end
  | None => None
  end.

(** The handlers that build slides themselves return [None] when a
    loop of the builder was cut short. *)
Definition generateFromPDF (req : PdfRequest) (db : Store)
    : option (Response * Store) :=
  match file req with
  | None => Some (AppError (lit "Please upload a PDF file") 400, db)
  | Some buffer =>
      let enhanceWithAI := enhanceWithAIOf (pdfEnhance req) in
      let count := validateSlideCount (pdfSlideCount req) in
      match extractTextFromBuffer buffer with
      | Rejected message =>
          Some (AppError
                  (lit "Failed to extract text from PDF: " ++ message)
                  400, db)
      | Resolved extractedData =>
          let cleanedText :=
            cleanExtractedText (extractedText extractedData) in
          if length cleanedText <? 50 then
            Some (AppError (lit "PDF contains insufficient text content")
                    400, db)
          else
            (* try { ... } catch (error) { fallback } *)
            let built :=
              if enhanceWithAI then
                match generatePresentation cleanedText count with
                | Resolved presentation => Some presentation
                | Rejected _ =>
                    textToBasicSlides cleanedText (Z.to_nat count)
                end
              else basicSlidesOfPdf cleanedText count extractedData in
            match built with
            | Some presentation =>
                Some (saveAndRespond (pdfUser req)
                        (pdfDocument presentation cleanedText enhanceWithAI
                           count)
                        presentation db)
            | None => None
            end
      end
  end.

Definition generateFromURL (req : UrlRequest) (db : Store)
    : option (Response * Store) :=
  match url req with
  | JString url =>
      if (length url =? 0) || (length (trim url) =? 0) then
        Some (AppError (lit "Please provide a URL") 400, db)
      else if negb (isValidURL url) then
        Some (AppError (lit "Please provide a valid URL") 400, db)
      else
        let enhanceWithAI := enhanceWithAIOf (urlEnhance req) in
        let count := validateSlideCount (urlSlideCount req) in
        match scrapeUrl url with
        | Rejected message => Some (AppError message 400, db)
        | Resolved scrapedData =>
            if length (content scrapedData) <? 50 then
              Some (AppError
                      (lit "Could not extract sufficient content from the URL")
                      400, db)
            else
              (* try { ... } catch (error) { fallback } *)
              let built :=
                if enhanceWithAI then
                  let contentForAI :=
                    lit "Title: " ++ pageTitle scrapedData ++ [LF; LF]
                      ++ lit "Description: " ++ description scrapedData
                      ++ [LF; LF] ++ lit "Content:" ++ [LF]
                      ++ content scrapedData in
                  match generatePresentation contentForAI count with
                  | Resolved presentation => Some presentation
                  | Rejected _ =>
                      scrapedToBasicSlides scrapedData (Z.to_nat count)
                  end
                else scrapedToBasicSlides scrapedData (Z.to_nat count) in
              match built with
              | Some presentation =>
                  Some (saveAndRespond (urlUser req)
                          (urlDocument presentation (content scrapedData)
                             enhanceWithAI count)
                          presentation db)
              | None => None
              end
        end
  | other =>
      if truthy other then Some (Thrown (NotAFunction (lit "url.trim")), db)
      else Some (AppError (lit "Please provide a URL") 400, db)
  end.

Definition generateFromTopic (req : TopicRequest) (db : Store)
    : Response * Store :=
  match topic req with
  | JString topic =>
      if (length topic =? 0) || (length (trim topic) =? 0) then
        (AppError (lit "Please provide a topic") 400, db)
      else if length topic <? 3 then
        (AppError (lit "Topic is too short. Please provide a more descriptive topic.") 400, db)
      else if 500 <? length topic then
        (AppError (lit "Topic is too long. Maximum 500 characters allowed.") 400, db)
      else
        let count := validateSlideCount (topicSlideCount req) in
        let audience := textOr (audience req) (lit "general") in
        let style := textOr (style req) (lit "professional") in
        let topicPrompt := topicPromptOf topic audience style count in
        match generatePresentation topicPrompt count with
        | Rejected message =>
            (AppError (lit "Failed to generate presentation: " ++ message)
               500, db)
        | Resolved presentation =>
            saveAndRespond (topicUser req)
              (topicDocument presentation topic count) presentation db
        end
  | other =>
      if truthy other then (Thrown (NotAFunction (lit "topic.trim")), db)
      else (AppError (lit "Please provide a topic") 400, db)
  end.

End Handlers.

(** *** Export *)

(** [presentation.title.replace(/[^a-z0-9]/gi, '_')]: with the [i] flag
    the class holds the ASCII letters of both cases and the digits. *)
Definition safeChar (c : char) : char :=
  if isLower c || isUpper c || isDigit c then c else 95%N.

(** [`${presentation.title.replace(/[^a-z0-9]/gi, '_')}_presentation.pptx`]. *)
Definition filenameOf (title : str) : str :=
  map safeChar title ++ lit "_presentation.pptx".

(** [req.body] of the export route: [presentation], when it is truthy,
    with its [title] and with its [slides] when they are an array, a
    [null] among them being [None]; and the [theme].  Slides that are
    truthy without being an array, and slide objects whose fields are of
    other types than the generation handlers give them, are not part of
    the model. *)
Record ExportRequest := mkExportRequest {
  exportPresentation : option (BodyValue * option (list (option Slide)));
  exportTheme : BodyValue
}.

(** The slides of the array when none of them is [null]. *)
Fixpoint slideObjects (slides : list (option Slide)) : option (list Slide) :=
  match slides with
  | [] => Some []
  | Some slide :: rest =>
      match slideObjects rest with
      | Some objects => Some (slide :: objects)
      | None => None
      end
  | None :: _ => None
  end.

(** What ends the [try] block of the export: an error of the renderer
    on a deck of slide objects; with a [null] among the slides, the
    TypeError of reading [null.imageUrl] in [determineSlideLayout], or an
    error raised before that slide is reached; with a title that is no
    string, the TypeError of [presentation.title.replace], or an error
    raised before.  The last two carry the request, which decides the
    message. *)
Inductive ExportFailure :=
| RenderRaised (error : PptxExport.Exception)
| SlideIsNull (title : str) (slides : list (option Slide)) (theme : str)
| TitleIsNoString (title : BodyValue) (slides : list (option Slide))
    (theme : str).

(** How the export ends: the file sent under its name in the
    [Content-Disposition] header, or [next(new AppError(...))]. *)
Inductive ExportResponse :=
| Download (filename : str) (file : PptxExport.Presentation)
| ExportError (message : str) (statusCode : Z).

Section ExportRoute.

(** The network and the date of the renderer, and the text of the
    message of the error that ended the [try] block. *)
Variable fetch : PptxExport.FetchSite -> str -> PptxExport.FetchOutcome.
Variable today : str.
Variable messageOf : ExportFailure -> str.

Definition exportFailed (failure : ExportFailure) : ExportResponse :=
  ExportError (lit "Failed to export presentation: " ++ messageOf failure)
    500.

Definition exportToPowerPoint (req : ExportRequest) : ExportResponse :=
  match exportPresentation req with
  | None => ExportError (lit "Please provide presentation data") 400
  | Some (title, None) =>
      ExportError
        (lit "Invalid presentation format. Must have title and slides.") 400
  | Some (title, Some slides) =>
      if negb (truthy title) then
        ExportError
          (lit "Invalid presentation format. Must have title and slides.")
          400
      else
        let theme := textOr (exportTheme req) (lit "professional") in
        match title with
        | JString heading =>
            match slideObjects slides with
            | Some objects =>
                match PptxExport.generatePowerPoint fetch today
                        (mkDeck heading objects) theme with
                | PptxExport.Ok pptxBuffer =>
                    Download (filenameOf heading) pptxBuffer
                | PptxExport.Throw error => exportFailed (RenderRaised error)
                end
            | None => exportFailed (SlideIsNull heading slides theme)
            end
        | _ => exportFailed (TitleIsNoString title slides theme)
        end
  end.

End ExportRoute.

End GenerateController.

(* ================================================================== *)
(** ** config/ai.js: the generative service *)
(* ================================================================== *)

Module Generation.

Import Ai GenerateController.

Definition fence : str := lit "```".
Definition jsonFence : str := lit "```json".

(** [.replace(/```\n?/g, '')] and [.replace(/```json\n?/g, '')]: every
    occurrence of [pattern] goes, with the newline after it when there is
    one; [skip] counts the characters of the current match still to be
    dropped. *)
Fixpoint removeFenceFrom (pattern : str) (skip : nat) (s : str) : str :=
  match s with
  | [] => []
  | c :: r =>
      match skip with
      | S k => removeFenceFrom pattern k r
      | 0 =>
          if startsWith pattern s then
            removeFenceFrom pattern
              (length pattern - 1
               + match skipn (length pattern) s with
                 | x :: _ => if (x =? LF)%N then 1 else 0
                 | [] => 0
                 end)
              r
          else c :: removeFenceFrom pattern 0 r
      end
  end.

Definition removeFence (pattern s : str) : str := removeFenceFrom pattern 0 s.

(** The first lines of [parseAIResponse]: markdown code fences go. *)
Definition stripFences (responseText : str) : str :=
  if includes responseText jsonFence then
    removeFence fence (removeFence jsonFence responseText)
  else if includes responseText fence then removeFence fence responseText
  else responseText.

Definition parseFailure : str :=
  lit "Failed to parse AI response as valid JSON".

(** [!slide.slideTitle || !Array.isArray(slide.points)] does not hold. *)
Definition validSlide (slide : Slide) : bool :=
  negb (length (slideTitle slide) =? 0)
  && match points slide with
     | Some _ => true
     | None => false
     end.

Section Service.

(** [JSON.parse], as far as its result is read: [None] when it throws
    or when reading the value does; otherwise the [title] (empty when
    missing or falsy) and the [slides] when they are an array, a slide
    holding its [points] when they are an array.  The reply is taken
    with a title and slide titles that are strings when they are truthy,
    as the prompt asks for them; [parseAIResponse] itself tests them for
    truthiness only. *)
Variable jsonParse : str -> option (str * option (list Slide)).

(** The requests to the two services: the text of the reply, or the
    message of the error raised on the way to it. *)
Variable gemini : str -> Z -> Outcome str.
Variable openai : str -> Z -> Outcome str.

(** [process.env.OPENAI_API_KEY] is set. *)
Variable openaiKey : bool.

(** [parseAIResponse(responseText)]: every error raised inside the
    [try] block, also the two of the validation, is replaced by the same
    one. *)
Definition parseAIResponse (responseText : str) : Outcome Deck :=
  let jsonString := trim (stripFences responseText) in
  match jsonParse jsonString with
  | Some (title, Some slides) =>
      if length title =? 0 then Rejected parseFailure
      else if forallb validSlide slides then Resolved (mkDeck title slides)
      else Rejected parseFailure
  | _ => Rejected parseFailure
  end.

(** [presentation.slides = await fetchImagesForSlides(presentation.slides)]. *)
Definition withImages (presentation : Deck) : Deck :=
  mkDeck (title presentation) (fetchImagesForSlides (slides presentation)).

Definition generateWithGemini (content : str) (slideCount : Z)
    : Outcome Deck :=
  match gemini content slideCount with
  | Rejected message => Rejected (lit "Gemini API Error: " ++ message)
  | Resolved text =>
      match parseAIResponse (trim text) with
      | Resolved presentation => Resolved (withImages presentation)
      | Rejected message => Rejected (lit "Gemini API Error: " ++ message)
      end
  end.

Definition generateWithOpenAI (content : str) (slideCount : Z)
    : Outcome Deck :=
  if negb openaiKey then Rejected (lit "OpenAI API key not configured")
  else
    match openai content slideCount with
    | Rejected message => Rejected (lit "OpenAI API Error: " ++ message)
    | Resolved text =>
        match parseAIResponse (trim text) with
        | Resolved presentation => Resolved (withImages presentation)
        | Rejected message => Rejected (lit "OpenAI API Error: " ++ message)
        end
    end.

(** [generatePresentation]: Gemini first, OpenAI when Gemini fails and
    a key is configured. *)
Definition generatePresentation (content : str) (slideCount : Z)
    : Outcome Deck :=
  match generateWithGemini content slideCount with
  | Resolved presentation => Resolved presentation
  | Rejected geminiError =>
      if openaiKey then generateWithOpenAI content slideCount
      else Rejected geminiError
  end.

End Service.

End Generation.

(* ================================================================== *)
(** * Vocabulary of the statements, and sample inputs *)
(* ================================================================== *)

Module Statements.

Import PdfHandler UrlHandler Ai PptxExport GenerateController.

Definition sixPointSlide : Slide :=
  mkSlide (lit "Market size") (Some (repeat (lit "point") 6)) None
    (Some (lit "https://example.org/a.jpg")).

(** A theme value that has a background: what the registry holds. *)
Definition themed (t : Theme) : Prop := exists bg, background t = Some bg.

(** No image was added to the slide. *)
Definition imageFree (slide : SlideObject) : bool :=
  forallb (fun e => match e with Image _ _ _ => false | _ => true end)
    (elements slide).

(** The claim that a slide whose image cannot be fetched is rendered as
    a gradient-background slide, for the content slide at [index]. *)
Definition renderedAsGradientBackground
    (fetch : FetchSite -> str -> FetchOutcome) (today : str) (deck : Deck)
    (themeName : str) (index : nat) : Prop :=
  exists doc slideData plain,
    generatePowerPoint fetch today deck themeName = Ok doc
    /\ nth_error (slides deck) index = Some slideData
    /\ createGradientBackgroundSlide newSlide slideData
         (resolveTheme themeName) (Z.of_nat index) = Ok plain
    /\ nth_error (renderedSlides doc) (S index)
       = Some (addSlideNumber plain (resolveTheme themeName)
                 (Z.of_nat index)).

(** A network on which every image request is rejected. *)
Definition offline : FetchSite -> str -> FetchOutcome :=
  fun _ _ => FetchRejected.

Definition aDate : str := lit "May 1, 2025".

Definition oneSlideDeck : Deck :=
  mkDeck (lit "Solar energy")
    [basicSlide (lit "Why solar") [lit "Sunlight is free"]].

(** Three slides; the middle one has an image and four points. *)
Definition threeSlideDeck : Deck :=
  mkDeck (lit "Solar energy")
    [ basicSlide (lit "Why solar") [lit "Sunlight is free"];
      mkSlide (lit "Panels") (Some (repeat (lit "A point about panels") 4))
        (Some (lit "solar panels"))
        (Some (lit "https://example.org/panels.jpg"));
      basicSlide (lit "Summary") [lit "Solar pays back"] ].

(** The table entry of a key. *)
Definition entryOf (key : str) : option (str * str) :=
  find (fun entry => str_eqb (fst entry) key) imageMapping.

Definition cableUrl : str := unsplash "1544197150-b99a580bb7a8".
Definition fiberUrl : str := unsplash "1516044734145-07ca8eef8731".

(** The paragraphs of the group with ordinal [k + 1]. *)
Definition groupOf (text : str) (slideCount k : nat) : list str :=
  let paragraphs := paragraphsOf (cleanExtractedText text) in
  let paragraphsPerSlide := ceilDiv (length paragraphs) slideCount in
  slice paragraphs (k * paragraphsPerSlide)
    (k * paragraphsPerSlide + paragraphsPerSlide).

(** The title rule in the words of the specification: the first sentence
    when it is 10 to 99 characters long, "Section n" otherwise. *)
Definition specifiedTitle (slideParas : list str) (n : nat) : str :=
  let firstSentence := firstSentenceOf (hd [] slideParas) in
  if (10 <=? length firstSentence) && (length firstSentence <=? 99)
  then firstSentence
  else lit "Section " ++ showNat n.

(** A text whose first sentence, "Solar rays", has 10 characters. *)
Definition solarText : str :=
  lit "Solar rays. They power many modern homes and farms.".

Definition windText : str :=
  lit "Wind turbines turn moving air into power. They work day and night."
    ++ [LF; LF]
    ++ lit "Offshore farms see stronger and steadier winds than farms on land.".

(** The deck the fallback builder makes of [windText]. *)
Definition windFirstSlide : Slide :=
  basicSlide (lit "Wind turbines turn moving air into power")
    [ lit "Wind turbines turn moving air into power";
      lit "They work day and night" ].

Definition windDeck : Deck :=
  mkDeck (lit "Extracted Content")
    [ windFirstSlide;
      basicSlide
        (lit "Offshore farms see stronger and steadier winds than farms on land")
        [ lit "Offshore farms see stronger and steadier winds than farms on land" ] ].

(** What "already clean" has to mean for cleaning to change nothing. *)
Fixpoint hasDouble (c : char) (s : str) : bool :=
  match s with
  | [] => false
  | a :: t =>
      match t with
      | b :: _ => ((a =? c) && (b =? c))%N
      | [] => false
      end || hasDouble c t
  end.

Fixpoint hasTripleNewline (s : str) : bool :=
  match s with
  | [] => false
  | a :: t =>
      match t with
      | b :: c :: _ => ((a =? LF) && (b =? LF) && (c =? LF))%N
      | _ => false
      end || hasTripleNewline t
  end.

Definition hasChar (c : char) (s : str) : bool := existsb (N.eqb c) s.

(** A hyphen and a newline between two word characters. *)
Fixpoint hasHyphenBreak (s : str) : bool :=
  match s with
  | [] => false
  | a :: t =>
      match t with
      | h :: n :: b :: _ =>
          isWordChar a && (h =? HYPHEN)%N && (n =? LF)%N && isWordChar b
      | _ => false
      end || hasHyphenBreak t
  end.

(** Neither the first nor the last character is whitespace. *)
Definition noEdgeWhitespace (s : str) : bool :=
  match s with
  | [] => true
  | c :: _ => negb (isWhiteSpace c)
  end
  && match rev s with
     | [] => true
     | c :: _ => negb (isWhiteSpace c)
     end.

(** The words of the claim: no newline and no space is repeated. *)
Definition noRepeats (s : str) : bool :=
  negb (hasDouble LF s) && negb (hasDouble SP s).

Definition alreadyClean (s : str) : bool :=
  negb (hasTripleNewline s) && negb (hasDouble SP s)
  && negb (hasChar TAB s) && negb (hasChar FF s)
  && negb (hasHyphenBreak s)
  && forallb noEdgeWhitespace (split LF s) && noEdgeWhitespace s.

Definition tabbedText : str := lit "name" ++ [TAB] ++ lit "value".

(** A generative service that is unreachable. *)
Definition serviceDown : str -> Z -> Outcome Deck :=
  fun _ _ => Rejected (lit "Gemini API Error: fetch failed").

Definition solarTopicRequest : TopicRequest :=
  mkTopicRequest (JString (lit "Solar energy")) (JNumber (lit "5")) Missing
    Missing None.

Definition windPdfRequest : PdfRequest :=
  mkPdfRequest (Some [37; 80; 68; 70]%N) (JNumber (lit "5")) Missing None.

(** The same upload by a user who is signed in. *)
Definition windPdfRequestOfAda : PdfRequest :=
  mkPdfRequest (Some [37; 80; 68; 70]%N) (JNumber (lit "5")) Missing
    (Some (lit "ada")).

(** A page whose title has 201 characters, a scraper that finds it at
    every address, and a request for it by a user who is signed in. *)
Definition longTitlePage : ScrapedPage :=
  mkScrapedPage (repeat 97%N 201) [] windText [] [].

Definition scrapesLongTitle : str -> Outcome ScrapedPage :=
  fun _ => Resolved longTitlePage.

Definition pageRequestOfAda : UrlRequest :=
  mkUrlRequest (JString (lit "https://example.org/wind"))
    (JNumber (lit "5")) Missing (Some (lit "ada")).

(** A PDF parser that finds [windText] in every file. *)
Definition parsesToWindText : list N -> Outcome ExtractedData :=
  fun _ => Resolved (mkExtractedData windText []).

End Statements.

Module MoreStatements.

Import PdfHandler UrlHandler Ai PptxExport GenerateController Generation.
Import Statements.

(** The data URIs of the images of a slide, in order. *)
Definition imagesOf (slide : SlideObject) : list str :=
  flat_map (fun e => match e with Image uri _ _ => [uri] | _ => [] end)
    (elements slide).

(** The texts of the bulleted paragraphs of a slide, in order. *)
Definition bulletTexts (slide : SlideObject) : list str :=
  flat_map (fun e => match e with
                     | Text (Paras ps) _ _ => map paraText ps
                     | _ => []
                     end)
    (elements slide).

(** The points of a slide, none when the field is absent. *)
Definition pointsListOf (slideData : Slide) : list str :=
  match points slideData with
  | Some ps => ps
  | None => []
  end.

(** A network that answers every image request with a PNG. *)
Definition online : FetchSite -> str -> FetchOutcome :=
  fun _ _ => FetchResponse true (Some (lit "image/png")) (lit "iVBORw0KGgo=").

Definition aPng : ImageData := mkImageData (lit "iVBORw0KGgo=") png.

(** A deck whose first slide has an image. *)
Definition imageFirstDeck : Deck :=
  mkDeck (lit "Solar energy")
    [ mkSlide (lit "Panels") (Some [lit "Panels face south"])
        (Some (lit "solar panels"))
        (Some (lit "https://example.org/panels.jpg"));
      basicSlide (lit "Summary") [lit "Solar pays back"] ].

(** A deck whose first and last slide have an image. *)
Definition imageEdgesDeck : Deck :=
  mkDeck (lit "Solar energy")
    [ mkSlide (lit "Panels") (Some [lit "Panels face south"])
        (Some (lit "solar panels"))
        (Some (lit "https://example.org/panels.jpg"));
      basicSlide (lit "Storage") [lit "Batteries shift the load"];
      mkSlide (lit "Summary") (Some [lit "Solar pays back"])
        (Some (lit "sunset"))
        (Some (lit "https://example.org/sunset.jpg")) ].

Definition sameLen (a b : Len) : bool :=
  match a, b with
  | Inch x, Inch y => (x =? y)%Z
  | Percent x, Percent y => (x =? y)%Z
  | _, _ => false
  end.

Definition sameBox (a b : Box) : bool :=
  sameLen (left a) (left b) && sameLen (upper a) (upper b)
  && sameLen (width a) (width b) && sameLen (height a) (height b).

(** The texts a slide shows in the bottom right corner, where the
    content loop writes the page number. *)
Definition pageNumbersOf (slide : SlideObject) : list str :=
  flat_map (fun e => match e with
                     | Text (Plain s) box _ =>
                         if sameBox box (inches 1250 705 60 35) then [s]
                         else []
                     | _ => []
                     end)
    (elements slide).

(** The slides a page builder holds: the opening slide, then slides
    with one to five points. *)
Definition opened (first : Slide) (slides : list Slide) : Prop :=
  (exists rest, slides = first :: rest)
  /\ Forall (fun slide => 1 <= pointCountOf slide <= 5) slides.

(** The handler answered with an error. *)
Definition failed (r : Response) : bool :=
  match r with
  | AppError _ _ | Thrown _ => true
  | Json _ _ _ => false
  end.


(** A generative service that answers every request. *)
Definition serviceUp : str -> Z -> Outcome Deck :=
  fun _ _ => Resolved oneSlideDeck.

(** A generative service that only answers for one to twenty slides. *)
Definition serviceInRange : str -> Z -> Outcome Deck :=
  fun _ count =>
    if ((1 <=? count) && (count <=? 20))%Z then Resolved oneSlideDeck
    else Rejected (lit "slide count out of range").

Definition plainPdfRequest : PdfRequest :=
  mkPdfRequest (Some [37; 80; 68; 70]%N) (JNumber (lit "5")) (JBool false)
    None.

Definition signedInTopicRequest : TopicRequest :=
  mkTopicRequest (JString (lit "Solar energy")) (JNumber (lit "5")) Missing
    Missing (Some (lit "user-1")).

Definition acceptsEveryUrl : str -> bool := fun _ => true.

Definition unreachable : str -> Outcome ScrapedPage :=
  fun _ => Rejected (lit "Website not found. Please check the URL.").

Definition quotedTitleExport : ExportRequest :=
  mkExportRequest
    (Some (JString (lit "Q3 " ++ [34%N] ++ lit "plan" ++ [34%N]),
           Some (map Some (slides oneSlideDeck))))
    Missing.

Definition engineMessage : ExportFailure -> str :=
  fun failure =>
    match failure with
    | RenderRaised _ =>
        lit "Cannot read properties of undefined (reading 'type')"
    | SlideIsNull _ _ _ =>
        lit "Cannot read properties of null (reading 'imageUrl')"
    | TitleIsNoString _ _ _ =>
        lit "presentation.title.replace is not a function"
    end.


(** The value is a string. *)
Definition isText (v : BodyValue) : bool :=
  match v with
  | JString _ => true
  | _ => false
  end.

Definition numberedUrlRequest : UrlRequest :=
  mkUrlRequest (JNumber (lit "42")) Missing Missing None.

(** An export whose second slide is [null]. *)
Definition nullSlideExport : ExportRequest :=
  mkExportRequest
    (Some (JString (lit "Solar energy"),
           Some [Some (basicSlide (lit "Panels") [lit "Panels face south"]);
                 None]))
    (JString (lit "professional")).

(** The text begins with a newline. *)
Definition startsWithNewline (s : str) : bool :=
  match s with
  | c :: _ => (c =? LF)%N
  | [] => false
  end.

(** A JSON parser that reads the solar deck in the text ["{ }"] and
    fails on every other text, and a service that always replies with
    that text, fenced. *)
Definition parsesSolar : str -> option (str * option (list Slide)) :=
  fun text =>
    if str_eqb text (lit "{ }")
    then Some (lit "Solar energy", Some (slides threeSlideDeck))
    else None.

Definition geminiReplies : str -> Z -> Outcome str :=
  fun _ _ =>
    Resolved (lit "```json" ++ [LF] ++ lit "{ }" ++ [LF] ++ lit "```").

Definition openaiUnused : str -> Z -> Outcome str :=
  fun _ _ => Rejected (lit "not configured").

(** A deck as the generative service returns it: titled, every slide
    with a title and a list of points, and with an image when it has a
    keyword. *)
Definition wellFormed (deck : Deck) : Prop :=
  title deck <> []
  /\ Forall (fun slide =>
               slideTitle slide <> [] /\ points slide <> None
               /\ match imageKeyword slide with
                  | Some (_ :: _) => hasImageOf slide = true
                  | _ => True
                  end)
       (slides deck).

(** The generative service fails on every request. *)
Definition serviceFails (generatePresentation : str -> Z -> Outcome Deck)
    : Prop :=
  forall content count,
    exists message, generatePresentation content count = Rejected message.

(** The answer of a generation handler, when it is a deck, can be sent
    to the export route as it is. *)
Definition exportable (fetch : FetchSite -> str -> FetchOutcome)
    (today : str) (messageOf : ExportFailure -> str) (themeName : str)
    (answer : Response) : Prop :=
  forall status title slides,
    answer = Json status title slides ->
    exists file : Presentation,
      exportToPowerPoint fetch today messageOf
        (mkExportRequest (Some (JString title, Some (map Some slides)))
           (JString themeName))
      = Download (filenameOf title) file
      /\ length (renderedSlides file) = length slides + 2.

End MoreStatements.

(* ================================================================== *)
(** * Properties *)
(* ================================================================== *)

(** ** Layout selection *)

Module LayoutSpec.

Import PptxExport Statements.

Lemma even_index (index : Z) :
  (Z.rem index 2 =? 0)%Z = Z.even index.
Proof. symmetry. apply Zquot.Zeven_rem. Qed.

(** C1.  The layout of a slide depends on the slide only through the
    presence of a resolved image and the number of its points, and is
    chosen in a fixed order: index 0 gets the full-image title layout;
    otherwise the last index gets the clean summary; otherwise an image
    with at most 3 points gets the image-dominant layout; otherwise an
    image gets the split layout, image on the right at an even index and
    on the left at an odd one; otherwise, without image, the gradient
    background. *)
Theorem determineSlideLayout_priority :
  forall (index totalSlides : Z) (slideData : Slide),
    (index = 0%Z ->
     determineSlideLayout index totalSlides slideData = TITLE_FULL_IMAGE)
    /\ (index <> 0%Z -> index = (totalSlides - 1)%Z ->
        determineSlideLayout index totalSlides slideData = SUMMARY_CLEAN)
    /\ (index <> 0%Z -> index <> (totalSlides - 1)%Z ->
        hasImageOf slideData = true -> pointCountOf slideData <= 3 ->
        determineSlideLayout index totalSlides slideData
        = CONCEPT_IMAGE_DOMINANT)
    /\ (index <> 0%Z -> index <> (totalSlides - 1)%Z ->
        hasImageOf slideData = true -> 3 < pointCountOf slideData ->
        determineSlideLayout index totalSlides slideData
        = if Z.even index then SPLIT_RIGHT_IMAGE else SPLIT_LEFT_IMAGE)
    /\ (index <> 0%Z -> index <> (totalSlides - 1)%Z ->
        hasImageOf slideData = false ->
        determineSlideLayout index totalSlides slideData
        = GRADIENT_BACKGROUND)
    /\ (forall other : Slide,
          hasImageOf other = hasImageOf slideData ->
          pointCountOf other = pointCountOf slideData ->
          determineSlideLayout index totalSlides other
          = determineSlideLayout index totalSlides slideData).
Proof.
  intros index totalSlides slideData. unfold determineSlideLayout.
  rewrite even_index.
  repeat split.
  - intros ->. reflexivity.
  - intros Hfirst Hlast.
    apply Z.eqb_neq in Hfirst. rewrite Hfirst.
    apply Z.eqb_eq in Hlast. rewrite Hlast. reflexivity.
  - intros Hfirst Hlast Himage Hfew.
    apply Z.eqb_neq in Hfirst, Hlast. rewrite Hfirst, Hlast, Himage.
    apply Nat.leb_le in Hfew. rewrite Hfew. reflexivity.
  - intros Hfirst Hlast Himage Hmany.
    apply Z.eqb_neq in Hfirst, Hlast. rewrite Hfirst, Hlast, Himage.
    assert (Hnot : (pointCountOf slideData <=? 3) = false)
      by (apply Nat.leb_gt; exact Hmany).
    rewrite Hnot. reflexivity.
  - intros Hfirst Hlast Himage.
    apply Z.eqb_neq in Hfirst, Hlast. rewrite Hfirst, Hlast, Himage.
    reflexivity.
  - intros other Himage Hcount. rewrite Himage, Hcount.
    reflexivity.
Qed.

(** In a deck of five, the slide at index 2 with an image and six
    points has its image on the right. *)
Lemma determineSlideLayout_priority_witness :
  determineSlideLayout 2 5 sixPointSlide = SPLIT_RIGHT_IMAGE.
Proof.
  apply (proj1 (proj2 (proj2 (proj2
           (determineSlideLayout_priority 2 5 sixPointSlide))))).
  - discriminate.
  - discriminate.
  - reflexivity.
  - change (3 < 6). lia.
Defined.

End LayoutSpec.

(** ** The renderer *)

Module RenderSpec.

Import PptxExport Statements.

Lemma registry_themed key t :
  ownProperty key THEMES = Some t -> themed t.
Proof.
  unfold THEMES, ownProperty.
  repeat match goal with
         | |- context [str_eqb ?a key] =>
             destruct (str_eqb a key);
             [ intros [= <-]; eexists; reflexivity | ]
         end.
  discriminate.
Qed.

Lemma resolveTheme_themed themeName :
  existsb (str_eqb themeName) objectPrototypeKeys = false ->
  themed (resolveTheme themeName).
Proof.
  intros Hproto. unfold resolveTheme, getProperty. rewrite Hproto.
  destruct (ownProperty themeName THEMES) as [t|] eqn:Hown.
  - eapply registry_themed; eassumption.
  - eexists; reflexivity.
Qed.

Lemma addGradientBackground_themed slide t :
  themed t -> exists slide', addGradientBackground slide t = Ok slide'.
Proof.
  intros [bg Hbg]. unfold addGradientBackground. rewrite Hbg.
  destruct bg; eexists; reflexivity.
Qed.

Lemma firstBackgroundColor_themed t :
  themed t -> exists c, firstBackgroundColor t = Ok c.
Proof.
  intros [bg Hbg]. unfold firstBackgroundColor. rewrite Hbg.
  destruct bg; eexists; reflexivity.
Qed.

(** With a themed theme and no image, every layout builds its slide,
    and the slide holds no image. *)
Lemma applyLayout_without_image layout slideData t index totalSlides :
  themed t ->
  exists slide,
    applyLayout layout newSlide slideData None t index totalSlides = Ok slide
    /\ imageFree slide = true.
Proof.
  intros [bg Hbg].
  destruct layout; unfold applyLayout, createSplitRightImageSlide,
    createSplitLeftImageSlide, createConceptDominantSlide,
    createSummarySlide, createGradientBackgroundSlide,
    addGradientBackground, firstBackgroundColor, bind;
    rewrite Hbg; destruct bg;
    (destruct (points slideData) as [[|p ps]|]);
    (eexists; split; [reflexivity | reflexivity]).
Qed.

(** With a themed theme every layout builds its slide, image or not. *)
Lemma applyLayout_themed layout slideData imageData t index totalSlides :
  themed t ->
  exists slide,
    applyLayout layout newSlide slideData imageData t index totalSlides
    = Ok slide.
Proof.
  intros [bg Hbg].
  destruct layout; unfold applyLayout, createSplitRightImageSlide,
    createSplitLeftImageSlide, createConceptDominantSlide,
    createSummarySlide, createGradientBackgroundSlide,
    addGradientBackground, firstBackgroundColor, bind;
    rewrite Hbg; destruct bg; destruct imageData;
    (destruct (points slideData) as [[|p ps]|]);
    (eexists; reflexivity).
Qed.

Section Rendering.

Variable fetch : FetchSite -> str -> FetchOutcome.
Variable today : str.

Lemma contentSlide_themed t totalSlides index slideData :
  themed t ->
  exists slide, contentSlide fetch t totalSlides index slideData = Ok slide.
Proof.
  intros Ht. unfold contentSlide.
  match goal with
  | |- context [applyLayout ?l newSlide slideData ?img t index totalSlides] =>
      destruct (applyLayout_themed l slideData img t index totalSlides Ht)
        as [slide Hslide]; rewrite Hslide
  end.
  eexists; reflexivity.
Qed.

(** The content loop adds one slide per slide of the deck, in order,
    after the slides already there. *)
Lemma contentLoop_adds t totalSlides :
  forall rest index pptx pptx',
    contentLoop fetch t totalSlides index rest pptx = Ok pptx' ->
    exists added,
      renderedSlides pptx' = renderedSlides pptx ++ added
      /\ length added = length rest
      /\ forall k slideData,
           nth_error rest k = Some slideData ->
           exists slide,
             contentSlide fetch t totalSlides (index + Z.of_nat k) slideData
             = Ok slide
             /\ nth_error added k = Some slide.
Proof.
  induction rest as [|slideData rest IH]; intros index pptx pptx' Hloop.
  - injection Hloop as <-. exists []. rewrite app_nil_r.
    repeat split. intros [|k] sd Hk; discriminate.
  - simpl in Hloop.
    destruct (contentSlide fetch t totalSlides index slideData)
      as [slide|e] eqn:Hslide; [|discriminate].
    simpl in Hloop. apply IH in Hloop as (added & Hall & Hlen & Hnth).
    exists (slide :: added). simpl in Hall. rewrite <- app_assoc in Hall.
    repeat split.
    + exact Hall.
    + simpl. now rewrite Hlen.
    + intros [|k] sd Hk.
      * injection Hk as <-. exists slide. rewrite Z.add_0_r. now split.
      * simpl in Hk. apply Hnth in Hk as (s' & Hs' & Hadded).
        exists s'. split; [|exact Hadded].
        rewrite <- Hs'. f_equal. lia.
Qed.

Lemma contentLoop_themed t totalSlides :
  themed t ->
  forall rest index pptx,
    exists pptx', contentLoop fetch t totalSlides index rest pptx = Ok pptx'.
Proof.
  intros Ht. induction rest as [|slideData rest IH]; intros index pptx.
  - eexists; reflexivity.
  - simpl.
    destruct (contentSlide_themed t totalSlides index slideData Ht)
      as [slide Hslide].
    rewrite Hslide. simpl. apply IH.
Qed.

Lemma titleSlideOf_themed t deck :
  themed t -> exists slide, titleSlideOf fetch today t deck = Ok slide.
Proof.
  intros [bg Hbg]. unfold titleSlideOf, addGradientBackground, bind.
  rewrite Hbg.
  destruct (match slides deck with
            | [] => None
            | first :: _ =>
                match imageUrl first with
                | Some ((_ :: _) as firstSlideImage) =>
                    downloadImageAsBase64 (fetch forTitleSlide firstSlideImage)
                | _ => None
                end
            end); destruct bg; eexists; reflexivity.
Qed.

Lemma thankYouSlideOf_themed t :
  themed t -> exists slide, thankYouSlideOf t = Ok slide.
Proof.
  intros [bg Hbg]. unfold thankYouSlideOf, addGradientBackground, bind.
  rewrite Hbg. destruct bg; eexists; reflexivity.
Qed.

(** What a finished render holds: the title slide, the content slides,
    the closing slide. *)
Lemma generatePowerPoint_shape deck themeName doc :
  generatePowerPoint fetch today deck themeName = Ok doc ->
  exists titleSlide added thankYouSlide,
    titleSlideOf fetch today (resolveTheme themeName) deck = Ok titleSlide
    /\ thankYouSlideOf (resolveTheme themeName) = Ok thankYouSlide
    /\ renderedSlides doc = titleSlide :: added ++ [thankYouSlide]
    /\ length added = length (slides deck)
    /\ forall k slideData,
         nth_error (slides deck) k = Some slideData ->
         exists slide,
           contentSlide fetch (resolveTheme themeName)
             (Z.of_nat (length (slides deck))) (Z.of_nat k) slideData
           = Ok slide
           /\ nth_error added k = Some slide.
Proof.
  unfold generatePowerPoint. intros Hgen.
  destruct (titleSlideOf fetch today (resolveTheme themeName) deck)
    as [titleSlide|e] eqn:Htitle; [|discriminate].
  simpl in Hgen.
  match type of Hgen with
  | bind (contentLoop ?f ?t ?n ?i ?r ?p) _ = _ =>
      destruct (contentLoop f t n i r p) as [pptx|e] eqn:Hloop;
      [|discriminate]
  end.
  simpl in Hgen.
  destruct (thankYouSlideOf (resolveTheme themeName))
    as [thankYouSlide|e] eqn:Hthanks; [|discriminate].
  simpl in Hgen. injection Hgen as <-.
  apply contentLoop_adds in Hloop as (added & Hall & Hlen & Hnth).
  exists titleSlide, added, thankYouSlide. simpl.
  rewrite Hall. simpl. repeat split.
  - exact Hlen.
  - intros k slideData Hk. apply Hnth in Hk. exact Hk.
Qed.

(** The closing slide says "Thank You!". *)
Lemma thankYouSlideOf_text t slide :
  thankYouSlideOf t = Ok slide ->
  exists box options,
    In (Text (Plain (lit "Thank You!")) box options) (elements slide).
Proof.
  unfold thankYouSlideOf, addGradientBackground, bind.
  destruct (background t) as [[c0 c1|c]|]; intros [= <-];
    do 2 eexists; simpl; auto 10.
Qed.

Lemma generatePowerPoint_themed deck themeName :
  themed (resolveTheme themeName) ->
  exists doc, generatePowerPoint fetch today deck themeName = Ok doc.
Proof.
  intros Ht. unfold generatePowerPoint.
  destruct (titleSlideOf_themed _ deck Ht) as [titleSlide Htitle].
  rewrite Htitle. simpl.
  match goal with
  | |- context [contentLoop ?f ?t ?n ?i ?r ?p] =>
      destruct (contentLoop_themed t n Ht r i p) as [pptx Hloop];
      rewrite Hloop
  end.
  simpl. destruct (thankYouSlideOf_themed _ Ht) as [thankYouSlide Hthanks].
  rewrite Hthanks. simpl. eexists; reflexivity.
Qed.

End Rendering.

(** C2.  A render that completes holds exactly one slide per slide of
    the deck plus two: the title slide, then the content slides, then the
    closing slide.  A render completes for every theme name that does not
    name a property inherited from [Object.prototype]; one slide gives 3,
    twenty give 22. *)
Theorem generatePowerPoint_slide_count :
  forall (fetch : FetchSite -> str -> FetchOutcome) (today : str)
         (deck : Deck) (themeName : str),
    (forall doc,
        generatePowerPoint fetch today deck themeName = Ok doc ->
        length (renderedSlides doc) = length (slides deck) + 2
        /\ exists titleSlide added thankYouSlide,
             titleSlideOf fetch today (resolveTheme themeName) deck
             = Ok titleSlide
             /\ thankYouSlideOf (resolveTheme themeName) = Ok thankYouSlide
             /\ length added = length (slides deck)
             /\ renderedSlides doc = titleSlide :: added ++ [thankYouSlide])
    /\ (existsb (str_eqb themeName) objectPrototypeKeys = false ->
        exists doc,
          generatePowerPoint fetch today deck themeName = Ok doc
          /\ length (renderedSlides doc) = length (slides deck) + 2
          /\ (length (slides deck) = 1 -> length (renderedSlides doc) = 3)
          /\ (length (slides deck) = 20 -> length (renderedSlides doc) = 22)).
Proof.
  intros fetch today deck themeName.
  assert (Hcount : forall doc,
             generatePowerPoint fetch today deck themeName = Ok doc ->
             length (renderedSlides doc) = length (slides deck) + 2).
  { intros doc Hgen.
    apply generatePowerPoint_shape in Hgen
      as (titleSlide & added & thankYouSlide & _ & _ & Hall & Hlen & _).
    rewrite Hall. simpl. rewrite length_app. simpl. lia. }
  split.
  { intros doc Hgen. split; [apply Hcount; exact Hgen|].
    apply generatePowerPoint_shape in Hgen
      as (titleSlide & added & thankYouSlide & Htitle & Hthanks & Hall
          & Hlen & _).
    exists titleSlide, added, thankYouSlide. auto. }
  intros Hname.
  destruct (generatePowerPoint_themed fetch today deck themeName
              (resolveTheme_themed themeName Hname)) as [doc Hgen].
  exists doc. pose proof (Hcount doc Hgen) as Hn.
  repeat split; [exact Hgen | exact Hn | lia | lia].
Qed.

Lemma generatePowerPoint_slide_count_witness :
  exists doc,
    generatePowerPoint offline aDate oneSlideDeck (lit "professional") = Ok doc
    /\ length (renderedSlides doc) = 1 + 2
    /\ (1 = 1 -> length (renderedSlides doc) = 3)
    /\ (1 = 20 -> length (renderedSlides doc) = 22).
Proof.
  apply (proj2 (generatePowerPoint_slide_count offline aDate oneSlideDeck
                  (lit "professional"))).
  reflexivity.
Defined.

Lemma imageFree_addSlideNumber slide t index :
  imageFree slide = true -> imageFree (addSlideNumber slide t index) = true.
Proof.
  unfold imageFree, addSlideNumber, addText, add. simpl.
  intros Hfree. rewrite forallb_app, Hfree. reflexivity.
Qed.

(** C6, as stated, fails: the slide at index 1 of [threeSlideDeck] has an
    image that cannot be fetched, and is not rendered as a
    gradient-background slide (it keeps the split layout). *)
Lemma failed_image_is_not_gradient_background :
  ~ renderedAsGradientBackground offline aDate threeSlideDeck
      (lit "professional") 1.
Proof.
  intros (doc & slideData & plain & Hgen & Hnth & Hplain & Hslide).
  vm_compute in Hnth. injection Hnth as <-.
  vm_compute in Hplain. injection Hplain as <-.
  vm_compute in Hgen. injection Hgen as <-.
  vm_compute in Hslide. discriminate Hslide.
Qed.

(** C6, amended.  Rendering completes whatever the network does, and a
    slide whose image could not be fetched keeps the layout selected for
    it, built without image data: the rendered slide holds no image.  (The
    theme name is any name that is not a property inherited from
    [Object.prototype].) *)
Theorem failed_image_keeps_layout :
  forall (fetch : FetchSite -> str -> FetchOutcome) (today : str)
         (deck : Deck) (themeName : str),
    existsb (str_eqb themeName) objectPrototypeKeys = false ->
    exists doc,
      generatePowerPoint fetch today deck themeName = Ok doc
      /\ forall index slideData url,
           nth_error (slides deck) index = Some slideData ->
           imageUrl slideData = Some url ->
           downloadImageAsBase64 (fetch (forContentSlide (Z.of_nat index)) url)
           = None ->
           exists slide,
             applyLayout
               (determineSlideLayout (Z.of_nat index)
                  (Z.of_nat (length (slides deck))) slideData)
               newSlide slideData None (resolveTheme themeName)
               (Z.of_nat index) (Z.of_nat (length (slides deck))) = Ok slide
             /\ nth_error (renderedSlides doc) (S index)
                = Some (addSlideNumber slide (resolveTheme themeName)
                          (Z.of_nat index))
             /\ imageFree (addSlideNumber slide (resolveTheme themeName)
                             (Z.of_nat index)) = true.
Proof.
  intros fetch today deck themeName Hname.
  pose proof (resolveTheme_themed themeName Hname) as Ht.
  destruct (generatePowerPoint_themed fetch today deck themeName Ht)
    as [doc Hgen].
  exists doc. split; [exact Hgen|].
  intros index slideData url Hnth Hurl Hfetch.
  apply generatePowerPoint_shape in Hgen
    as (titleSlide & added & thankYouSlide & _ & _ & Hall & Hlen & Hslides).
  destruct (Hslides index slideData Hnth) as (rendered & Hrendered & Hadded).
  destruct (applyLayout_without_image
              (determineSlideLayout (Z.of_nat index)
                 (Z.of_nat (length (slides deck))) slideData)
              slideData (resolveTheme themeName) (Z.of_nat index)
              (Z.of_nat (length (slides deck))) Ht)
    as (slide & Hslide & Hfree).
  exists slide. split; [exact Hslide|].
  assert (Hsame : rendered
                  = addSlideNumber slide (resolveTheme themeName)
                      (Z.of_nat index)).
  { unfold contentSlide in Hrendered. rewrite Hurl, Hfetch in Hrendered.
    destruct (hasImageOf slideData);
      rewrite Hslide in Hrendered; simpl in Hrendered;
      now injection Hrendered as <-. }
  split.
  - rewrite Hall. simpl. rewrite nth_error_app1.
    + rewrite Hadded, Hsame. reflexivity.
    + apply nth_error_Some. rewrite Hadded. discriminate.
  - apply imageFree_addSlideNumber. exact Hfree.
Qed.

Lemma failed_image_keeps_layout_witness :
  exists doc,
    generatePowerPoint offline aDate threeSlideDeck (lit "professional")
    = Ok doc
    /\ exists slide,
         createSplitLeftImageSlide newSlide
           (nth 1 (slides threeSlideDeck) (basicSlide [] [])) None
           professional 1 = Ok slide
         /\ nth_error (renderedSlides doc) 2
            = Some (addSlideNumber slide professional 1)
         /\ imageFree (addSlideNumber slide professional 1) = true.
Proof.
  destruct (failed_image_keeps_layout offline aDate threeSlideDeck
              (lit "professional") eq_refl) as [doc [Hgen Hslides]].
  exists doc. split; [exact Hgen|].
  exact (Hslides 1 (nth 1 (slides threeSlideDeck) (basicSlide [] []))
           (lit "https://example.org/panels.jpg") eq_refl eq_refl eq_refl).
Defined.

(** C7 fails on the code for the theme name ["constructor"]:
    [THEMES["constructor"]] is the function inherited from
    [Object.prototype], which is truthy, so the default theme is not
    taken; it has no [background], and the render raises a TypeError. *)
Theorem inherited_theme_name_raises :
  forall (fetch : FetchSite -> str -> FetchOutcome) (today : str)
         (deck : Deck),
    generatePowerPoint fetch today deck (lit "constructor") = Throw TypeError.
Proof.
  intros fetch today deck. unfold generatePowerPoint.
  change (resolveTheme (lit "constructor")) with inheritedValue.
  destruct (titleSlideOf fetch today inheritedValue deck) as [titleSlide|[]];
    [|reflexivity].
  simpl.
  match goal with
  | |- context [contentLoop ?f ?t ?n ?i ?r ?p] =>
      destruct (contentLoop f t n i r p) as [pptx|[]]; reflexivity
  end.
Qed.

(** A name of the registry selects its theme, and a name that is neither
    in the registry nor inherited selects the default theme. *)
Lemma resolveTheme_registry :
  Forall (fun entry => resolveTheme (fst entry) = snd entry) THEMES.
Proof. repeat constructor. Qed.

Lemma resolveTheme_unknown themeName :
  getProperty themeName = None -> resolveTheme themeName = professional.
Proof. unfold resolveTheme. now intros ->. Qed.

Lemma resolveTheme_nonexistent :
  resolveTheme (lit "nonexistent") = professional.
Proof. reflexivity. Qed.

End RenderSpec.

(** ** Image resolution *)

Module ImageSpec.

Import Ai Statements.

(** The entry [firstMatch] returns is the first one, in table order,
    whose key the keyword contains. *)
Lemma firstMatch_first lowerKeyword :
  forall entries key url,
    firstMatch lowerKeyword entries = Some (key, url) ->
    exists before after,
      entries = before ++ (key, url) :: after
      /\ includes lowerKeyword key = true
      /\ Forall (fun entry => includes lowerKeyword (fst entry) = false)
           before.
Proof.
  induction entries as [|[k u] rest IH]; intros key url Hfound.
  - discriminate.
  - simpl in Hfound. destruct (includes lowerKeyword k) eqn:Hk.
    + injection Hfound as <- <-. exists [], rest. repeat split; auto.
    + apply IH in Hfound as (before & after & Hsplit & Hin & Hbefore).
      exists ((k, u) :: before), after. rewrite Hsplit.
      repeat split; auto.
Qed.

(** C5, as stated, fails: the keyword "fiber optic cables" does not get
    the URL of the "fiber" entry. *)
Lemma fiber_optic_cables_is_not_fiber :
  entryOf (lit "fiber") = Some (lit "fiber", fiberUrl)
  /\ fst (fetchImageForSlide (lit "fiber optic cables")) <> fiberUrl.
Proof.
  split.
  - reflexivity.
  - vm_compute. discriminate.
Qed.

(** C5, amended.  A keyword that contains a key of the table gets the URL
    of the first such key in declaration order, and is logged as mapped,
    not as a fallback; "fiber optic cables" contains "cable", which is
    declared before "fiber", and gets the URL of the "cable" entry. *)
Theorem fetchImageForSlide_first_match :
  (forall keyword key url,
      firstMatch (toLowerCase (cleanKeywordOf keyword)) imageMapping
      = Some (key, url) ->
      fetchImageForSlide keyword = (url, FoundMapped key)
      /\ exists before after,
           imageMapping = before ++ (key, url) :: after
           /\ includes (toLowerCase (cleanKeywordOf keyword)) key = true
           /\ Forall
                (fun entry =>
                   includes (toLowerCase (cleanKeywordOf keyword)) (fst entry)
                   = false) before)
  /\ fetchImageForSlide (lit "fiber optic cables")
     = (cableUrl, FoundMapped (lit "cable"))
  /\ entryOf (lit "cable") = Some (lit "cable", cableUrl)
  /\ includes (lit "fiber optic cables") (lit "fiber") = true.
Proof.
  split; [|repeat split; reflexivity].
  intros keyword key url Hfound. split.
  - unfold fetchImageForSlide. rewrite Hfound. reflexivity.
  - apply firstMatch_first. exact Hfound.
Qed.

Lemma fetchImageForSlide_first_match_witness :
  fetchImageForSlide (lit "Data security basics")
  = (unsplash "1551288049-bebda4e38f71", FoundMapped (lit "data")).
Proof.
  apply (proj1 fetchImageForSlide_first_match (lit "Data security basics")).
  reflexivity.
Defined.

(** Without a matching key the image comes from the fallback pool, at the
    index the hash of the keyword selects. *)
Lemma fetchImageForSlide_fallback keyword :
  firstMatch (toLowerCase (cleanKeywordOf keyword)) imageMapping = None ->
  exists index,
    index < length fallbackImages
    /\ fetchImageForSlide keyword
       = (nth index fallbackImages [], UsingFallback index).
Proof.
  intros Hnone. unfold fetchImageForSlide. rewrite Hnone.
  eexists. split; [|reflexivity].
  apply Nat2Z.inj_lt. rewrite Z2Nat.id.
  - apply Z.mod_pos_bound. reflexivity.
  - apply Z.mod_pos_bound. reflexivity.
Qed.

End ImageSpec.

(** ** Request validation *)

Module SlideCountSpec.

Import GenerateController Statements.

(** C10, as stated, fails: 0 is below 1 and becomes 5, not 1. *)
Lemma zero_slide_count_is_not_one :
  validateSlideCount (JNumber (lit "0")) = 5%Z
  /\ validateSlideCount (JNumber (lit "0")) <> 1%Z.
Proof. split; [reflexivity | discriminate]. Qed.

(** C10, amended.  The slide count a handler works with is always in
    [1, 20]: a value that [parseInt] reads as a nonzero number is clamped
    (above 20 gives 20, below 1 gives 1), and a value that is missing, is
    not numeric or reads as 0 gives the default 5. *)
Theorem validateSlideCount_clamps :
  forall v : BodyValue,
    (1 <= validateSlideCount v <= 20)%Z
    /\ (forall z, parseInt v = Some z -> z <> 0%Z ->
        validateSlideCount v = Z.min (Z.max z 1) 20
        /\ ((20 < z)%Z -> validateSlideCount v = 20%Z)
        /\ ((z < 1)%Z -> validateSlideCount v = 1%Z)
        /\ ((1 <= z <= 20)%Z -> validateSlideCount v = z))
    /\ (parseInt v = Some 0%Z -> validateSlideCount v = 5%Z)
    /\ (v = Missing \/ parseInt v = None -> validateSlideCount v = 5%Z).
Proof.
  intros v.
  assert (Hrange : forall p, (1 <= Z.min (Z.max p 1) 20 <= 20)%Z) by lia.
  assert (Hread : forall z, parseInt v = Some z -> z <> 0%Z ->
                            validateSlideCount v = Z.min (Z.max z 1) 20).
  { intros z Hz Hnz. unfold validateSlideCount.
    destruct v; try discriminate; rewrite Hz;
      destruct (Z.eqb_spec z 0); congruence. }
  repeat split.
  - unfold validateSlideCount. apply Hrange.
  - unfold validateSlideCount. apply Hrange.
  - auto.
  - intros Hbig. rewrite (Hread z) by assumption. lia.
  - intros Hsmall. rewrite (Hread z) by assumption. lia.
  - intros Hin. rewrite (Hread z) by assumption. lia.
  - intros Hz. unfold validateSlideCount.
    destruct v; try discriminate; rewrite Hz; reflexivity.
  - intros [-> | Hnan]; [reflexivity|].
    unfold validateSlideCount. destruct v; try reflexivity;
      rewrite Hnan; reflexivity.
Qed.

Lemma validateSlideCount_clamps_witness :
  validateSlideCount (JString (lit "250 slides")) = 20%Z.
Proof.
  apply (proj1 (proj2 (proj1 (proj2
           (validateSlideCount_clamps (JString (lit "250 slides"))))
           250%Z eq_refl ltac:(discriminate)))).
  reflexivity.
Defined.

End SlideCountSpec.

(** ** The fallback slide builder for plain text *)

Module FallbackSpec.

Import PdfHandler Statements.

Lemma ceilDiv_positive a b : 1 <= a -> 1 <= b -> 1 <= ceilDiv a b.
Proof.
  intros Ha Hb. unfold ceilDiv. apply Nat.div_str_pos. lia.
Qed.

Lemma pushGroup_cases slideParas currentSlide slides :
  pushGroup slideParas currentSlide slides = slides
  \/ pushGroup slideParas currentSlide slides
     = slides ++ [basicSlide (slideTitleOf slideParas currentSlide)
                    (pointsOf slideParas)].
Proof.
  unfold pushGroup. destruct (0 <? length (pointsOf slideParas)); auto.
Qed.

Lemma pushGroup_length slideParas currentSlide slides :
  length (pushGroup slideParas currentSlide slides) <= S (length slides).
Proof.
  destruct (pushGroup_cases slideParas currentSlide slides) as [-> | ->].
  - lia.
  - rewrite length_app. simpl. lia.
Qed.

Section Loop.

Variable paragraphs : list str.
Variables slideCount paragraphsPerSlide : nat.

(** A property of [(i, currentSlide, slides)] that every turn of the
    loop keeps holds of its result. *)
Lemma slidesLoop_invariant (Inv : nat -> nat -> list Slide -> Prop) :
  (forall i currentSlide slides,
      Inv i currentSlide slides ->
      i < length paragraphs -> length slides < slideCount ->
      Inv (i + paragraphsPerSlide) (S currentSlide)
        (pushGroup (slice paragraphs i (i + paragraphsPerSlide))
           currentSlide slides)) ->
  forall fuel i currentSlide slides result,
    Inv i currentSlide slides ->
    slidesLoop fuel paragraphs slideCount paragraphsPerSlide i currentSlide
      slides = Some result ->
    exists i' currentSlide', Inv i' currentSlide' result.
Proof.
  intros Hstep.
  induction fuel as [|fuel IH]; intros i currentSlide slides result Hinv;
    simpl;
    destruct ((i <? length paragraphs) && (length slides <? slideCount))
      eqn:Hguard; intros Hloop; try discriminate;
    try (injection Hloop as <-; eauto; fail).
  apply andb_prop in Hguard as [Hi Hroom].
  apply Nat.ltb_lt in Hi, Hroom.
  eapply IH; [|exact Hloop]. apply Hstep; assumption.
Qed.

(** The loop stops: every turn moves [i] forward. *)
Lemma slidesLoop_terminates :
  1 <= paragraphsPerSlide ->
  forall fuel i currentSlide slides,
    length paragraphs <= i + fuel ->
    exists result,
      slidesLoop fuel paragraphs slideCount paragraphsPerSlide i currentSlide
        slides = Some result.
Proof.
  intros Hpps.
  induction fuel as [|fuel IH]; intros i currentSlide slides Hfuel; simpl;
    destruct ((i <? length paragraphs) && (length slides <? slideCount))
      eqn:Hguard; eauto.
  - apply andb_prop in Hguard as [Hi _]. apply Nat.ltb_lt in Hi. lia.
  - apply IH. lia.
Qed.

End Loop.

(** The loop of [textToBasicSlides] ends, with at most [slideCount]
    slides. *)
Lemma textToBasicSlides_loop text slideCount :
  let paragraphs := paragraphsOf (cleanExtractedText text) in
  exists produced,
    slidesLoop (length paragraphs) paragraphs slideCount
      (ceilDiv (length paragraphs) slideCount) 0 1 [] = Some produced
    /\ length produced <= slideCount.
Proof.
  intros paragraphs.
  assert (Hends : exists produced,
             slidesLoop (length paragraphs) paragraphs slideCount
               (ceilDiv (length paragraphs) slideCount) 0 1 []
             = Some produced).
  { destruct (Nat.eq_dec slideCount 0) as [-> | Hcount].
    - exists []. destruct (length paragraphs); simpl;
        rewrite andb_false_r; reflexivity.
    - destruct paragraphs as [|p ps] eqn:Hps.
      + exists []. reflexivity.
      + apply slidesLoop_terminates; [|lia].
        apply ceilDiv_positive; simpl; lia. }
  destruct Hends as [produced Hloop]. exists produced. split; [exact Hloop|].
  assert (Hstep : forall i currentSlide slides,
             length slides <= slideCount ->
             i < length paragraphs -> length slides < slideCount ->
             length
               (pushGroup
                  (slice paragraphs i
                     (i + ceilDiv (length paragraphs) slideCount))
                  currentSlide slides) <= slideCount).
  { intros i currentSlide slides _ _ Hroom.
    pose proof (pushGroup_length
                  (slice paragraphs i
                     (i + ceilDiv (length paragraphs) slideCount))
                  currentSlide slides).
    lia. }
  destruct (slidesLoop_invariant paragraphs slideCount
              (ceilDiv (length paragraphs) slideCount)
              (fun _ _ slides => length slides <= slideCount)
              Hstep (length paragraphs) 0 1 [] produced (Nat.le_0_l _) Hloop)
    as (_ & _ & Hlen).
  exact Hlen.
Qed.

(** [textToBasicSlides] returns a deck for every text and slide count. *)
Lemma textToBasicSlides_total text slideCount :
  exists deck, textToBasicSlides text slideCount = Some deck.
Proof.
  destruct (textToBasicSlides_loop text slideCount) as (produced & Hloop & _).
  unfold textToBasicSlides. rewrite Hloop. eexists; reflexivity.
Qed.

(** C4.  For a text of 50 to 50,000 characters and a slide count from 1
    to 20, the fallback builder returns a deck with at least one and at
    most [slideCount] slides; when the loop over the paragraphs produced
    no slide, the deck is the single slide "Content Overview". *)
Theorem textToBasicSlides_slide_count :
  forall (text : str) (slideCount : nat),
    50 <= length text -> (Z.of_nat (length text) <= 50000)%Z ->
    1 <= slideCount <= 20 ->
    exists deck produced,
      textToBasicSlides text slideCount = Some deck
      /\ 1 <= length (slides deck) <= slideCount
      /\ slidesLoop (length (paragraphsOf (cleanExtractedText text)))
           (paragraphsOf (cleanExtractedText text)) slideCount
           (ceilDiv (length (paragraphsOf (cleanExtractedText text)))
              slideCount) 0 1 [] = Some produced
      /\ (produced = [] ->
          slides deck = [overviewSlide (cleanExtractedText text)]
          /\ slideTitle (overviewSlide (cleanExtractedText text))
             = lit "Content Overview")
      /\ (produced <> [] -> slides deck = produced).
Proof.
  intros text slideCount _ _ [Hlow _].
  destruct (textToBasicSlides_loop text slideCount)
    as (produced & Hloop & Hlen).
  unfold textToBasicSlides. rewrite Hloop.
  eexists; exists produced. split; [reflexivity|]. simpl.
  destruct produced as [|s produced]; simpl in *.
  - repeat split; try lia; try reflexivity. congruence.
  - repeat split; try lia; try reflexivity. discriminate.
Qed.

Lemma textToBasicSlides_slide_count_witness :
  exists deck,
    textToBasicSlides windText 5 = Some deck
    /\ 1 <= length (slides deck) <= 5.
Proof.
  destruct (textToBasicSlides_slide_count windText 5)
    as (deck & produced & Hdeck & Hlen & _).
  - vm_compute. lia.
  - vm_compute. discriminate.
  - lia.
  - exists deck. split; [exact Hdeck | exact Hlen].
Defined.

Lemma slice_nonempty (paragraphs : list str) i n :
  i < length paragraphs -> 1 <= n -> slice paragraphs i (i + n) <> [].
Proof.
  intros Hi Hn Hempty. apply (f_equal (@length str)) in Hempty.
  unfold slice in Hempty. rewrite length_firstn, length_skipn in Hempty.
  simpl in Hempty. lia.
Qed.

(** The title the loop gives to the slide of a group. *)
Lemma slideTitleOf_cases slideParas currentSlide :
  let firstSentence := firstSentenceOf (hd [] slideParas) in
  (11 <= length firstSentence <= 99 ->
   slideTitleOf slideParas currentSlide = trim firstSentence)
  /\ (~ 11 <= length firstSentence <= 99 ->
      slideTitleOf slideParas currentSlide
      = lit "Section " ++ showNat currentSlide).
Proof.
  intros firstSentence. unfold slideTitleOf. fold firstSentence.
  destruct (Nat.ltb_spec 10 (length firstSentence));
    destruct (Nat.ltb_spec (length firstSentence) 100); simpl;
    split; intros; try reflexivity; lia.
Qed.

(** C8, as stated, fails: the first sentence of [solarText], "Solar
    rays", is 10 characters long, and the slide of its group is titled
    "Section 1". *)
Lemma ten_character_sentence_is_not_the_title :
  groupOf solarText 5 0 = [solarText]
  /\ specifiedTitle (groupOf solarText 5 0) 1 = lit "Solar rays"
  /\ textToBasicSlides solarText 5
     = Some (mkDeck (lit "Extracted Content")
               [basicSlide (lit "Section 1")
                  [lit "They power many modern homes and farms"]]).
Proof. repeat split; reflexivity. Qed.

(** C8, amended.  Every slide of the deck is the "Content Overview"
    slide or the slide of a paragraph group; the title of the slide of the
    group with ordinal [k + 1] is the first sentence of the first paragraph
    of the group, trimmed, when that sentence is 11 to 99 characters long
    before trimming, and "Section" followed by the ordinal otherwise. *)
Theorem slide_title_of_group :
  forall (text : str) (slideCount : nat) (deck : Deck) (slide : Slide),
    textToBasicSlides text slideCount = Some deck ->
    In slide (slides deck) ->
    slide = overviewSlide (cleanExtractedText text)
    \/ exists k,
         let slideParas := groupOf text slideCount k in
         let firstSentence := firstSentenceOf (hd [] slideParas) in
         slideParas <> []
         /\ points slide = Some (pointsOf slideParas)
         /\ (11 <= length firstSentence <= 99 ->
             slideTitle slide = trim firstSentence)
         /\ (~ 11 <= length firstSentence <= 99 ->
             slideTitle slide = lit "Section " ++ showNat (k + 1)).
Proof.
  intros text slideCount deck slide Hdeck Hin.
  unfold textToBasicSlides in Hdeck.
  set (paragraphs := paragraphsOf (cleanExtractedText text)) in *.
  set (pps := ceilDiv (length paragraphs) slideCount) in *.
  destruct (slidesLoop (length paragraphs) paragraphs slideCount pps 0 1 [])
    as [produced|] eqn:Hloop; [|discriminate].
  injection Hdeck as <-. simpl in Hin.
  pose (titled := fun s : Slide =>
          exists k,
            slice paragraphs (k * pps) (k * pps + pps) <> []
            /\ points s
               = Some (pointsOf (slice paragraphs (k * pps) (k * pps + pps)))
            /\ slideTitle s
               = slideTitleOf (slice paragraphs (k * pps) (k * pps + pps))
                   (k + 1)).
  assert (Hstep : forall i currentSlide slides,
             (i = (currentSlide - 1) * pps /\ 1 <= currentSlide
              /\ Forall titled slides) ->
             i < length paragraphs -> length slides < slideCount ->
             i + pps = (S currentSlide - 1) * pps /\ 1 <= S currentSlide
             /\ Forall titled
                  (pushGroup (slice paragraphs i (i + pps)) currentSlide
                     slides)).
  { intros i currentSlide slides (Hi & Hcur & Hall) Hlt Hroom.
    assert (Hpps : 1 <= pps) by (apply ceilDiv_positive; lia).
    split; [|split; [lia|]].
    - rewrite Hi. replace (S currentSlide - 1) with (S (currentSlide - 1))
        by lia. simpl. lia.
    - destruct (pushGroup_cases (slice paragraphs i (i + pps)) currentSlide
                  slides) as [-> | ->]; [exact Hall|].
      apply Forall_app. split; [exact Hall|].
      constructor; [|constructor].
      exists (currentSlide - 1). rewrite <- Hi.
      replace (currentSlide - 1 + 1) with currentSlide by lia.
      repeat split. apply slice_nonempty; assumption. }
  destruct (slidesLoop_invariant paragraphs slideCount pps
              (fun i currentSlide slides =>
                 i = (currentSlide - 1) * pps /\ 1 <= currentSlide
                 /\ Forall titled slides)
              Hstep (length paragraphs) 0 1 [] produced
              (conj eq_refl (conj (le_n 1) (Forall_nil titled))) Hloop)
    as (_ & _ & _ & _ & Hall).
  destruct produced as [|s produced]; simpl in Hin.
  - left. destruct Hin as [<- | []]. reflexivity.
  - right. rewrite Forall_forall in Hall.
    destruct (Hall slide Hin) as (k & Hgroup & Hpoints & Htitle).
    exists k. unfold groupOf. fold paragraphs. fold pps.
    pose proof (slideTitleOf_cases
                  (slice paragraphs (k * pps) (k * pps + pps)) (k + 1))
      as [Hfirst Hsection].
    repeat split.
    + exact Hgroup.
    + exact Hpoints.
    + intros Hlen. rewrite Htitle. apply Hfirst. exact Hlen.
    + intros Hlen. rewrite Htitle. apply Hsection. exact Hlen.
Qed.

Lemma slide_title_of_group_witness :
  windFirstSlide = overviewSlide (cleanExtractedText windText)
  \/ exists k,
       groupOf windText 5 k <> []
       /\ points windFirstSlide = Some (pointsOf (groupOf windText 5 k))
       /\ (11 <= length (firstSentenceOf (hd [] (groupOf windText 5 k))) <= 99 ->
           slideTitle windFirstSlide
           = trim (firstSentenceOf (hd [] (groupOf windText 5 k))))
       /\ (~ 11 <= length (firstSentenceOf (hd [] (groupOf windText 5 k))) <= 99 ->
           slideTitle windFirstSlide = lit "Section " ++ showNat (k + 1)).
Proof.
  apply (slide_title_of_group windText 5 windDeck).
  - vm_compute. reflexivity.
  - left. reflexivity.
Defined.

End FallbackSpec.

(** ** Text cleaning *)

Module CleaningSpec.

Import PdfHandler Statements.

Lemma hasTripleNewline_tail a t :
  hasTripleNewline (a :: t) = false -> hasTripleNewline t = false.
Proof. simpl. intros H. apply orb_false_elim in H. apply H. Qed.

Lemma repeat_shift (c : char) n (s : str) :
  repeat c (S n) ++ s = repeat c n ++ c :: s.
Proof.
  induction n as [|n IH]; [reflexivity|].
  simpl in *. rewrite IH. reflexivity.
Qed.

Lemma collapseNewlinesFrom_fixed :
  forall s run,
    hasTripleNewline (repeat LF run ++ s) = false ->
    collapseNewlinesFrom run s = repeat LF run ++ s.
Proof.
  induction s as [|c r IH]; intros run Hnone.
  - destruct run as [|[|[|run]]]; try reflexivity.
    simpl in Hnone. discriminate.
  - simpl. destruct (N.eqb_spec c LF) as [-> | Hc].
    + rewrite IH.
      * apply repeat_shift.
      * rewrite repeat_shift. exact Hnone.
    + destruct run as [|[|[|run]]].
      * simpl in *. rewrite IH; [reflexivity|].
        eapply hasTripleNewline_tail. exact Hnone.
      * simpl repeat in *. simpl app in *.
        apply hasTripleNewline_tail in Hnone.
        unfold flushNewlines. simpl. rewrite IH; [reflexivity|].
        eapply hasTripleNewline_tail. exact Hnone.
      * simpl repeat in *. simpl app in *.
        do 2 apply hasTripleNewline_tail in Hnone.
        unfold flushNewlines. simpl. rewrite IH; [reflexivity|].
        eapply hasTripleNewline_tail. exact Hnone.
      * simpl in Hnone. discriminate.
Qed.

Lemma collapseNewlines_fixed s :
  hasTripleNewline s = false -> collapseNewlines s = s.
Proof. intros H. apply (collapseNewlinesFrom_fixed s 0). exact H. Qed.

Lemma collapseSpacesFrom_fixed :
  forall s inrun,
    hasChar TAB s = false -> hasDouble SP s = false ->
    (inrun = true -> hd 0%N s <> SP) ->
    collapseSpacesFrom inrun s = s.
Proof.
  induction s as [|c r IH]; intros inrun Htab Hdouble Hrun; [reflexivity|].
  simpl in Htab, Hdouble. apply orb_false_elim in Htab as [Hc Htab].
  apply orb_false_elim in Hdouble as [Hpair Hdouble].
  simpl. unfold isBlank.
  assert (Hnotab : (c =? TAB)%N = false) by (rewrite N.eqb_sym; exact Hc).
  rewrite Hnotab, orb_false_r.
  destruct (N.eqb_spec c SP) as [-> | Hsp].
  - destruct inrun; [exfalso; now apply Hrun|].
    f_equal. apply IH; auto.
    intros _. destruct r as [|b r']; simpl; [discriminate|].
    simpl in Hpair. intros ->. discriminate.
  - f_equal. apply IH; auto. discriminate.
Qed.

Lemma collapseSpaces_fixed s :
  hasChar TAB s = false -> hasDouble SP s = false -> collapseSpaces s = s.
Proof.
  intros Htab Hdouble. apply collapseSpacesFrom_fixed; auto. discriminate.
Qed.

Lemma joinHyphenated_step a t :
  match t with
  | h :: n :: b :: _ =>
      isWordChar a && (h =? HYPHEN)%N && (n =? LF)%N && isWordChar b
  | _ => false
  end = false ->
  joinHyphenated (a :: t) = a :: joinHyphenated t.
Proof.
  destruct t as [|h [|n [|b r]]]; try reflexivity.
  intros Hno. simpl. simpl in Hno. rewrite Hno. reflexivity.
Qed.

Lemma joinHyphenated_fixed s :
  hasHyphenBreak s = false -> joinHyphenated s = s.
Proof.
  induction s as [|a t IH]; [reflexivity|].
  intros Hnone. simpl in Hnone. apply orb_false_elim in Hnone as [Hhere Ht].
  rewrite joinHyphenated_step by exact Hhere. f_equal. apply IH. exact Ht.
Qed.

Lemma replaceFormFeeds_fixed s :
  hasChar FF s = false -> replaceFormFeeds s = s.
Proof.
  induction s as [|c r IH]; [reflexivity|].
  intros Hnone. unfold hasChar in Hnone. simpl in Hnone.
  apply orb_false_elim in Hnone as [Hc Hr].
  assert (Hff : (c =? FF)%N = false) by (rewrite N.eqb_sym; exact Hc).
  unfold replaceFormFeeds in *. simpl.
  rewrite Hff. simpl. f_equal. apply IH. exact Hr.
Qed.

Lemma split_nonempty sep s : split sep s <> [].
Proof.
  destruct s as [|c r]; simpl; [discriminate|].
  destruct (c =? sep)%N; [discriminate|].
  destruct (split sep r); discriminate.
Qed.

(** Joining the lines of a text gives the text back. *)
Lemma join_split sep s : join [sep] (split sep s) = s.
Proof.
  induction s as [|c r IH]; [reflexivity|].
  simpl. pose proof (split_nonempty sep r) as Hne.
  destruct (N.eqb_spec c sep) as [-> | Hc];
    destruct (split sep r) as [|p [|q ps]]; try contradiction;
    simpl in *; rewrite <- IH; reflexivity.
Qed.

Lemma trim_fixed s : noEdgeWhitespace s = true -> trim s = s.
Proof.
  unfold noEdgeWhitespace, trim, trimEnd. intros Hedges.
  apply andb_prop in Hedges as [Hfirst Hlast].
  assert (Hstart : forall u,
             match u with [] => true | c :: _ => negb (isWhiteSpace c) end
             = true -> trimStart u = u).
  { intros [|c u] Hu; [reflexivity|]. simpl.
    apply negb_true_iff in Hu. rewrite Hu. reflexivity. }
  rewrite (Hstart s Hfirst), (Hstart (rev s) Hlast). apply rev_involutive.
Qed.

Lemma trimLines_fixed s :
  forallb noEdgeWhitespace (split LF s) = true -> trimLines s = s.
Proof.
  intros Hlines. unfold trimLines.
  rewrite (map_ext_in trim (fun line => line)).
  - rewrite map_id. apply join_split.
  - intros line Hin. apply trim_fixed.
    rewrite forallb_forall in Hlines. apply Hlines. exact Hin.
Qed.

(** C9, as stated, fails: [tabbedText] repeats no newline and no space,
    and cleaning turns its tab into a space. *)
Lemma cleaning_changes_a_tab :
  noRepeats tabbedText = true
  /\ cleanExtractedText tabbedText = lit "name value"
  /\ cleanExtractedText tabbedText <> tabbedText.
Proof. repeat split. vm_compute. discriminate. Qed.

(** C9, amended.  Cleaning returns its input unchanged when the input has
    no run of three newlines, no two spaces in a row, no tab, no form
    feed, no hyphen and newline between two word characters, and no
    whitespace at either end of a line or of the whole text. *)
Theorem cleanExtractedText_fixed :
  forall text : str,
    alreadyClean text = true -> cleanExtractedText text = text.
Proof.
  intros text Hclean. unfold alreadyClean in Hclean.
  repeat (apply andb_prop in Hclean as [Hclean ?]).
  repeat match goal with
         | H : negb _ = true |- _ => apply negb_true_iff in H
         end.
  destruct text as [|c r]; [reflexivity|].
  unfold cleanExtractedText.
  rewrite collapseNewlines_fixed by assumption.
  rewrite collapseSpaces_fixed by assumption.
  rewrite joinHyphenated_fixed by assumption.
  rewrite replaceFormFeeds_fixed by assumption.
  rewrite trimLines_fixed by assumption.
  apply trim_fixed. assumption.
Qed.

Lemma cleanExtractedText_fixed_witness :
  cleanExtractedText windText = windText.
Proof. apply cleanExtractedText_fixed. reflexivity. Defined.

(** Cleaning twice is not cleaning once: a form feed after a newline
    leaves three newlines, which a second cleaning collapses. *)
Lemma cleanExtractedText_not_idempotent :
  cleanExtractedText (cleanExtractedText (lit "a" ++ [LF; FF] ++ lit "b"))
  <> cleanExtractedText (lit "a" ++ [LF; FF] ++ lit "b").
Proof. vm_compute. discriminate. Qed.

End CleaningSpec.

(** ** The handlers when the generative service fails *)

Module ControllerSpec.

Import PdfHandler UrlHandler ErrorMiddleware GenerateController Statements.

Lemma listItemLoop_terminates listItems slideCount itemsPerSlide :
  1 <= itemsPerSlide ->
  forall fuel i slides,
    length listItems <= i + fuel ->
    exists result,
      listItemLoop fuel listItems slideCount itemsPerSlide i slides
      = Some result.
Proof.
  intros Hstep.
  induction fuel as [|fuel IH]; intros i slides Hfuel; simpl;
    destruct ((i <? length listItems) && (length slides <? slideCount))
      eqn:Hguard; eauto.
  - apply andb_prop in Hguard as [Hi _]. apply Nat.ltb_lt in Hi. lia.
  - apply IH. lia.
Qed.

Lemma paragraphLoop_terminates content slideCount :
  forall fuel slides,
    slideCount <= length slides + fuel ->
    exists result, paragraphLoop fuel content slideCount slides = Some result.
Proof.
  induction fuel as [|fuel IH]; intros slides Hfuel; simpl;
    destruct (length slides <? slideCount) eqn:Hguard; eauto.
  - apply Nat.ltb_lt in Hguard. lia.
  - destruct (length (sectionPointsAt content (length slides * 2)) =? 0);
      eauto.
    apply IH. rewrite length_app. simpl. lia.
Qed.

(** [scrapedToBasicSlides] returns a deck for every page and count. *)
Lemma scrapedToBasicSlides_total scrapedData slideCount :
  exists deck, scrapedToBasicSlides scrapedData slideCount = Some deck.
Proof.
  unfold scrapedToBasicSlides.
  match goal with
  | |- context [if (length ?s <? slideCount) && _ then _ else _] =>
      set (slides := s)
  end.
  assert (Hitems : exists withItems,
             (if (length slides <? slideCount)
                 && (0 <? length (listItems scrapedData))
              then listItemLoop (length (listItems scrapedData))
                     (listItems scrapedData) slideCount
                     (ceilDiv (length (listItems scrapedData))
                        (slideCount - length slides)) 0 slides
              else Some slides) = Some withItems).
  { destruct ((length slides <? slideCount)
              && (0 <? length (listItems scrapedData))) eqn:Hguard;
      [|eauto].
    apply andb_prop in Hguard as [Hroom Hsome].
    apply Nat.ltb_lt in Hroom, Hsome.
    apply listItemLoop_terminates; [|lia].
    apply FallbackSpec.ceilDiv_positive; lia. }
  destruct Hitems as [withItems ->].
  destruct (paragraphLoop_terminates (content scrapedData) slideCount
              slideCount withItems) as [result ->]; [lia|].
  eexists; reflexivity.
Qed.

(** The test [!field || field.trim().length === 0] on a string with
    more than whitespace. *)
Lemma blank_test (field : str) :
  length (trim field) <> 0 ->
  (length field =? 0) || (length (trim field) =? 0) = false.
Proof.
  intros Hsome. destruct field as [|c field]; [simpl in Hsome; congruence|].
  apply Nat.eqb_neq in Hsome. rewrite Hsome. reflexivity.
Qed.

(** The two ways the end of a handler goes. *)
Lemma saveAndRespond_kept who doc presentation db db' :
  saveFor who doc db = Kept db' ->
  saveAndRespond who doc presentation db = (respond presentation, db').
Proof. intros Hkept. unfold saveAndRespond. rewrite Hkept. reflexivity. Qed.

Lemma saveAndRespond_refused who doc presentation db failed :
  saveFor who doc db = Refused failed ->
  saveAndRespond who doc presentation db
  = (Thrown (ValidationError failed), db).
Proof. intros Hno. unfold saveAndRespond. rewrite Hno. reflexivity. Qed.

(** C3, as stated, fails: a topic request made while the generative
    service is down is answered with an error of status 500. *)
Lemma topic_request_surfaces_the_failure :
  received (fst (generateFromTopic serviceDown solarTopicRequest []))
  = mkHttpResponse 500
      (FailureJson
         (lit "Failed to generate presentation: Gemini API Error: fetch failed")).
Proof. reflexivity. Qed.

(** C3, amended.  When the generative service fails, a PDF request and a
    URL request get the deck of the fallback builder
    ([textToBasicSlides] on the cleaned text, [scrapedToBasicSlides] on
    the scraped page): it is answered with status 200 when the request is
    anonymous or the store keeps the document, and when the store refuses
    the document of a signed-in user (a page title of more than 200
    characters, say) the answer is the validation error, of status 400.
    A topic request is answered with the error of the service, which the
    client receives with status 500. *)
Theorem generative_failure_recovery :
  forall (generatePresentation : str -> Z -> Outcome Deck)
         (extractTextFromBuffer : list N -> Outcome ExtractedData)
         (isValidURL : str -> bool)
         (scrapeUrl : str -> Outcome ScrapedPage),
    (forall req db buffer extractedData message,
        file req = Some buffer ->
        extractTextFromBuffer buffer = Resolved extractedData ->
        50 <= length (cleanExtractedText (extractedText extractedData)) ->
        enhanceWithAIOf (pdfEnhance req) = true ->
        generatePresentation
          (cleanExtractedText (extractedText extractedData))
          (validateSlideCount (pdfSlideCount req)) = Rejected message ->
        exists deck,
          textToBasicSlides
            (cleanExtractedText (extractedText extractedData))
            (Z.to_nat (validateSlideCount (pdfSlideCount req))) = Some deck
          /\ (forall db',
                saveFor (pdfUser req)
                  (pdfDocument deck
                     (cleanExtractedText (extractedText extractedData)) true
                     (validateSlideCount (pdfSlideCount req))) db
                = Kept db' ->
                generateFromPDF generatePresentation extractTextFromBuffer
                  req db
                = Some (Json 200 (title deck) (slides deck), db'))
          /\ (pdfUser req = None ->
              generateFromPDF generatePresentation extractTextFromBuffer
                req db
              = Some (Json 200 (title deck) (slides deck), db))
          /\ (forall failed,
                saveFor (pdfUser req)
                  (pdfDocument deck
                     (cleanExtractedText (extractedText extractedData)) true
                     (validateSlideCount (pdfSlideCount req))) db
                = Refused failed ->
                generateFromPDF generatePresentation extractTextFromBuffer
                  req db
                = Some (Thrown (ValidationError failed), db)
                /\ httpStatus (received (Thrown (ValidationError failed)))
                   = 400%Z))
    /\ (forall req db address scrapedData message,
          url req = JString address ->
          length (trim address) <> 0 ->
          isValidURL address = true ->
          scrapeUrl address = Resolved scrapedData ->
          50 <= length (content scrapedData) ->
          enhanceWithAIOf (urlEnhance req) = true ->
          generatePresentation
            (lit "Title: " ++ pageTitle scrapedData ++ [LF; LF]
               ++ lit "Description: " ++ description scrapedData
               ++ [LF; LF] ++ lit "Content:" ++ [LF] ++ content scrapedData)
            (validateSlideCount (urlSlideCount req)) = Rejected message ->
          exists deck,
            scrapedToBasicSlides scrapedData
              (Z.to_nat (validateSlideCount (urlSlideCount req))) = Some deck
            /\ (forall db',
                  saveFor (urlUser req)
                    (urlDocument deck (content scrapedData) true
                       (validateSlideCount (urlSlideCount req))) db
                  = Kept db' ->
                  generateFromURL generatePresentation isValidURL scrapeUrl
                    req db
                  = Some (Json 200 (title deck) (slides deck), db'))
            /\ (urlUser req = None ->
                generateFromURL generatePresentation isValidURL scrapeUrl
                  req db
                = Some (Json 200 (title deck) (slides deck), db))
            /\ (forall failed,
                  saveFor (urlUser req)
                    (urlDocument deck (content scrapedData) true
                       (validateSlideCount (urlSlideCount req))) db
                  = Refused failed ->
                  generateFromURL generatePresentation isValidURL scrapeUrl
                    req db
                  = Some (Thrown (ValidationError failed), db)
                  /\ httpStatus (received (Thrown (ValidationError failed)))
                     = 400%Z))
    /\ (forall req db subject message,
          topic req = JString subject ->
          length (trim subject) <> 0 ->
          3 <= length subject <= 500 ->
          generatePresentation
            (topicPromptOf subject
               (textOr (audience req) (lit "general"))
               (textOr (style req) (lit "professional"))
               (validateSlideCount (topicSlideCount req)))
            (validateSlideCount (topicSlideCount req)) = Rejected message ->
          generateFromTopic generatePresentation req db
          = (AppError (lit "Failed to generate presentation: " ++ message)
               500, db)
          /\ received (fst (generateFromTopic generatePresentation req db))
             = mkHttpResponse 500
                 (FailureJson
                    (lit "Failed to generate presentation: " ++ message))).
Proof.
  intros generatePresentation extractTextFromBuffer isValidURL scrapeUrl.
  split; [|split].
  - intros req db buffer extractedData message Hfile Hparsed Hlong Hai
      Hfail.
    destruct (FallbackSpec.textToBasicSlides_total
                (cleanExtractedText (extractedText extractedData))
                (Z.to_nat (validateSlideCount (pdfSlideCount req))))
      as [deck Hdeck].
    exists deck. split; [exact Hdeck|].
    assert (Hend : generateFromPDF generatePresentation
                     extractTextFromBuffer req db
                   = Some (saveAndRespond (pdfUser req)
                             (pdfDocument deck
                                (cleanExtractedText
                                   (extractedText extractedData)) true
                                (validateSlideCount (pdfSlideCount req)))
                             deck db)).
    { unfold generateFromPDF. rewrite Hfile, Hparsed, Hai, Hfail, Hdeck.
      apply Nat.ltb_ge in Hlong. rewrite Hlong. reflexivity. }
    rewrite Hend. split; [|split].
    + intros db' Hkept.
      rewrite (saveAndRespond_kept _ _ deck _ _ Hkept). reflexivity.
    + intros Hanonymous. rewrite Hanonymous. reflexivity.
    + intros failed Hno.
      rewrite (saveAndRespond_refused _ _ deck _ _ Hno). split; reflexivity.
  - intros req db address scrapedData message Hurl Hsome Hvalid Hscraped
      Hlong Hai Hfail.
    destruct (scrapedToBasicSlides_total scrapedData
                (Z.to_nat (validateSlideCount (urlSlideCount req))))
      as [deck Hdeck].
    exists deck. split; [exact Hdeck|].
    assert (Hend : generateFromURL generatePresentation isValidURL
                     scrapeUrl req db
                   = Some (saveAndRespond (urlUser req)
                             (urlDocument deck (content scrapedData) true
                                (validateSlideCount (urlSlideCount req)))
                             deck db)).
    { unfold generateFromURL.
      rewrite Hurl, (blank_test _ Hsome), Hvalid. cbn [negb]. cbv iota.
      rewrite Hscraped, Hai, Hfail, Hdeck.
      apply Nat.ltb_ge in Hlong. rewrite Hlong. reflexivity. }
    rewrite Hend. split; [|split].
    + intros db' Hkept.
      rewrite (saveAndRespond_kept _ _ deck _ _ Hkept). reflexivity.
    + intros Hanonymous. rewrite Hanonymous. reflexivity.
    + intros failed Hno.
      rewrite (saveAndRespond_refused _ _ deck _ _ Hno). split; reflexivity.
  - intros req db subject message Htopic Hsome [Hmin Hmax] Hfail.
    assert (Hanswer : generateFromTopic generatePresentation req db
                      = (AppError
                           (lit "Failed to generate presentation: "
                              ++ message) 500, db)).
    { unfold generateFromTopic. rewrite Htopic, (blank_test _ Hsome).
      apply Nat.ltb_ge in Hmin, Hmax. rewrite Hmin, Hmax, Hfail.
      reflexivity. }
    split; [exact Hanswer|]. rewrite Hanswer. reflexivity.
Qed.

Lemma generative_failure_recovery_witness :
  generateFromPDF serviceDown parsesToWindText windPdfRequestOfAda []
  = Some (Json 200 (title windDeck) (slides windDeck),
          [pdfDocument windDeck (cleanExtractedText windText) true 5
             (lit "ada")])
  /\ generateFromURL serviceDown (fun _ => true) scrapesLongTitle
       pageRequestOfAda []
     = Some (Thrown (ValidationError [titleMaxlength]), []).
Proof.
  split.
  - destruct (proj1 (generative_failure_recovery serviceDown
                       parsesToWindText (fun _ => true)
                       (fun _ => Rejected []))
                windPdfRequestOfAda [] [37; 80; 68; 70]%N
                (mkExtractedData windText [])
                (lit "Gemini API Error: fetch failed") eq_refl eq_refl
                ltac:(vm_compute; lia) eq_refl eq_refl)
      as [deck [Hdeck [Hkept _]]].
    assert (Hwind : deck = windDeck).
    { vm_compute in Hdeck. injection Hdeck as <-. reflexivity. }
    subst deck. apply Hkept. reflexivity.
  - destruct (proj1 (proj2 (generative_failure_recovery serviceDown
                              parsesToWindText (fun _ => true)
                              scrapesLongTitle))
                pageRequestOfAda [] (lit "https://example.org/wind")
                longTitlePage (lit "Gemini API Error: fetch failed")
                eq_refl ltac:(vm_compute; discriminate) eq_refl eq_refl
                ltac:(vm_compute; lia) eq_refl eq_refl)
      as [deck [Hdeck [_ [_ Hrefused]]]].
    vm_compute in Hdeck. injection Hdeck as <-.
    exact (proj1 (Hrefused [titleMaxlength] ltac:(vm_compute; reflexivity))).
Defined.

(** The text handler answers a failure of the generative service with
    the same error of status 500. *)
Lemma generateFromText_surfaces_the_failure
    (generatePresentation : str -> Z -> Outcome Deck) req db body message :
  text req = JString body ->
  length (trim body) <> 0 ->
  50 <= length body -> (Z.of_nat (length body) <= 50000)%Z ->
  generatePresentation body (validateSlideCount (textSlideCount req))
  = Rejected message ->
  generateFromText generatePresentation req db
  = (AppError (lit "Failed to generate presentation: " ++ message) 500, db).
Proof.
  intros Htext Hsome Hmin Hmax Hfail. unfold generateFromText.
  rewrite Htext, (blank_test _ Hsome).
  apply Nat.ltb_ge in Hmin. rewrite Hmin.
  apply Z.ltb_ge in Hmax. rewrite Hmax, Hfail. reflexivity.
Qed.

End ControllerSpec.

(** ** More about the renderer *)

Module RenderMore.

Import PptxExport Statements MoreStatements.

Lemma bulletParas_texts kind t size after ps :
  map paraText (bulletParas kind t size after ps) = ps.
Proof.
  unfold bulletParas. rewrite map_map. simpl. apply map_id.
Qed.

Lemma slice_short {A} (xs : list A) n : length xs <= n -> slice xs 0 n = xs.
Proof.
  intros Hlen. unfold slice. simpl. rewrite Nat.sub_0_r.
  apply firstn_all2. exact Hlen.
Qed.

Lemma imagesOf_add slide e :
  imagesOf (add slide e)
  = imagesOf slide ++ match e with Image uri _ _ => [uri] | _ => [] end.
Proof.
  unfold imagesOf, add. simpl. rewrite flat_map_app. simpl.
  rewrite app_nil_r. reflexivity.
Qed.

Lemma bulletTexts_add slide e :
  bulletTexts (add slide e)
  = bulletTexts slide
    ++ match e with Text (Paras ps) _ _ => map paraText ps | _ => [] end.
Proof.
  unfold bulletTexts, add. simpl. rewrite flat_map_app. simpl.
  rewrite app_nil_r. reflexivity.
Qed.

(** Reading the images and the bullets off a slide, one step of its
    construction at a time. *)
Ltac read_slide :=
  unfold addShape, addText, addImage;
  repeat first
    [ rewrite imagesOf_add | rewrite bulletTexts_add ];
  change (imagesOf (setBackground ?s ?c)) with (imagesOf s);
  change (bulletTexts (setBackground ?s ?c)) with (bulletTexts s);
  cbv beta iota;
  change (imagesOf newSlide) with (@nil str);
  change (bulletTexts newSlide) with (@nil str);
  rewrite ?app_nil_r, ?app_nil_l.

Ltac open_layout t slideData :=
  unfold applyLayout, createSplitRightImageSlide,
    createSplitLeftImageSlide, createConceptDominantSlide,
    createSummarySlide, createGradientBackgroundSlide,
    addGradientBackground, firstBackgroundColor, bind;
  destruct (background t) as [[? ?|?]|]; try discriminate.

(** The images a layout puts on a slide: one for the split and the
    image-dominant layouts when image data is there, none otherwise. *)
Lemma applyLayout_images layout slideData imageData t index totalSlides body :
  applyLayout layout newSlide slideData imageData t index totalSlides
  = Ok body ->
  imagesOf body
  = match layout, imageData with
    | (SPLIT_LEFT_IMAGE | SPLIT_RIGHT_IMAGE | CONCEPT_IMAGE_DOMINANT),
      Some image => [dataUriOf image]
    | _, _ => []
    end.
Proof.
  destruct layout; open_layout t slideData; destruct imageData;
    (destruct (points slideData) as [[|p ps]|]);
    intros [= <-]; reflexivity.
Qed.

(** The bulleted paragraphs a layout puts on a slide: the points of the
    slide; the image-dominant layout marks each of them and keeps three. *)
Lemma applyLayout_bullets layout slideData imageData t index totalSlides body :
  applyLayout layout newSlide slideData imageData t index totalSlides
  = Ok body ->
  bulletTexts body
  = match layout with
    | CONCEPT_IMAGE_DOMINANT =>
        map (fun p => conceptMarker ++ p) (slice (pointsListOf slideData) 0 3)
    | _ => pointsListOf slideData
    end.
Proof.
  unfold pointsListOf.
  destruct layout; open_layout t slideData; destruct imageData;
    (destruct (points slideData) as [[|p ps]|]);
    intros [= <-]; read_slide;
    cbn [map paraText]; rewrite ?bulletParas_texts, ?map_map; reflexivity.
Qed.

Section Rendered.

Variable fetch : FetchSite -> str -> FetchOutcome.
Variable today : str.

(** The image data the content loop holds for a slide. *)
Lemma contentSlide_parts t totalSlides index slideData slide :
  contentSlide fetch t totalSlides index slideData = Ok slide ->
  exists imageData body,
    applyLayout (determineSlideLayout index totalSlides slideData) newSlide
      slideData imageData t index totalSlides = Ok body
    /\ slide = addSlideNumber body t index
    /\ (forall url,
          imageUrl slideData = Some url -> url <> [] ->
          imageData
          = downloadImageAsBase64 (fetch (forContentSlide index) url)).
Proof.
  unfold contentSlide. intros Hslide.
  match type of Hslide with
  | bind (applyLayout ?l newSlide slideData ?img t index totalSlides) _ = _ =>
      exists img; destruct (applyLayout l newSlide slideData img t index
                              totalSlides) as [body|e] eqn:Hbody;
      [|discriminate]
  end.
  exists body. simpl in Hslide. injection Hslide as <-.
  repeat split.
  intros url Hurl Hsome. rewrite Hurl. unfold hasImageOf. rewrite Hurl.
  destruct url; [contradiction|reflexivity].
Qed.

(** The slide a render holds at position [index + 1] is the one the
    content loop built for the slide of the deck at [index]. *)
Lemma rendered_content_slide deck themeName doc index slideData slide :
  generatePowerPoint fetch today deck themeName = Ok doc ->
  nth_error (slides deck) index = Some slideData ->
  nth_error (renderedSlides doc) (S index) = Some slide ->
  contentSlide fetch (resolveTheme themeName)
    (Z.of_nat (length (slides deck))) (Z.of_nat index) slideData = Ok slide.
Proof.
  intros Hgen Hnth Hrendered.
  apply RenderSpec.generatePowerPoint_shape in Hgen
    as (titleSlide & added & thankYouSlide & _ & _ & Hall & Hlen & Hslides).
  destruct (Hslides index slideData Hnth) as (built & Hbuilt & Hadded).
  rewrite Hall in Hrendered. simpl in Hrendered.
  rewrite nth_error_app1 in Hrendered
    by (apply nth_error_Some; rewrite Hadded; discriminate).
  congruence.
Qed.

End Rendered.

Lemma imagesOf_addSlideNumber body t index :
  imagesOf (addSlideNumber body t index) = imagesOf body.
Proof.
  unfold imagesOf, addSlideNumber, addText, add. simpl.
  rewrite flat_map_app. simpl. apply app_nil_r.
Qed.

Lemma bulletTexts_addSlideNumber body t index :
  bulletTexts (addSlideNumber body t index) = bulletTexts body.
Proof.
  unfold bulletTexts, addSlideNumber, addText, add. simpl.
  rewrite flat_map_app. simpl. apply app_nil_r.
Qed.

Lemma imageFree_imagesOf slide : imagesOf slide = [] -> imageFree slide = true.
Proof.
  unfold imagesOf, imageFree.
  induction (elements slide) as [|e es IH]; [reflexivity|].
  destruct e; simpl; try exact IH. discriminate.
Qed.

(** X1.  Whatever the network returns, the first content slide, the last
    content slide and the closing slide of a render hold no image: the
    layouts selected for the first and the last index never place one. *)
Theorem edge_slides_hold_no_image :
  forall (fetch : FetchSite -> str -> FetchOutcome) (today : str)
         (deck : Deck) (themeName : str) (doc : Presentation),
    generatePowerPoint fetch today deck themeName = Ok doc ->
    forall (position : nat) (slide : SlideObject),
      1 <= position ->
      position = 1 \/ position = length (slides deck)
      \/ position = S (length (slides deck)) ->
      nth_error (renderedSlides doc) position = Some slide ->
      imageFree slide = true.
Proof.
  intros fetch today deck themeName doc Hgen position slide Hpos Hwhere
    Hslide.
  pose proof Hgen as Hshape.
  apply RenderSpec.generatePowerPoint_shape in Hshape
    as (titleSlide & added & thankYouSlide & _ & Hthanks & Hall & Hlen & _).
  assert (Hclosing : position = S (length (slides deck)) ->
                     imageFree slide = true).
  { intros ->. rewrite Hall in Hslide. simpl in Hslide.
    rewrite nth_error_app2, Hlen, Nat.sub_diag in Hslide by lia.
    injection Hslide as <-. revert Hthanks.
    unfold thankYouSlideOf, addGradientBackground, bind.
    destruct (background (resolveTheme themeName)) as [[c0 c1|c]|];
      intros [= <-]; reflexivity. }
  assert (Hcontent : forall index,
             position = S index -> index < length (slides deck) ->
             (index = 0 \/ S index = length (slides deck)) ->
             imageFree slide = true).
  { intros index -> Hin Hedge.
    destruct (nth_error (slides deck) index) as [slideData|] eqn:Hdata;
      [|apply nth_error_None in Hdata; lia].
    pose proof (rendered_content_slide fetch today deck themeName doc index
                  slideData slide Hgen Hdata Hslide) as Hbuilt.
    apply contentSlide_parts in Hbuilt
      as (imageData & body & Hbody & -> & _).
    apply imageFree_imagesOf. rewrite imagesOf_addSlideNumber.
    rewrite (applyLayout_images _ _ _ _ _ _ _ Hbody).
    unfold determineSlideLayout.
    destruct Hedge as [-> | Hlast]; [reflexivity|].
    destruct (Z.of_nat index =? 0)%Z; [reflexivity|].
    replace (Z.of_nat index =? Z.of_nat (length (slides deck)) - 1)%Z
      with true by (symmetry; apply Z.eqb_eq; lia).
    reflexivity. }
  destruct Hwhere as [-> | [Hlast | Hclose]].
  - destruct (Nat.eq_dec (length (slides deck)) 0) as [Hempty | Hsome].
    + apply Hclosing. lia.
    + apply (Hcontent 0); auto; lia.
  - destruct position as [|index]; [lia|].
    apply (Hcontent index); auto; lia.
  - apply Hclosing. exact Hclose.
Qed.

Lemma edge_slides_hold_no_image_witness :
  exists doc first last,
    generatePowerPoint online aDate imageEdgesDeck (lit "dark") = Ok doc
    /\ map imageUrl (slides imageEdgesDeck)
       = [Some (lit "https://example.org/panels.jpg"); None;
          Some (lit "https://example.org/sunset.jpg")]
    /\ nth_error (renderedSlides doc) 1 = Some first
    /\ nth_error (renderedSlides doc) 3 = Some last
    /\ imageFree first = true
    /\ imageFree last = true.
Proof.
  destruct (generatePowerPoint online aDate imageEdgesDeck (lit "dark"))
    as [doc|e] eqn:Hgen; [|vm_compute in Hgen; discriminate].
  pose proof Hgen as Hdoc. vm_compute in Hdoc. injection Hdoc as Hdoc.
  destruct (nth_error (renderedSlides doc) 1) as [first|] eqn:Hfirst;
    [|rewrite <- Hdoc in Hfirst; vm_compute in Hfirst; discriminate].
  destruct (nth_error (renderedSlides doc) 3) as [last|] eqn:Hlast;
    [|rewrite <- Hdoc in Hlast; vm_compute in Hlast; discriminate].
  clear Hdoc.
  exists doc, first, last.
  split; [reflexivity|]. split; [reflexivity|].
  split; [exact Hfirst|]. split; [exact Hlast|]. split.
  - exact (edge_slides_hold_no_image online aDate imageEdgesDeck (lit "dark")
             doc Hgen 1 first (le_n 1) (or_introl eq_refl) Hfirst).
  - exact (edge_slides_hold_no_image online aDate imageEdgesDeck (lit "dark")
             doc Hgen 3 last (le_S _ _ (le_S _ _ (le_n 1)))
             (or_intror (or_introl eq_refl)) Hlast).
Defined.

(** Opens the render of a sample deck and the slide at one position. *)
Ltac open_render fetch deck themeName position doc slide Hgen Hslide :=
  destruct (generatePowerPoint fetch aDate deck themeName)
    as [doc|] eqn:Hgen; [|vm_compute in Hgen; discriminate];
  let Hdoc := fresh "Hdoc" in
  pose proof Hgen as Hdoc; vm_compute in Hdoc; injection Hdoc as Hdoc;
  destruct (nth_error (renderedSlides doc) position) as [slide|] eqn:Hslide;
    [|rewrite <- Hdoc in Hslide; vm_compute in Hslide; discriminate];
  clear Hdoc.

(** X2.  A content slide between the first and the last that has an
    image URL holds the downloaded image once, as a data URI, and holds no
    image when the download fails. *)
Theorem middle_slide_embeds_its_download :
  forall (fetch : FetchSite -> str -> FetchOutcome) (today : str)
         (deck : Deck) (themeName : str) (doc : Presentation),
    generatePowerPoint fetch today deck themeName = Ok doc ->
    forall (index : nat) (slideData : Slide) (url : str)
           (slide : SlideObject),
      0 < index -> S index < length (slides deck) ->
      nth_error (slides deck) index = Some slideData ->
      imageUrl slideData = Some url -> url <> [] ->
      nth_error (renderedSlides doc) (S index) = Some slide ->
      imagesOf slide
      = match downloadImageAsBase64
                (fetch (forContentSlide (Z.of_nat index)) url) with
        | Some image => [dataUriOf image]
        | None => []
        end.
Proof.
  intros fetch today deck themeName doc Hgen index slideData url slide
    Hfirst Hlast Hdata Hurl Hsome Hslide.
  pose proof (rendered_content_slide fetch today deck themeName doc index
                slideData slide Hgen Hdata Hslide) as Hbuilt.
  apply contentSlide_parts in Hbuilt
    as (imageData & body & Hbody & -> & Himage).
  rewrite imagesOf_addSlideNumber, (applyLayout_images _ _ _ _ _ _ _ Hbody).
  rewrite (Himage url Hurl Hsome).
  assert (Hhas : hasImageOf slideData = true).
  { unfold hasImageOf. rewrite Hurl. destruct url; [contradiction|reflexivity]. }
  unfold determineSlideLayout. rewrite Hhas.
  replace (Z.of_nat index =? 0)%Z with false
    by (symmetry; apply Z.eqb_neq; lia).
  replace (Z.of_nat index =? Z.of_nat (length (slides deck)) - 1)%Z
    with false by (symmetry; apply Z.eqb_neq; lia).
  cbn [andb].
  destruct (pointCountOf slideData <=? 3); [reflexivity|].
  destruct (Z.rem (Z.of_nat index) 2 =? 0)%Z; reflexivity.
Qed.

Lemma middle_slide_embeds_its_download_witness :
  exists doc slide,
    generatePowerPoint online aDate threeSlideDeck (lit "dark") = Ok doc
    /\ nth_error (renderedSlides doc) 2 = Some slide
    /\ imagesOf slide = [dataUriOf aPng].
Proof.
  open_render online threeSlideDeck (lit "dark") 2 doc slide Hgen Hslide.
  exists doc, slide. split; [reflexivity|]. split; [exact Hslide|].
  exact (middle_slide_embeds_its_download online aDate threeSlideDeck
           (lit "dark") doc Hgen 1 _ (lit "https://example.org/panels.jpg")
           slide (le_n 1) (le_n 3) eq_refl eq_refl
           ltac:(discriminate) Hslide).
Defined.

(** X3.  A content slide shows every point of its slide, in order and
    in full; the image-dominant layout, chosen for at most three points,
    puts its marker in front of each. *)
Theorem content_slide_shows_every_point :
  forall (fetch : FetchSite -> str -> FetchOutcome) (today : str)
         (deck : Deck) (themeName : str) (doc : Presentation),
    generatePowerPoint fetch today deck themeName = Ok doc ->
    forall (index : nat) (slideData : Slide) (slide : SlideObject),
      nth_error (slides deck) index = Some slideData ->
      nth_error (renderedSlides doc) (S index) = Some slide ->
      bulletTexts slide
      = match determineSlideLayout (Z.of_nat index)
                (Z.of_nat (length (slides deck))) slideData with
        | CONCEPT_IMAGE_DOMINANT =>
            map (fun point => conceptMarker ++ point) (pointsListOf slideData)
        | _ => pointsListOf slideData
        end.
Proof.
  intros fetch today deck themeName doc Hgen index slideData slide Hdata
    Hslide.
  pose proof (rendered_content_slide fetch today deck themeName doc index
                slideData slide Hgen Hdata Hslide) as Hbuilt.
  apply contentSlide_parts in Hbuilt as (imageData & body & Hbody & -> & _).
  rewrite bulletTexts_addSlideNumber, (applyLayout_bullets _ _ _ _ _ _ _ Hbody).
  destruct (determineSlideLayout (Z.of_nat index)
              (Z.of_nat (length (slides deck))) slideData) eqn:Hlayout;
    try reflexivity.
  rewrite slice_short; [reflexivity|].
  revert Hlayout. unfold determineSlideLayout, pointCountOf, pointsListOf.
  destruct (Z.of_nat index =? 0)%Z; [discriminate|].
  destruct (Z.of_nat index =? Z.of_nat (length (slides deck)) - 1)%Z;
    [discriminate|].
  destruct (hasImageOf slideData); cbn [andb]; [|discriminate].
  destruct (points slideData) as [ps|]; [|simpl; lia].
  destruct (length ps <=? 3) eqn:Hle.
  - intros _. apply Nat.leb_le. exact Hle.
  - destruct (Z.rem (Z.of_nat index) 2 =? 0)%Z; discriminate.
Qed.

Lemma content_slide_shows_every_point_witness :
  exists doc slide,
    generatePowerPoint online aDate threeSlideDeck (lit "dark") = Ok doc
    /\ nth_error (renderedSlides doc) 2 = Some slide
    /\ bulletTexts slide = repeat (lit "A point about panels") 4.
Proof.
  open_render online threeSlideDeck (lit "dark") 2 doc slide Hgen Hslide.
  exists doc, slide. split; [reflexivity|]. split; [exact Hslide|].
  exact (content_slide_shows_every_point online aDate threeSlideDeck
           (lit "dark") doc Hgen 1 _ slide eq_refl Hslide).
Defined.

Section TitleSlide.

Variable fetch : FetchSite -> str -> FetchOutcome.
Variable today : str.

Lemma titleSlideOf_numbers t deck slide :
  titleSlideOf fetch today t deck = Ok slide -> pageNumbersOf slide = [].
Proof.
  unfold titleSlideOf, addGradientBackground, bind.
  destruct (slides deck) as [|first rest];
    [|destruct (imageUrl first) as [[|c url]|];
      [|destruct (downloadImageAsBase64 (fetch forTitleSlide (c :: url)))|]];
    destruct (background t) as [[? ?|?]|]; intros [= <-]; reflexivity.
Qed.

End TitleSlide.

Lemma thankYouSlideOf_numbers t slide :
  thankYouSlideOf t = Ok slide -> pageNumbersOf slide = [].
Proof.
  unfold thankYouSlideOf, addGradientBackground, bind.
  destruct (background t) as [[? ?|?]|]; intros [= <-]; reflexivity.
Qed.

Lemma applyLayout_numbers layout slideData imageData t index totalSlides body :
  applyLayout layout newSlide slideData imageData t index totalSlides
  = Ok body ->
  pageNumbersOf body = [].
Proof.
  destruct layout; open_layout t slideData; destruct imageData;
    (destruct (points slideData) as [[|p ps]|]);
    intros [= <-]; reflexivity.
Qed.

Lemma pageNumbersOf_addSlideNumber body t index :
  pageNumbersOf (addSlideNumber body t index)
  = pageNumbersOf body ++ [showZ (index + 2)].
Proof.
  unfold pageNumbersOf, addSlideNumber, addText, add. simpl.
  rewrite flat_map_app. reflexivity.
Qed.

(** X4.  The content slides of a render are numbered from 2 in the
    bottom right corner, one number each; the title slide and the closing
    slide carry no number. *)
Theorem content_slides_are_numbered_from_two :
  forall (fetch : FetchSite -> str -> FetchOutcome) (today : str)
         (deck : Deck) (themeName : str) (doc : Presentation),
    generatePowerPoint fetch today deck themeName = Ok doc ->
    forall (position : nat) (slide : SlideObject),
      nth_error (renderedSlides doc) position = Some slide ->
      pageNumbersOf slide
      = if (1 <=? position) && (position <=? length (slides deck))
        then [showZ (Z.of_nat position + 1)]
        else [].
Proof.
  intros fetch today deck themeName doc Hgen position slide Hslide.
  pose proof Hgen as Hshape.
  apply RenderSpec.generatePowerPoint_shape in Hshape
    as (titleSlide & added & thankYouSlide & Htitle & Hthanks & Hall & Hlen
        & _).
  destruct position as [|index].
  - rewrite Hall in Hslide. injection Hslide as <-.
    apply (titleSlideOf_numbers _ _ _ _ _ Htitle).
  - destruct (Nat.ltb_spec index (length (slides deck))) as [Hin | Hout].
    + replace ((1 <=? S index) && (S index <=? length (slides deck)))
        with true
        by (symmetry; apply andb_true_iff; split; apply Nat.leb_le; lia).
      destruct (nth_error (slides deck) index) as [slideData|] eqn:Hdata;
        [|apply nth_error_None in Hdata; lia].
      pose proof (rendered_content_slide fetch today deck themeName doc index
                    slideData slide Hgen Hdata Hslide) as Hbuilt.
      apply contentSlide_parts in Hbuilt
        as (imageData & body & Hbody & -> & _).
      rewrite pageNumbersOf_addSlideNumber,
        (applyLayout_numbers _ _ _ _ _ _ _ Hbody).
      simpl. do 2 f_equal. lia.
    + replace ((1 <=? S index) && (S index <=? length (slides deck)))
        with false
        by (symmetry; apply andb_false_iff; right; apply Nat.leb_gt; lia).
      rewrite Hall in Hslide. simpl in Hslide.
      rewrite nth_error_app2 in Hslide by lia.
      destruct (index - length added) as [|beyond] eqn:Hrest.
      * injection Hslide as <-. apply (thankYouSlideOf_numbers _ _ Hthanks).
      * destruct beyond; discriminate.
Qed.

Lemma content_slides_are_numbered_from_two_witness :
  exists doc slide,
    generatePowerPoint online aDate threeSlideDeck (lit "dark") = Ok doc
    /\ nth_error (renderedSlides doc) 2 = Some slide
    /\ pageNumbersOf slide = [lit "3"].
Proof.
  open_render online threeSlideDeck (lit "dark") 2 doc slide Hgen Hslide.
  exists doc, slide. split; [reflexivity|]. split; [exact Hslide|].
  exact (content_slides_are_numbered_from_two online aDate threeSlideDeck
           (lit "dark") doc Hgen 2 slide Hslide).
Defined.

(** X5.  When the image of the first slide of the deck downloads, it is
    the title slide that shows it, once. *)
Theorem title_slide_shows_the_first_image :
  forall (fetch : FetchSite -> str -> FetchOutcome) (today : str)
         (deck : Deck) (themeName : str) (doc : Presentation),
    generatePowerPoint fetch today deck themeName = Ok doc ->
    forall (first : Slide) (url : str) (image : ImageData),
      nth_error (slides deck) 0 = Some first ->
      imageUrl first = Some url -> url <> [] ->
      downloadImageAsBase64 (fetch forTitleSlide url) = Some image ->
      exists titleSlide,
        nth_error (renderedSlides doc) 0 = Some titleSlide
        /\ imagesOf titleSlide = [dataUriOf image].
Proof.
  intros fetch today deck themeName doc Hgen first url image Hfirst Hurl
    Hsome Himage.
  apply RenderSpec.generatePowerPoint_shape in Hgen
    as (titleSlide & added & thankYouSlide & Htitle & _ & Hall & _ & _).
  exists titleSlide. rewrite Hall. split; [reflexivity|].
  revert Htitle. unfold titleSlideOf, bind.
  destruct (slides deck) as [|first' rest]; [discriminate|].
  injection Hfirst as ->. rewrite Hurl.
  destruct url as [|c url]; [contradiction|]. rewrite Himage.
  intros [= <-]. reflexivity.
Qed.

Lemma title_slide_shows_the_first_image_witness :
  exists doc titleSlide,
    generatePowerPoint online aDate imageFirstDeck (lit "dark") = Ok doc
    /\ nth_error (renderedSlides doc) 0 = Some titleSlide
    /\ imagesOf titleSlide = [dataUriOf aPng].
Proof.
  open_render online imageFirstDeck (lit "dark") 0 doc slide Hgen Hslide.
  destruct (title_slide_shows_the_first_image online aDate imageFirstDeck
              (lit "dark") doc Hgen _ (lit "https://example.org/panels.jpg")
              aPng eq_refl eq_refl ltac:(discriminate) eq_refl)
    as (titleSlide & Htitle & Himages).
  exists doc, titleSlide. split; [reflexivity|]. split; assumption.
Defined.

(** X6.  Every theme that [getAvailableThemes] lists can be rendered:
    its id selects a theme with the four colours listed for it, and a
    render under that id completes for every deck, whatever the network
    does. *)
Theorem listed_themes_render :
  exists infos : list ThemeInfo,
    getAvailableThemes = Ok infos
    /\ map themeId infos = map fst THEMES
    /\ forall info : ThemeInfo,
         In info infos ->
         colorPrimary info = accentColor (resolveTheme (themeId info))
         /\ colorSecondary info = secondaryAccent (resolveTheme (themeId info))
         /\ colorTitle info = titleColor (resolveTheme (themeId info))
         /\ colorText info = textColor (resolveTheme (themeId info))
         /\ forall (fetch : FetchSite -> str -> FetchOutcome) (today : str)
                   (deck : Deck),
              exists doc,
                generatePowerPoint fetch today deck (themeId info) = Ok doc.
Proof.
  destruct getAvailableThemes as [infos|] eqn:Hlist;
    [|vm_compute in Hlist; discriminate].
  exists infos. split; [reflexivity|].
  vm_compute in Hlist. injection Hlist as <-.
  split; [vm_compute; reflexivity|].
  intros info Hin. simpl in Hin.
  repeat (destruct Hin as [<- | Hin];
          [ repeat split; try reflexivity;
            intros fetch today deck;
            apply RenderSpec.generatePowerPoint_themed;
            eexists; reflexivity
          | ]).
  contradiction.
Qed.

Lemma listed_themes_render_witness :
  exists doc : Presentation,
    generatePowerPoint offline aDate oneSlideDeck (lit "dark") = Ok doc.
Proof.
  destruct listed_themes_render as (infos & Hlist & _ & Hall).
  vm_compute in Hlist. injection Hlist as <-.
  exact (proj2 (proj2 (proj2 (proj2
           (Hall _ (or_intror (or_introl eq_refl))))))
           offline aDate oneSlideDeck).
Defined.

(** X21.  The first content slide of a render is always built by the
    gradient-background layout: the layout named for index 0,
    title-full-image, has no case in the switch of the content loop, so
    the default applies, with or without an image. *)
Theorem first_content_slide_is_gradient_background :
  forall (fetch : FetchSite -> str -> FetchOutcome) (today : str)
         (deck : Deck) (themeName : str) (doc : Presentation),
    generatePowerPoint fetch today deck themeName = Ok doc ->
    slides deck <> [] ->
    renderedAsGradientBackground fetch today deck themeName 0.
Proof.
  intros fetch today deck themeName doc Hgen Hsome.
  destruct (slides deck) as [|first rest] eqn:Hdeck; [contradiction|].
  pose proof Hgen as Hshape.
  apply RenderSpec.generatePowerPoint_shape in Hshape
    as (titleSlide & added & thankYouSlide & _ & _ & Hall & _ & Hslides).
  destruct (Hslides 0 first) as (slide & Hbuilt & Hadded);
    [rewrite Hdeck; reflexivity|].
  unfold contentSlide, determineSlideLayout in Hbuilt.
  cbn [Z.of_nat Z.eqb applyLayout] in Hbuilt.
  destruct (createGradientBackgroundSlide newSlide first
              (resolveTheme themeName) 0) as [plain|e] eqn:Hplain;
    [|discriminate].
  simpl in Hbuilt. injection Hbuilt as <-.
  exists doc, first, plain.
  split; [exact Hgen|]. split; [rewrite Hdeck; reflexivity|].
  split; [exact Hplain|]. rewrite Hall.
  destruct added as [|built more]; [discriminate|].
  injection Hadded as ->. reflexivity.
Qed.

Lemma first_content_slide_is_gradient_background_witness :
  renderedAsGradientBackground online aDate imageFirstDeck (lit "dark") 0.
Proof.
  destruct (generatePowerPoint online aDate imageFirstDeck (lit "dark"))
    as [doc|] eqn:Hgen; [|vm_compute in Hgen; discriminate].
  apply (first_content_slide_is_gradient_background online aDate
           imageFirstDeck (lit "dark") doc Hgen).
  discriminate.
Defined.

Lemma contentSlide_offline fetch fetch' t totalSlides index slideData :
  hasImageOf slideData = false ->
  contentSlide fetch t totalSlides index slideData
  = contentSlide fetch' t totalSlides index slideData.
Proof.
  intros Hnone. unfold contentSlide. rewrite Hnone.
  destruct (imageUrl slideData); reflexivity.
Qed.

Lemma contentLoop_offline fetch fetch' t totalSlides :
  forall rest index pptx,
    Forall (fun slide => hasImageOf slide = false) rest ->
    contentLoop fetch t totalSlides index rest pptx
    = contentLoop fetch' t totalSlides index rest pptx.
Proof.
  induction rest as [|slideData rest IH]; intros index pptx Hnone;
    [reflexivity|].
  inversion Hnone as [|? ? Hhere Hrest]; subst. simpl.
  rewrite (contentSlide_offline fetch fetch' _ _ _ _ Hhere).
  destruct (contentSlide fetch' t totalSlides index slideData);
    [|reflexivity].
  simpl. apply IH. exact Hrest.
Qed.

Lemma titleSlideOf_offline fetch fetch' today t deck :
  Forall (fun slide => hasImageOf slide = false) (slides deck) ->
  titleSlideOf fetch today t deck = titleSlideOf fetch' today t deck.
Proof.
  intros Hnone. unfold titleSlideOf.
  destruct (slides deck) as [|first rest]; [reflexivity|].
  inversion Hnone as [|? ? Hhere _]; subst.
  unfold hasImageOf in Hhere.
  destruct (imageUrl first) as [[|c url]|]; try reflexivity.
  discriminate.
Qed.

(** X23.  A deck in which no slide has an image URL is rendered without
    any image request: the render is the same whatever the network would
    answer. *)
Theorem render_without_image_urls_is_offline :
  forall (fetch fetch' : FetchSite -> str -> FetchOutcome) (today : str)
         (deck : Deck) (themeName : str),
    Forall (fun slide => hasImageOf slide = false) (slides deck) ->
    generatePowerPoint fetch today deck themeName
    = generatePowerPoint fetch' today deck themeName.
Proof.
  intros fetch fetch' today deck themeName Hnone. unfold generatePowerPoint.
  rewrite (titleSlideOf_offline fetch fetch' today _ deck Hnone).
  destruct (titleSlideOf fetch' today (resolveTheme themeName) deck);
    [|reflexivity].
  simpl. rewrite (contentLoop_offline fetch fetch' _ _ _ _ _ Hnone).
  reflexivity.
Qed.

Lemma render_without_image_urls_is_offline_witness :
  generatePowerPoint online aDate oneSlideDeck (lit "dark")
  = generatePowerPoint offline aDate oneSlideDeck (lit "dark").
Proof.
  apply render_without_image_urls_is_offline.
  repeat constructor.
Defined.

End RenderMore.

(** ** More on image resolution *)

Module ImageMore.

Import Ai PptxExport Statements MoreStatements.

Lemma firstMatch_In lowerKeyword entries key url :
  firstMatch lowerKeyword entries = Some (key, url) -> In (key, url) entries.
Proof.
  induction entries as [|[k u] rest IH]; simpl; [discriminate|].
  destruct (includes lowerKeyword k); [intros [= <- <-]; auto | auto].
Qed.

Lemma fallback_index_in_range (keywordHash : Z) :
  Z.to_nat (Z.abs keywordHash mod Z.of_nat (length fallbackImages))
  < length fallbackImages.
Proof.
  change (length fallbackImages) with 8.
  pose proof (Z.mod_pos_bound (Z.abs keywordHash) (Z.of_nat 8)). lia.
Qed.

Lemma fetchImageForSlide_listed keyword :
  In (fst (fetchImageForSlide keyword))
    (map snd imageMapping ++ fallbackImages).
Proof.
  unfold fetchImageForSlide.
  destruct (firstMatch (toLowerCase (cleanKeywordOf keyword)) imageMapping)
    as [[key url]|] eqn:Hmatch; cbn [fst]; apply in_or_app.
  - left. apply in_map_iff. exists (key, url). split; [reflexivity|].
    eapply firstMatch_In; eassumption.
  - right. apply nth_In. apply fallback_index_in_range.
Qed.

Lemma listed_urls_are_photos :
  forallb (startsWith (lit "https://images.unsplash.com/photo-"))
    (map snd imageMapping ++ fallbackImages) = true.
Proof. vm_compute. reflexivity. Qed.

Lemma fetchImageForSlide_nonempty keyword :
  fst (fetchImageForSlide keyword) <> [].
Proof.
  pose proof (fetchImageForSlide_listed keyword) as Hin.
  pose proof listed_urls_are_photos as Hall.
  rewrite forallb_forall in Hall. apply Hall in Hin.
  intros Hempty. rewrite Hempty in Hin. discriminate.
Qed.

(** X7.  [fetchImageForSlide] returns, for every keyword, one of the
    URLs of its two tables, an Unsplash photo address: never an empty or
    an undefined value. *)
Theorem fetchImageForSlide_returns_a_listed_url :
  forall keyword : str,
    In (fst (fetchImageForSlide keyword))
      (map snd imageMapping ++ fallbackImages)
    /\ startsWith (lit "https://images.unsplash.com/photo-")
         (fst (fetchImageForSlide keyword)) = true.
Proof.
  intros keyword.
  pose proof (fetchImageForSlide_listed keyword) as Hin.
  split; [exact Hin|].
  pose proof listed_urls_are_photos as Hall.
  rewrite forallb_forall in Hall. apply Hall. exact Hin.
Qed.

(** X8.  [fetchImagesForSlides] returns one slide per slide, in order,
    with the same title, points and keyword; a slide with a non-empty
    keyword gets the URL resolved for it, which the renderer counts as an
    image, and a slide without one is returned as it is. *)
Theorem fetchImagesForSlides_resolves_keywords :
  forall slides : list Slide,
    length (fetchImagesForSlides slides) = length slides
    /\ forall (k : nat) (slide : Slide),
         nth_error slides k = Some slide ->
         exists resolved : Slide,
           nth_error (fetchImagesForSlides slides) k = Some resolved
           /\ slideTitle resolved = slideTitle slide
           /\ points resolved = points slide
           /\ imageKeyword resolved = imageKeyword slide
           /\ match imageKeyword slide with
              | Some (c :: keyword) =>
                  imageUrl resolved
                  = Some (fst (fetchImageForSlide (c :: keyword)))
                  /\ hasImageOf resolved = true
              | _ => resolved = slide
              end.
Proof.
  intros slides. unfold fetchImagesForSlides.
  split; [apply length_map|].
  intros k slide Hnth. eexists. split.
  - rewrite nth_error_map, Hnth. reflexivity.
  - destruct (imageKeyword slide) as [[|c keyword]|] eqn:Hkeyword;
      repeat split; try reflexivity; try exact Hkeyword.
    unfold hasImageOf. simpl.
    pose proof (fetchImageForSlide_nonempty (c :: keyword)) as Hsome.
    destruct (fst (fetchImageForSlide (c :: keyword)));
      [contradiction|reflexivity].
Qed.

Lemma fetchImagesForSlides_resolves_keywords_witness :
  exists resolved : Slide,
    nth_error (fetchImagesForSlides (slides threeSlideDeck)) 1 = Some resolved
    /\ slideTitle resolved = lit "Panels"
    /\ hasImageOf resolved = true.
Proof.
  destruct (proj2 (fetchImagesForSlides_resolves_keywords
                     (slides threeSlideDeck)) 1 _ eq_refl)
    as (resolved & Hnth & Htitle & _ & _ & _ & Hhas).
  exists resolved. repeat split; assumption.
Defined.

End ImageMore.

(** ** More on the fallback slide builders *)

Module BuilderMore.

Import PdfHandler UrlHandler PptxExport Statements MoreStatements.

Lemma Forall_firstn {A} (P : A -> Prop) n (l : list A) :
  Forall P l -> Forall P (firstn n l).
Proof.
  intros Hall. revert n.
  induction Hall; intros [|n]; simpl; constructor; auto.
Qed.

Lemma Forall_skipn {A} (P : A -> Prop) n (l : list A) :
  Forall P l -> Forall P (skipn n l).
Proof.
  intros Hall. revert n.
  induction Hall; intros [|n]; simpl; try constructor; auto.
Qed.

Lemma Forall_filter {A} (f : A -> bool) (l : list A) :
  Forall (fun x => f x = true) (filter f l).
Proof.
  apply Forall_forall. intros x Hin. apply filter_In in Hin. tauto.
Qed.

Lemma slice_length_le {A} (xs : list A) a n : length (slice xs a (a + n)) <= n.
Proof.
  unfold slice. replace (a + n - a) with n by lia. apply firstn_le_length.
Qed.

(** The points of a group: at most five, each longer than ten
    characters. *)
Lemma pointsOf_bounds slideParas :
  length (pointsOf slideParas) <= 5
  /\ Forall (fun point => 10 < length point) (pointsOf slideParas).
Proof.
  unfold pointsOf. split.
  - rewrite length_map. apply firstn_le_length.
  - apply Forall_map, Forall_firstn, Forall_flat_map, Forall_forall.
    intros p _. apply Forall_firstn.
    eapply Forall_impl; [|apply Forall_filter].
    intros s Hlong. apply Nat.ltb_lt. exact Hlong.
Qed.

(** X9.  The deck that [textToBasicSlides] builds is titled "Extracted
    Content"; each of its slides has between one and five points, none of
    them empty, and no image. *)
Theorem textToBasicSlides_fills_every_slide :
  forall (text : str) (slideCount : nat),
    exists deck : Deck,
      textToBasicSlides text slideCount = Some deck
      /\ title deck = lit "Extracted Content"
      /\ Forall (fun slide =>
                   1 <= pointCountOf slide <= 5
                   /\ Forall (fun point => point <> []) (pointsListOf slide)
                   /\ imageUrl slide = None)
           (slides deck).
Proof.
  intros text slideCount.
  destruct (FallbackSpec.textToBasicSlides_loop text slideCount)
    as (produced & Hloop & _).
  unfold textToBasicSlides. rewrite Hloop.
  eexists. split; [reflexivity|]. split; [reflexivity|]. simpl.
  set (good := fun slide : Slide =>
                 1 <= pointCountOf slide <= 5
                 /\ Forall (fun point : str => point <> [])
                      (pointsListOf slide)
                 /\ imageUrl slide = None).
  assert (Hproduced : Forall good produced).
  { assert (Hstep : forall i currentSlide slides,
               Forall good slides ->
               i < length (paragraphsOf (cleanExtractedText text)) ->
               length slides < slideCount ->
               Forall good
                 (pushGroup
                    (slice (paragraphsOf (cleanExtractedText text)) i
                       (i + ceilDiv
                              (length (paragraphsOf (cleanExtractedText text)))
                              slideCount))
                    currentSlide slides)).
    { intros i currentSlide slides Hgood _ _. unfold pushGroup.
      match goal with
      | |- context [pointsOf ?paras] =>
          destruct (pointsOf_bounds paras) as [Hfew Hlong];
          destruct (0 <? length (pointsOf paras)) eqn:Hsome; [|exact Hgood]
      end.
      apply Nat.ltb_lt in Hsome.
      apply Forall_app. split; [exact Hgood|]. constructor; [|constructor].
      unfold good, pointCountOf, pointsListOf. simpl.
      repeat split; try lia.
      eapply Forall_impl; [|exact Hlong].
      intros point Hpoint ->. simpl in Hpoint. lia. }
    destruct (FallbackSpec.slidesLoop_invariant
                (paragraphsOf (cleanExtractedText text)) slideCount
                (ceilDiv (length (paragraphsOf (cleanExtractedText text)))
                   slideCount)
                (fun _ _ slides => Forall good slides)
                Hstep _ 0 1 [] produced (Forall_nil _) Hloop)
      as (_ & _ & Hall).
    exact Hall. }
  destruct (length produced =? 0); [|exact Hproduced].
  constructor; [|constructor].
  unfold good, overviewSlide, pointCountOf, pointsListOf. simpl.
  repeat split; try lia. constructor; [|constructor].
  intros Hempty. apply app_eq_nil in Hempty as [_ Hdots]. discriminate.
Qed.

Section ScrapedSlides.

Variable first : Slide.

Lemma opened_push slides t ps :
  opened first slides -> 1 <= length ps <= 5 ->
  opened first (slides ++ [basicSlide t ps]).
Proof.
  intros [[rest ->] Hall] Hps. split.
  - exists (rest ++ [basicSlide t ps]). reflexivity.
  - apply Forall_app. split; [exact Hall|]. constructor; [|constructor].
    exact Hps.
Qed.

Lemma headingLoop_opened content :
  forall todo hs slides,
    opened first slides -> opened first (headingLoop content todo hs slides).
Proof.
  induction todo as [|todo IH]; intros hs slides Hopened; simpl;
    [destruct hs; exact Hopened|].
  destruct hs as [|heading rest]; [exact Hopened|].
  apply IH.
  destruct (0 <? length (sectionPoints content heading (hd_error rest)))
    eqn:Hsome; [|exact Hopened].
  apply Nat.ltb_lt in Hsome. apply opened_push; [exact Hopened|].
  split; [lia|]. unfold sectionPoints. rewrite length_map.
  apply (slice_length_le _ 0 5).
Qed.

Lemma listItemLoop_opened listItems slideCount itemsPerSlide :
  forall fuel i slides result,
    opened first slides ->
    listItemLoop fuel listItems slideCount itemsPerSlide i slides
    = Some result ->
    opened first result.
Proof.
  induction fuel as [|fuel IH]; intros i slides result Hopened; simpl;
    destruct ((i <? length listItems) && (length slides <? slideCount));
    intros Hloop; try discriminate;
    try (injection Hloop as <-; exact Hopened).
  eapply IH; [|exact Hloop].
  destruct (slice listItems i (i + itemsPerSlide)) as [|item items] eqn:Hitems;
    [exact Hopened|].
  simpl. apply opened_push; [exact Hopened|].
  split; [simpl; lia|]. apply (slice_length_le _ 0 5).
Qed.

Lemma paragraphLoop_opened content slideCount :
  forall fuel slides result,
    opened first slides ->
    paragraphLoop fuel content slideCount slides = Some result ->
    opened first result.
Proof.
  induction fuel as [|fuel IH]; intros slides result Hopened; simpl;
    destruct (length slides <? slideCount);
    intros Hloop; try discriminate;
    try (injection Hloop as <-; exact Hopened).
  destruct (length (sectionPointsAt content (length slides * 2)) =? 0)
    eqn:Hnone; [injection Hloop as <-; exact Hopened|].
  apply Nat.eqb_neq in Hnone.
  eapply IH; [|exact Hloop]. apply opened_push; [exact Hopened|].
  split; [lia|]. unfold sectionPointsAt. rewrite length_map.
  etransitivity; [apply filter_length_le|]. apply slice_length_le.
Qed.

End ScrapedSlides.

(** X10.  For a slide count of at least one, [scrapedToBasicSlides]
    returns a deck that opens with the slide made of the page title and
    one point, holds at most [slideCount] slides, and has between one and
    five points on every slide. *)
Theorem scrapedToBasicSlides_deck_shape :
  forall (scrapedData : ScrapedPage) (slideCount : nat),
    1 <= slideCount ->
    exists (deck : Deck) (opening : Slide) (rest : list Slide),
      scrapedToBasicSlides scrapedData slideCount = Some deck
      /\ title deck
         = orElse (pageTitle scrapedData) (lit "Web Content Presentation")
      /\ slides deck = opening :: rest
      /\ slideTitle opening = orElse (pageTitle scrapedData) (lit "Overview")
      /\ pointCountOf opening = 1
      /\ length (slides deck) <= slideCount
      /\ Forall (fun slide => 1 <= pointCountOf slide <= 5) (slides deck).
Proof.
  intros page n Hn.
  destruct (ControllerSpec.scrapedToBasicSlides_total page n)
    as [deck Hdeck].
  exists deck. revert Hdeck. unfold scrapedToBasicSlides.
  set (opening := basicSlide (orElse (pageTitle page) (lit "Overview")) _).
  assert (Hone : pointCountOf opening = 1).
  { subst opening. unfold pointCountOf. simpl.
    destruct (description page); reflexivity. }
  assert (Hopening : opened opening [opening]).
  { split; [exists []; reflexivity|]. constructor; [lia|constructor]. }
  set (afterHeadings := if 0 <? length (headings page) then _ else _).
  assert (Hheadings : opened opening afterHeadings).
  { subst afterHeadings. destruct (0 <? length (headings page));
      [apply headingLoop_opened|]; exact Hopening. }
  clearbody afterHeadings.
  match goal with
  | |- context [match ?items with Some _ => _ | None => None end] =>
      destruct items as [afterItems|] eqn:Hitems; [|discriminate]
  end.
  assert (Hafter : opened opening afterItems).
  { destruct ((length afterHeadings <? n) && (0 <? length (listItems page)));
      [eapply listItemLoop_opened; eassumption
      |injection Hitems as <-; exact Hheadings]. }
  destruct (paragraphLoop n (content page) n afterItems) as [final|] eqn:Hfill;
    [|discriminate].
  apply (paragraphLoop_opened opening) in Hfill; [|exact Hafter].
  destruct Hfill as [[rest ->] Hall].
  intros [= <-]. simpl.
  unfold slice. rewrite Nat.sub_0_r. simpl.
  destruct n as [|n]; [lia|]. simpl.
  exists opening, (firstn n rest). repeat split; try assumption.
  - simpl. pose proof (firstn_le_length n rest). lia.
  - change (opening :: firstn n rest) with (firstn (S n) (opening :: rest)).
    apply Forall_firstn. exact Hall.
Qed.

Lemma scrapedToBasicSlides_deck_shape_witness :
  exists deck : Deck,
    scrapedToBasicSlides
      (mkScrapedPage (lit "Wind power") [] windText [] []) 5 = Some deck
    /\ length (slides deck) <= 5.
Proof.
  destruct (scrapedToBasicSlides_deck_shape
              (mkScrapedPage (lit "Wind power") [] windText [] []) 5
              ltac:(lia))
    as (deck & opening & rest & Hdeck & _ & _ & _ & _ & Hlen & _).
  exists deck. split; assumption.
Defined.

End BuilderMore.

(** ** More on text cleaning *)

Module CleaningMore.

Import PdfHandler Statements MoreStatements.

Lemma trimStart_suffix s : exists p, s = p ++ trimStart s.
Proof.
  induction s as [|c r [p Hp]]; [exists []; reflexivity|]. simpl.
  destruct (isWhiteSpace c); [|exists []; reflexivity].
  exists (c :: p). simpl. f_equal. exact Hp.
Qed.

Lemma trimStart_head s :
  match trimStart s with
  | [] => true
  | c :: _ => negb (isWhiteSpace c)
  end = true.
Proof.
  induction s as [|c r IH]; [reflexivity|]. simpl.
  destruct (isWhiteSpace c) eqn:Hc; [exact IH|]. simpl. rewrite Hc.
  reflexivity.
Qed.

(** What [trim] returns neither starts nor ends with whitespace. *)
Lemma trim_edges s : noEdgeWhitespace (trim s) = true.
Proof.
  unfold noEdgeWhitespace, trim, trimEnd. rewrite rev_involutive.
  apply andb_true_iff. split; [|apply trimStart_head].
  destruct (trimStart_suffix (rev (trimStart s))) as [p Hp].
  apply (f_equal (@rev char)) in Hp.
  rewrite rev_involutive, rev_app_distr in Hp.
  destruct (rev (trimStart (rev (trimStart s)))) as [|c t]; [reflexivity|].
  pose proof (trimStart_head s) as Hhead. rewrite Hp in Hhead. exact Hhead.
Qed.

Lemma In_trimStart c s : In c (trimStart s) -> In c s.
Proof.
  destruct (trimStart_suffix s) as [p Hp]. intros Hin. rewrite Hp.
  apply in_or_app. right. exact Hin.
Qed.

Lemma In_trim c s : In c (trim s) -> In c s.
Proof.
  unfold trim, trimEnd. intros Hin.
  apply in_rev, In_trimStart, in_rev, In_trimStart in Hin. exact Hin.
Qed.

Lemma concat_consHead c pieces : concat (consHead c pieces) = c :: concat pieces.
Proof. destruct pieces; reflexivity. Qed.

Lemma In_split c sep s : In c (concat (split sep s)) -> In c s.
Proof.
  induction s as [|a r IH]; simpl; [auto|].
  destruct (a =? sep)%N; simpl.
  - auto.
  - rewrite concat_consHead. simpl. tauto.
Qed.

Lemma In_join c sep pieces :
  In c (join sep pieces) -> In c sep \/ In c (concat pieces).
Proof.
  induction pieces as [|p ps IH]; simpl; [auto|].
  destruct ps as [|q qs].
  - simpl. rewrite app_nil_r. auto.
  - intros Hin. apply in_app_or in Hin as [Hin | Hin];
      [right; apply in_or_app; auto|].
    apply in_app_or in Hin as [Hin | Hin]; [auto|].
    apply IH in Hin as [Hin | Hin]; [auto|].
    right. apply in_or_app. auto.
Qed.

Lemma In_trimLines c s : In c (trimLines s) -> c = LF \/ In c s.
Proof.
  unfold trimLines. intros Hin. apply In_join in Hin as [[<- | []] | Hin];
    [auto|].
  right. apply (In_split c LF).
  apply in_concat in Hin as (line & Hline & Hc).
  apply in_map_iff in Hline as (raw & <- & Hraw).
  apply in_concat. exists raw. split; [exact Hraw|]. apply In_trim. exact Hc.
Qed.

Lemma In_replaceFormFeeds c s :
  In c (replaceFormFeeds s) -> c <> FF /\ (c = LF \/ In c s).
Proof.
  unfold replaceFormFeeds. intros Hin.
  apply in_flat_map in Hin as (a & Ha & Hc).
  destruct (a =? FF)%N eqn:Hff.
  - destruct Hc as [<- | [<- | []]]; (split; [discriminate|auto]).
  - destruct Hc as [<- | []]. apply N.eqb_neq in Hff. auto.
Qed.

Lemma joinHyphenated_eq a h n b r :
  joinHyphenated (a :: h :: n :: b :: r)
  = if isWordChar a && (h =? HYPHEN)%N && (n =? LF)%N && isWordChar b
    then a :: b :: joinHyphenated r
    else a :: joinHyphenated (h :: n :: b :: r).
Proof. reflexivity. Qed.

Lemma In_joinHyphenated c :
  forall n s, length s <= n -> In c (joinHyphenated s) -> In c s.
Proof.
  induction n as [|n IH]; intros s Hlen.
  - destruct s; [auto|simpl in Hlen; lia].
  - destruct s as [|a [|h [|l [|b r]]]]; try (intros Hin; exact Hin).
    rewrite joinHyphenated_eq. simpl in Hlen.
    destruct (isWordChar a && (h =? HYPHEN)%N && (l =? LF)%N
              && isWordChar b).
    + intros [<- | [<- | Hin]]; [left; reflexivity|simpl; auto|].
      apply IH in Hin; [simpl; auto 6|lia].
    + intros [<- | Hin]; [left; reflexivity|].
      apply IH in Hin; [right; exact Hin|simpl; lia].
Qed.

Lemma In_collapseSpaces c :
  forall s inrun,
    In c (collapseSpacesFrom inrun s) -> c <> TAB /\ (c = SP \/ In c s).
Proof.
  induction s as [|a r IH]; intros inrun; simpl; [tauto|].
  destruct (isBlank a) eqn:Hblank.
  - destruct inrun.
    + intros Hin. apply IH in Hin. tauto.
    + intros [<- | Hin]; [split; [discriminate|auto]|].
      apply IH in Hin. tauto.
  - intros [<- | Hin].
    + split; [|auto]. intros ->. discriminate.
    + apply IH in Hin. tauto.
Qed.

Lemma hasChar_absent c s : ~ In c s -> hasChar c s = false.
Proof.
  intros Hnot. unfold hasChar.
  destruct (existsb (N.eqb c) s) eqn:Hsome; [|reflexivity].
  apply existsb_exists in Hsome as (a & Ha & Heq).
  apply N.eqb_eq in Heq. subst a. contradiction.
Qed.

(** X11.  What [cleanExtractedText] returns holds no tab and no form
    feed, and neither starts nor ends with whitespace. *)
Theorem cleanExtractedText_output :
  forall text : str,
    hasChar TAB (cleanExtractedText text) = false
    /\ hasChar FF (cleanExtractedText text) = false
    /\ noEdgeWhitespace (cleanExtractedText text) = true.
Proof.
  intros [|c text]; [repeat split|].
  unfold cleanExtractedText.
  set (raw := c :: text).
  repeat split.
  - apply hasChar_absent. intros Hin.
    apply In_trim, In_trimLines in Hin as [Hin | Hin]; [discriminate|].
    apply In_replaceFormFeeds in Hin as [_ [Hin | Hin]]; [discriminate|].
    apply (In_joinHyphenated TAB _ _ (le_n _)) in Hin.
    apply In_collapseSpaces in Hin as [Hin _]. contradiction.
  - apply hasChar_absent. intros Hin.
    apply In_trim, In_trimLines in Hin as [Hin | Hin]; [discriminate|].
    apply In_replaceFormFeeds in Hin as [Hin _]. contradiction.
  - apply trim_edges.
Qed.

End CleaningMore.

(** ** More on the request handlers *)

Module ControllerMore.

Import PdfHandler UrlHandler ErrorMiddleware PptxExport GenerateController.
Import Statements MoreStatements.

Lemma validateSlideCount_range v : (1 <= validateSlideCount v <= 20)%Z.
Proof. unfold validateSlideCount. lia. Qed.


Ltac branch :=
  match goal with
  | |- context [if ?b then _ else _] => destruct b eqn:?
  end.

(** The store after the end of a handler. *)
Lemma saveAndRespond_unchanged who doc presentation db :
  who = None \/ failed (fst (saveAndRespond who doc presentation db)) = true ->
  snd (saveAndRespond who doc presentation db) = db.
Proof.
  unfold saveAndRespond, saveFor. destruct who as [id|]; [|reflexivity].
  destruct (schemaFailures (doc id)); [|reflexivity].
  intros [Hnone | Hfailed]; discriminate.
Qed.


(** The cases of a field that is no string, each settled by [tac]. *)
Ltac no_string tac :=
  cbn [truthy]; try tac; try (branch; tac).

(** X12.  No handler stores a document when the request is anonymous
    or when it answers with an error: the store is left as it was. *)
Theorem failed_and_anonymous_requests_store_nothing :
  forall (generatePresentation : str -> Z -> Outcome Deck)
         (extractTextFromBuffer : list N -> Outcome ExtractedData)
         (isValidURL : str -> bool) (scrapeUrl : str -> Outcome ScrapedPage)
         (db : Store),
    (forall req : TextRequest,
        textUser req = None
        \/ failed (fst (generateFromText generatePresentation req db)) = true ->
        snd (generateFromText generatePresentation req db) = db)
    /\ (forall (req : PdfRequest) (result : Response * Store),
           generateFromPDF generatePresentation extractTextFromBuffer req db
           = Some result ->
           pdfUser req = None \/ failed (fst result) = true ->
           snd result = db)
    /\ (forall (req : UrlRequest) (result : Response * Store),
           generateFromURL generatePresentation isValidURL scrapeUrl req db
           = Some result ->
           urlUser req = None \/ failed (fst result) = true ->
           snd result = db)
    /\ (forall req : TopicRequest,
           topicUser req = None
           \/ failed (fst (generateFromTopic generatePresentation req db))
              = true ->
           snd (generateFromTopic generatePresentation req db) = db).
Proof.
  intros gen extract valid scrape db. repeat split.
  - intros req. unfold generateFromText.
    destruct (text req) as [| |[|]|shown|body|shown];
      try (no_string ltac:(intros _; reflexivity); fail).
    repeat (branch; [intros _; reflexivity|]).
    destruct (gen _ _) as [deck|message]; [|intros _; reflexivity].
    apply saveAndRespond_unchanged.
  - intros req result. unfold generateFromPDF.
    destruct (file req) as [buffer|]; [|intros [= <-] _; reflexivity].
    destruct (extract buffer) as [extracted|message];
      [|intros [= <-] _; reflexivity].
    cbv zeta. branch; [intros [= <-] _; reflexivity|].
    match goal with
    | |- match ?built with Some _ => _ | None => _ end = _ -> _ =>
        destruct built as [deck|]; [|discriminate]
    end.
    intros [= <-]. apply saveAndRespond_unchanged.
  - intros req result. unfold generateFromURL.
    destruct (url req) as [| |[|]|shown|address|shown];
      try (no_string ltac:(intros [= <-] _; reflexivity); fail).
    repeat (branch; [intros [= <-] _; reflexivity|]).
    destruct (scrape _) as [page|message]; [|intros [= <-] _; reflexivity].
    cbv zeta. branch; [intros [= <-] _; reflexivity|].
    match goal with
    | |- match ?built with Some _ => _ | None => _ end = _ -> _ =>
        destruct built as [deck|]; [|discriminate]
    end.
    intros [= <-]. apply saveAndRespond_unchanged.
  - intros req. unfold generateFromTopic.
    destruct (topic req) as [| |[|]|shown|subject|shown];
      try (no_string ltac:(intros _; reflexivity); fail).
    repeat (branch; [intros _; reflexivity|]).
    cbv zeta.
    destruct (gen _ _) as [deck|message]; [|intros _; reflexivity].
    apply saveAndRespond_unchanged.
Qed.

Lemma failed_and_anonymous_requests_store_nothing_witness :
  snd (generateFromTopic serviceDown signedInTopicRequest []) = [].
Proof.
  apply (proj2 (proj2 (proj2
           (failed_and_anonymous_requests_store_nothing serviceDown
              parsesToWindText acceptsEveryUrl unreachable [])))
           signedInTopicRequest).
  right. reflexivity.
Defined.



(** X14.  With enhancement switched off, the PDF and the URL handler
    never consult the generative service: their result is the same
    whatever the service would answer. *)
Theorem plain_requests_bypass_the_service :
  forall (generatePresentation generatePresentation' : str -> Z -> Outcome Deck)
         (extractTextFromBuffer : list N -> Outcome ExtractedData)
         (isValidURL : str -> bool) (scrapeUrl : str -> Outcome ScrapedPage)
         (db : Store),
    (forall req : PdfRequest,
        enhanceWithAIOf (pdfEnhance req) = false ->
        generateFromPDF generatePresentation extractTextFromBuffer req db
        = generateFromPDF generatePresentation' extractTextFromBuffer req db)
    /\ (forall req : UrlRequest,
           enhanceWithAIOf (urlEnhance req) = false ->
           generateFromURL generatePresentation isValidURL scrapeUrl req db
           = generateFromURL generatePresentation' isValidURL scrapeUrl req
               db).
Proof.
  intros gen gen' extract valid scrape db. split.
  - intros req Hoff. unfold generateFromPDF. rewrite Hoff. reflexivity.
  - intros req Hoff. unfold generateFromURL. rewrite Hoff. reflexivity.
Qed.

Lemma plain_requests_bypass_the_service_witness :
  generateFromPDF serviceDown parsesToWindText plainPdfRequest []
  = generateFromPDF serviceUp parsesToWindText plainPdfRequest [].
Proof.
  apply (proj1 (plain_requests_bypass_the_service serviceDown serviceUp
                  parsesToWindText acceptsEveryUrl unreachable [])
           plainPdfRequest).
  reflexivity.
Defined.

(** X15.  The handlers consult the generative service only with a slide
    count from 1 to 20, and the text handler only with a text of 50 to
    50,000 characters: two services that agree on these requests give
    the same results. *)
Theorem service_sees_validated_requests_only :
  forall (generatePresentation generatePresentation' : str -> Z -> Outcome Deck)
         (extractTextFromBuffer : list N -> Outcome ExtractedData)
         (isValidURL : str -> bool) (scrapeUrl : str -> Outcome ScrapedPage)
         (db : Store),
    ((forall content count,
         50 <= length content -> (Z.of_nat (length content) <= 50000)%Z ->
         (1 <= count <= 20)%Z ->
         generatePresentation content count
         = generatePresentation' content count) ->
     forall req : TextRequest,
       generateFromText generatePresentation req db
       = generateFromText generatePresentation' req db)
    /\ ((forall content count,
            (1 <= count <= 20)%Z ->
            generatePresentation content count
            = generatePresentation' content count) ->
        (forall req : PdfRequest,
            generateFromPDF generatePresentation extractTextFromBuffer req db
            = generateFromPDF generatePresentation' extractTextFromBuffer req
                db)
        /\ (forall req : UrlRequest,
               generateFromURL generatePresentation isValidURL scrapeUrl req
                 db
               = generateFromURL generatePresentation' isValidURL scrapeUrl
                   req db)
        /\ (forall req : TopicRequest,
               generateFromTopic generatePresentation req db
               = generateFromTopic generatePresentation' req db)).
Proof.
  intros gen gen' extract valid scrape db. split.
  - intros Hagree req. unfold generateFromText.
    destruct (text req) as [| | | |body|]; try reflexivity.
    destruct ((length body =? 0) || (length (trim body) =? 0));
      [reflexivity|].
    destruct (length body <? 50) eqn:Hshort; [reflexivity|].
    destruct (50000 <? Z.of_nat (length body))%Z eqn:Hlong;
      [reflexivity|].
    cbv zeta. rewrite Hagree; [reflexivity| | |].
    + apply Nat.ltb_ge in Hshort. exact Hshort.
    + apply Z.ltb_ge in Hlong. exact Hlong.
    + apply validateSlideCount_range.
  - intros Hagree. repeat split.
    + intros req. unfold generateFromPDF.
      destruct (file req) as [buffer|]; [|reflexivity].
      destruct (extract buffer) as [extracted|message]; [|reflexivity].
      cbv zeta. rewrite Hagree by apply validateSlideCount_range.
      reflexivity.
    + intros req. unfold generateFromURL.
      destruct (url req) as [| | | |address|]; try reflexivity.
      destruct ((length address =? 0) || (length (trim address) =? 0));
        [reflexivity|].
      destruct (negb (valid address)); [reflexivity|].
      destruct (scrape address) as [page|message]; [|reflexivity].
      cbv zeta. rewrite Hagree by apply validateSlideCount_range.
      reflexivity.
    + intros req. unfold generateFromTopic.
      destruct (topic req) as [| | | |subject|]; try reflexivity.
      cbv zeta. rewrite Hagree by apply validateSlideCount_range.
      reflexivity.
Qed.

Lemma service_sees_validated_requests_only_witness :
  generateFromTopic serviceInRange solarTopicRequest []
  = generateFromTopic serviceUp solarTopicRequest [].
Proof.
  apply (proj2 (proj2
           (proj2 (service_sees_validated_requests_only serviceInRange
                     serviceUp parsesToWindText acceptsEveryUrl unreachable
                     [])
              ltac:(intros content count Hcount;
                    unfold serviceInRange, serviceUp;
                    replace ((1 <=? count) && (count <=? 20))%Z with true
                      by (symmetry; apply andb_true_iff;
                          split; apply Z.leb_le; lia);
                    reflexivity)))).
Defined.

Lemma saveAndRespond_status who doc presentation db :
  httpStatus (received (fst (saveAndRespond who doc presentation db)))
  = 200%Z
  \/ httpStatus (received (fst (saveAndRespond who doc presentation db)))
     = 400%Z.
Proof.
  unfold saveAndRespond, saveFor. destruct who as [id|]; [|left; reflexivity].
  destruct (schemaFailures (doc id)); [left|right]; reflexivity.
Qed.

(** X16.  The PDF handler always answers, and never with a server
    error: the client receives status 200 or status 400, also when the
    generative service or the PDF parser fails or the store refuses the
    document.  So does the URL handler when [url] is a string or falsy;
    a [url] that is truthy without being a string (a number, [true], an
    array, an object) raises at [url.trim] and is answered with status
    500, the store left as it was. *)
Theorem pdf_and_url_request_statuses :
  forall (generatePresentation : str -> Z -> Outcome Deck)
         (extractTextFromBuffer : list N -> Outcome ExtractedData)
         (isValidURL : str -> bool) (scrapeUrl : str -> Outcome ScrapedPage)
         (db : Store),
    (forall req : PdfRequest,
        exists result : Response * Store,
          generateFromPDF generatePresentation extractTextFromBuffer req db
          = Some result
          /\ (httpStatus (received (fst result)) = 200%Z
              \/ httpStatus (received (fst result)) = 400%Z))
    /\ (forall req : UrlRequest,
           exists result : Response * Store,
             generateFromURL generatePresentation isValidURL scrapeUrl req db
             = Some result
             /\ (isText (url req) = true \/ truthy (url req) = false ->
                 httpStatus (received (fst result)) = 200%Z
                 \/ httpStatus (received (fst result)) = 400%Z)
             /\ (isText (url req) = false -> truthy (url req) = true ->
                 fst result = Thrown (NotAFunction (lit "url.trim"))
                 /\ httpStatus (received (fst result)) = 500%Z
                 /\ snd result = db)).
Proof.
  intros gen extract valid scrape db. split.
  - intros req. unfold generateFromPDF.
    destruct (file req) as [buffer|]; [|eexists; split; [reflexivity|auto]].
    destruct (extract buffer) as [extracted|message];
      [|eexists; split; [reflexivity|auto]].
    cbv zeta. branch; [eexists; split; [reflexivity|auto]|].
    match goal with
    | |- context [textToBasicSlides ?t ?n] =>
        destruct (FallbackSpec.textToBasicSlides_total t n) as [basic Hbasic]
    end.
    unfold basicSlidesOfPdf. rewrite Hbasic.
    destruct (enhanceWithAIOf (pdfEnhance req));
      [destruct (gen _ _)|]; eexists;
      (split; [reflexivity|apply saveAndRespond_status]).
  - intros req. unfold generateFromURL.
    destruct (url req) as [| |[|]|shown|address|shown]; cbn [truthy isText];
      try (eexists; split; [reflexivity|];
           split; [intros [Htext | Hfalsy]; try discriminate; auto
                  |intros Htext Htruthy; try discriminate; auto]; fail).
    + destruct (negb (str_eqb shown (lit "0")));
        (eexists; split; [reflexivity|];
         split; [intros [Htext | Hfalsy]; try discriminate; auto
                |intros Htext Htruthy; try discriminate; auto]).
    + assert (Hstring :
                forall result : Response * Store,
                  httpStatus (received (fst result)) = 200%Z
                  \/ httpStatus (received (fst result)) = 400%Z ->
                  (true = true \/ negb (length address =? 0) = false ->
                   httpStatus (received (fst result)) = 200%Z
                   \/ httpStatus (received (fst result)) = 400%Z)
                  /\ (true = false -> negb (length address =? 0) = true ->
                      fst result = Thrown (NotAFunction (lit "url.trim"))
                      /\ httpStatus (received (fst result)) = 500%Z
                      /\ snd result = db)).
      { intros result Hstatus. split; [intros _; exact Hstatus|].
        discriminate. }
      repeat (branch; [eexists; split;
                         [reflexivity|apply Hstring; auto]|]).
      destruct (scrape address) as [page|message];
        [|eexists; split; [reflexivity|apply Hstring; auto]].
      cbv zeta. branch; [eexists; split; [reflexivity|apply Hstring; auto]|].
      match goal with
      | |- context [scrapedToBasicSlides ?p ?n] =>
          destruct (ControllerSpec.scrapedToBasicSlides_total p n)
            as [basic Hbasic]
      end.
      rewrite Hbasic.
      destruct (enhanceWithAIOf (urlEnhance req));
        [destruct (gen _ _)|]; eexists;
        (split; [reflexivity|apply Hstring; apply saveAndRespond_status]).
Qed.

Lemma pdf_and_url_request_statuses_witness :
  (exists result : Response * Store,
      generateFromURL serviceUp acceptsEveryUrl unreachable
        numberedUrlRequest []
      = Some result
      /\ httpStatus (received (fst result)) = 500%Z)
  /\ (exists result : Response * Store,
         generateFromURL serviceUp acceptsEveryUrl unreachable
           pageRequestOfAda []
         = Some result
         /\ (httpStatus (received (fst result)) = 200%Z
             \/ httpStatus (received (fst result)) = 400%Z)).
Proof.
  split.
  - destruct (proj2 (pdf_and_url_request_statuses serviceUp parsesToWindText
                       acceptsEveryUrl unreachable [])
                numberedUrlRequest)
      as [result [Hresult [_ Hraised]]].
    exists result. split; [exact Hresult|].
    exact (proj1 (proj2 (Hraised eq_refl eq_refl))).
  - destruct (proj2 (pdf_and_url_request_statuses serviceUp parsesToWindText
                       acceptsEveryUrl unreachable [])
                pageRequestOfAda)
      as [result [Hresult [Hstring _]]].
    exists result. split; [exact Hresult|].
    exact (Hstring (or_introl eq_refl)).
Defined.

Lemma safeChar_safe c : isWordChar (safeChar c) = true.
Proof.
  unfold safeChar, isWordChar.
  destruct (isLower c) eqn:Hlower; destruct (isUpper c) eqn:Hupper;
    destruct (isDigit c) eqn:Hdigit; simpl;
    rewrite ?Hlower, ?Hupper, ?Hdigit; reflexivity.
Qed.

(** X17.  The file name of an export holds only ASCII letters, digits,
    underscores and the dot of its extension, so no quote, slash or line
    break of the title reaches the [Content-Disposition] header; it is
    the title, a string, character for character, followed by
    ["_presentation.pptx"]. *)
Theorem export_filename_is_safe :
  forall (fetch : FetchSite -> str -> FetchOutcome) (today : str)
         (messageOf : ExportFailure -> str) (req : ExportRequest)
         (filename : str) (file : Presentation),
    exportToPowerPoint fetch today messageOf req = Download filename file ->
    Forall (fun c => isWordChar c = true \/ c = 46%N) filename
    /\ exists title slides objects,
         exportPresentation req = Some (JString title, Some slides)
         /\ slideObjects slides = Some objects
         /\ length filename = length title + 18.
Proof.
  intros fetch today messageOf req filename file. unfold exportToPowerPoint.
  destruct (exportPresentation req) as [[title [slides|]]|];
    try discriminate.
  destruct (negb (truthy title)); [discriminate|].
  destruct title as [| | | |heading|]; try discriminate.
  destruct (slideObjects slides) as [objects|] eqn:Hobjects; [|discriminate].
  destruct (generatePowerPoint fetch today _ _); [|discriminate].
  intros [= <- _]. unfold filenameOf. split.
  - apply Forall_app. split.
    + apply Forall_map, Forall_forall. intros ch _. left. apply safeChar_safe.
    + assert (Hsuffix : forallb (fun ch => isWordChar ch || (ch =? 46)%N)
                          (lit "_presentation.pptx") = true)
        by reflexivity.
      rewrite forallb_forall in Hsuffix.
      apply Forall_forall. intros ch Hin. apply Hsuffix in Hin.
      apply orb_true_iff in Hin as [Hword | Hdot]; [left; exact Hword|].
      right. apply N.eqb_eq. exact Hdot.
  - exists heading, slides, objects.
    split; [reflexivity|]. split; [exact Hobjects|].
    rewrite length_app, length_map. reflexivity.
Qed.

Lemma export_filename_is_safe_witness :
  exists (filename : str) (file : Presentation),
    exportToPowerPoint offline aDate engineMessage quotedTitleExport
    = Download filename file
    /\ Forall (fun c => isWordChar c = true \/ c = 46%N) filename.
Proof.
  destruct (exportToPowerPoint offline aDate engineMessage quotedTitleExport)
    as [filename file|message statusCode] eqn:Hexport;
    [|vm_compute in Hexport; discriminate].
  exists filename, file. split; [reflexivity|].
  exact (proj1 (export_filename_is_safe offline aDate engineMessage
                  quotedTitleExport filename file Hexport)).
Defined.

Lemma inherited_name_resolves themeName :
  existsb (str_eqb themeName) objectPrototypeKeys = true ->
  resolveTheme themeName = inheritedValue.
Proof.
  intros Hproto. apply existsb_exists in Hproto as (key & Hkey & Hsame).
  unfold str_eqb in Hsame.
  destruct (str_eq_dec themeName key) as [-> |]; [|discriminate].
  unfold objectPrototypeKeys in Hkey. simpl in Hkey.
  repeat (destruct Hkey as [<- | Hkey]; [reflexivity|]).
  contradiction.
Qed.

(** The export of a titled deck of slide objects, once the request has
    passed the two tests of the handler. *)
Lemma export_of_deck fetch today messageOf (heading : str) slides objects
    theme :
  heading <> [] ->
  slideObjects slides = Some objects ->
  exportToPowerPoint fetch today messageOf
    (mkExportRequest (Some (JString heading, Some slides)) theme)
  = match generatePowerPoint fetch today (mkDeck heading objects)
            (textOr theme (lit "professional")) with
    | Ok pptxBuffer => Download (filenameOf heading) pptxBuffer
    | Throw error =>
        ExportError
          (lit "Failed to export presentation: "
             ++ messageOf (RenderRaised error)) 500
    end.
Proof.
  intros Htitle Hobjects. destruct heading as [|c t]; [contradiction|].
  unfold exportToPowerPoint. cbn [exportPresentation exportTheme truthy
                                    length Nat.eqb negb].
  rewrite Hobjects. reflexivity.
Qed.

Lemma export_raises fetch today messageOf (heading : str) slides objects
    theme :
  heading <> [] ->
  slideObjects slides = Some objects ->
  existsb (str_eqb (textOr theme (lit "professional"))) objectPrototypeKeys
  = true ->
  exportToPowerPoint fetch today messageOf
    (mkExportRequest (Some (JString heading, Some slides)) theme)
  = ExportError
      (lit "Failed to export presentation: "
         ++ messageOf (RenderRaised TypeError)) 500.
Proof.
  intros Htitle Hobjects Hproto.
  rewrite (export_of_deck fetch today messageOf heading slides objects theme
             Htitle Hobjects).
  assert (Hraise : generatePowerPoint fetch today (mkDeck heading objects)
                     (textOr theme (lit "professional")) = Throw TypeError).
  { unfold generatePowerPoint.
    rewrite (inherited_name_resolves _ Hproto).
    destruct (titleSlideOf fetch today inheritedValue _)
      as [titleSlide|[]]; [|reflexivity].
    simpl.
    match goal with
    | |- context [contentLoop ?f ?t ?n ?i ?r ?p] =>
        destruct (contentLoop f t n i r p) as [pptx|[]]; reflexivity
    end. }
  rewrite Hraise. reflexivity.
Qed.

Lemma export_renders fetch today messageOf (heading : str) slides objects
    theme :
  heading <> [] ->
  slideObjects slides = Some objects ->
  existsb (str_eqb (textOr theme (lit "professional"))) objectPrototypeKeys
  = false ->
  exists file : Presentation,
    exportToPowerPoint fetch today messageOf
      (mkExportRequest (Some (JString heading, Some slides)) theme)
    = Download (filenameOf heading) file
    /\ length (renderedSlides file) = length objects + 2.
Proof.
  intros Htitle Hobjects Hproto.
  rewrite (export_of_deck fetch today messageOf heading slides objects theme
             Htitle Hobjects).
  destruct (RenderSpec.generatePowerPoint_themed fetch today
              (mkDeck heading objects) (textOr theme (lit "professional"))
              (RenderSpec.resolveTheme_themed _ Hproto))
    as [file Hfile].
  rewrite Hfile. exists file. split; [reflexivity|].
  apply RenderSpec.generatePowerPoint_shape in Hfile
    as (titleSlide & added & thankYouSlide & _ & _ & -> & Hlen & _).
  simpl in Hlen. simpl. rewrite length_app, Hlen. simpl. lia.
Qed.

Lemma slideObjects_of_objects objects :
  slideObjects (map Some objects) = Some objects.
Proof.
  induction objects as [|slide objects IH]; [reflexivity|].
  simpl. rewrite IH. reflexivity.
Qed.

(** X18.  How the export route answers a request whose [slides], when
    there are any, are an array of slide objects and [null]s.  Without a
    presentation, and without a truthy title or without slides, the
    answer has status 400.  With both, it has status 500 when the title
    is no string, when a slide is [null], or when the theme names a key
    that the registry inherits from [Object.prototype]; otherwise it is
    the file, named after the title, which holds two slides more than
    the presentation. *)
Theorem export_outcome :
  forall (fetch : FetchSite -> str -> FetchOutcome) (today : str)
         (messageOf : ExportFailure -> str) (req : ExportRequest),
    (exportPresentation req = None ->
     exportToPowerPoint fetch today messageOf req
     = ExportError (lit "Please provide presentation data") 400)
    /\ (forall title slides,
           exportPresentation req = Some (title, slides) ->
           truthy title = false \/ slides = None ->
           exportToPowerPoint fetch today messageOf req
           = ExportError
               (lit "Invalid presentation format. Must have title and slides.")
               400)
    /\ (forall title slides,
           exportPresentation req = Some (title, Some slides) ->
           truthy title = true ->
           (isText title = false \/ slideObjects slides = None ->
            exists failure : ExportFailure,
              exportToPowerPoint fetch today messageOf req
              = ExportError
                  (lit "Failed to export presentation: "
                     ++ messageOf failure) 500)
           /\ (forall heading objects,
                  title = JString heading ->
                  slideObjects slides = Some objects ->
                  (existsb
                     (str_eqb (textOr (exportTheme req) (lit "professional")))
                     objectPrototypeKeys = true ->
                   exportToPowerPoint fetch today messageOf req
                   = ExportError
                       (lit "Failed to export presentation: "
                          ++ messageOf (RenderRaised TypeError)) 500)
                  /\ (existsb
                        (str_eqb
                           (textOr (exportTheme req) (lit "professional")))
                        objectPrototypeKeys = false ->
                      exists file : Presentation,
                        exportToPowerPoint fetch today messageOf req
                        = Download (filenameOf heading) file
                        /\ length (renderedSlides file)
                           = length objects + 2))).
Proof.
  intros fetch today messageOf [presentation theme].
  cbn [exportPresentation exportTheme]. split; [|split].
  - intros ->. reflexivity.
  - intros title slides -> [Hfalsy | ->].
    + unfold exportToPowerPoint. cbn [exportPresentation].
      rewrite Hfalsy. destruct slides; reflexivity.
    + reflexivity.
  - intros title slides -> Htruthy. split.
    + intros Hbad. unfold exportToPowerPoint.
      cbn [exportPresentation exportTheme]. rewrite Htruthy. cbn [negb].
      destruct title as [| | | |heading|]; try (eexists; reflexivity).
      destruct Hbad as [Htext | Hnull]; [discriminate|].
      rewrite Hnull. eexists; reflexivity.
    + intros heading objects -> Hobjects.
      assert (Htitle : heading <> [])
        by (intros ->; discriminate).
      split; intros Hproto.
      * exact (export_raises fetch today messageOf heading slides objects
                 theme Htitle Hobjects Hproto).
      * exact (export_renders fetch today messageOf heading slides objects
                 theme Htitle Hobjects Hproto).
Qed.

Lemma export_outcome_witness :
  (exists failure : ExportFailure,
      exportToPowerPoint offline aDate engineMessage nullSlideExport
      = ExportError
          (lit "Failed to export presentation: " ++ engineMessage failure)
          500)
  /\ (exists file : Presentation,
         exportToPowerPoint offline aDate engineMessage quotedTitleExport
         = Download
             (filenameOf (lit "Q3 " ++ [34%N] ++ lit "plan" ++ [34%N])) file
         /\ length (renderedSlides file) = 3).
Proof.
  split.
  - apply (proj1 (proj2 (proj2 (export_outcome offline aDate engineMessage
                                  nullSlideExport))
                    (JString (lit "Solar energy"))
                    [Some (basicSlide (lit "Panels")
                             [lit "Panels face south"]);
                     None]
                    eq_refl eq_refl)).
    right. reflexivity.
  - exact (proj2 (proj2 (proj2 (proj2 (export_outcome offline aDate
                                         engineMessage quotedTitleExport))
                           (JString (lit "Q3 " ++ [34%N] ++ lit "plan"
                                       ++ [34%N]))
                           (map Some (slides oneSlideDeck)) eq_refl eq_refl)
                    (lit "Q3 " ++ [34%N] ++ lit "plan" ++ [34%N])
                    (slides oneSlideDeck) eq_refl eq_refl)
             eq_refl).
Defined.

End ControllerMore.

(** ** More on scraped pages *)

Module ScrapeMore.

Import PdfHandler UrlHandler PptxExport Statements MoreStatements.

Lemma hasDouble_cons a t :
  hasDouble LF (a :: t)
  = ((a =? LF)%N && startsWithNewline t) || hasDouble LF t.
Proof. destruct t; simpl; [rewrite andb_false_r|]; reflexivity. Qed.

Lemma hasDouble_free p : ~ In LF p -> hasDouble LF p = false.
Proof.
  induction p as [|a p IH]; [reflexivity|]. intros Hfree.
  rewrite hasDouble_cons, IH by (intros Hin; apply Hfree; right; exact Hin).
  replace (a =? LF)%N with false; [reflexivity|].
  symmetry. apply N.eqb_neq. intros ->. apply Hfree. left. reflexivity.
Qed.

Lemma hasDouble_app_free p rest :
  ~ In LF p ->
  hasDouble LF (p ++ LF :: rest) = hasDouble LF (LF :: rest).
Proof.
  induction p as [|a p IH]; [reflexivity|]. intros Hfree.
  simpl app. rewrite hasDouble_cons, IH
    by (intros Hin; apply Hfree; right; exact Hin).
  replace (a =? LF)%N with false; [reflexivity|].
  symmetry. apply N.eqb_neq. intros ->. apply Hfree. left. reflexivity.
Qed.

Lemma hasDouble_suffix p m :
  hasDouble LF (p ++ m) = false -> hasDouble LF m = false.
Proof.
  induction p as [|a p IH]; [auto|]. simpl app. rewrite hasDouble_cons.
  intros Hnone. apply orb_false_iff in Hnone as [_ Hnone]. auto.
Qed.

Lemma hasDouble_prefix m q :
  hasDouble LF (m ++ q) = false -> hasDouble LF m = false.
Proof.
  induction m as [|a m IH]; [reflexivity|]. simpl app.
  rewrite !hasDouble_cons. intros Hnone.
  apply orb_false_iff in Hnone as [Hhere Hnone].
  rewrite (IH Hnone), orb_false_r.
  destruct m as [|b m]; [apply andb_false_r|exact Hhere].
Qed.

Lemma trim_infix s : exists p q, s = p ++ trim s ++ q.
Proof.
  unfold trim, trimEnd.
  destruct (CleaningMore.trimStart_suffix s) as [p Hp].
  destruct (CleaningMore.trimStart_suffix (rev (trimStart s))) as [q Hq].
  exists p, (rev q).
  rewrite <- rev_app_distr, <- Hq, rev_involutive. exact Hp.
Qed.

Lemma split_free sep s : Forall (fun piece => ~ In sep piece) (split sep s).
Proof.
  induction s as [|c r IH]; simpl; [repeat constructor; auto|].
  destruct (c =? sep)%N eqn:Hc; [constructor; auto|].
  apply N.eqb_neq in Hc.
  destruct (split sep r) as [|p ps]; simpl.
  - repeat constructor. intros [-> | []]. contradiction.
  - inversion IH as [|? ? Hp Hps]; subst. constructor; [|exact Hps].
    intros [-> | Hin]; [contradiction|]. apply Hp. exact Hin.
Qed.

(** Joining non-empty lines that hold no newline leaves no blank
    line. *)
Lemma join_lines lines :
  Forall (fun line => line <> [] /\ ~ In LF line) lines ->
  hasDouble LF (join [LF] lines) = false
  /\ startsWithNewline (join [LF] lines) = false.
Proof.
  induction 1 as [|p ps [Hsome Hfree] Hall [IHdouble IHstart]];
    [split; reflexivity|].
  assert (Hstart : forall rest, startsWithNewline (p ++ rest) = false).
  { intros rest. destruct p as [|a p]; [contradiction|]. simpl.
    apply N.eqb_neq. intros ->. apply Hfree. left. reflexivity. }
  destruct ps as [|q qs].
  - simpl. split; [apply hasDouble_free; exact Hfree|].
    rewrite <- (app_nil_r p). apply Hstart.
  - change (join [LF] (p :: q :: qs)) with (p ++ LF :: join [LF] (q :: qs)).
    split; [|apply Hstart].
    rewrite hasDouble_app_free by exact Hfree.
    rewrite hasDouble_cons, IHdouble, IHstart. reflexivity.
Qed.

Lemma cleanContent_no_blank_line raw : hasDouble LF (cleanContent raw) = false.
Proof.
  destruct raw as [|c raw]; [reflexivity|]. unfold cleanContent.
  match goal with
  | |- hasDouble LF (trim ?joined) = false =>
      destruct (trim_infix joined) as (p & q & Hparts);
      assert (Hjoined : hasDouble LF joined = false)
  end.
  { apply join_lines. apply Forall_forall. intros line Hline.
    apply filter_In in Hline as [Hline Hsome].
    apply in_map_iff in Hline as (piece & <- & Hpiece). split.
    - intros Hempty. rewrite Hempty in Hsome. discriminate.
    - intros Hin. apply CleaningMore.In_trim in Hin.
      pose proof (split_free LF
                    (removeUiText
                       (collapseNewlines (collapseSpaces (c :: raw)))))
        as Hfree.
      rewrite Forall_forall in Hfree. exact (Hfree piece Hpiece Hin). }
  rewrite Hparts in Hjoined.
  apply hasDouble_suffix, hasDouble_prefix in Hjoined. exact Hjoined.
Qed.

(** X19.  What [cleanContent] returns holds no blank line, and neither
    starts nor ends with whitespace. *)
Theorem cleanContent_output :
  forall content : str,
    hasDouble LF (cleanContent content) = false
    /\ noEdgeWhitespace (cleanContent content) = true.
Proof.
  intros content. split; [apply cleanContent_no_blank_line|].
  destruct content as [|c content]; [reflexivity|].
  apply CleaningMore.trim_edges.
Qed.

Lemma splitBlankLine_eq a b r :
  splitBlankLine (a :: b :: r)
  = if ((a =? LF) && (b =? LF))%N then [] :: splitBlankLine r
    else consHead a (splitBlankLine (b :: r)).
Proof. reflexivity. Qed.

Lemma splitBlankLine_single s :
  hasDouble LF s = false -> splitBlankLine s = [s].
Proof.
  induction s as [|a t IH]; [reflexivity|].
  destruct t as [|b r]; [reflexivity|].
  rewrite hasDouble_cons, splitBlankLine_eq. intros Hnone.
  apply orb_false_iff in Hnone as [Hhere Hnone]. simpl in Hhere.
  rewrite Hhere, (IH Hnone). reflexivity.
Qed.

Lemma sectionPointsAt_beyond content start :
  hasDouble LF content = false -> 1 <= start ->
  sectionPointsAt content start = [].
Proof.
  intros Hnone Hstart. unfold sectionPointsAt, slice.
  rewrite (splitBlankLine_single _ Hnone).
  destruct start as [|start]; [lia|]. simpl. rewrite skipn_nil, firstn_nil.
  reflexivity.
Qed.

Lemma paragraphLoop_idle content slideCount slides :
  hasDouble LF content = false -> slides <> [] ->
  paragraphLoop slideCount content slideCount slides = Some slides.
Proof.
  intros Hnone Hsome.
  destruct slideCount as [|fuel]; [reflexivity|].
  cbn [paragraphLoop].
  destruct (length slides <? S fuel); [|reflexivity].
  rewrite sectionPointsAt_beyond; [reflexivity|exact Hnone|].
  destruct slides; [contradiction|simpl; lia].
Qed.

(** X20.  On content that [cleanContent] returned, the loop of
    [scrapedToBasicSlides] that fills the deck from paragraphs adds no
    slide; a page with such content and without headings and list items
    gives a deck of one slide for every slide count from 1. *)
Theorem paragraph_fill_adds_nothing_to_cleaned_content :
  forall raw : str,
    (forall (slideCount : nat) (slides : list Slide),
        slides <> [] ->
        paragraphLoop slideCount (cleanContent raw) slideCount slides
        = Some slides)
    /\ (forall (pageTitle description : str) (slideCount : nat),
           1 <= slideCount ->
           exists deck : Deck,
             scrapedToBasicSlides
               (mkScrapedPage pageTitle description (cleanContent raw) [] [])
               slideCount = Some deck
             /\ length (slides deck) = 1).
Proof.
  intros raw. pose proof (cleanContent_no_blank_line raw) as Hnone. split.
  - intros slideCount slides Hsome. apply paragraphLoop_idle; assumption.
  - intros pageTitle description slideCount Hcount.
    unfold scrapedToBasicSlides. cbn [headings listItems content length].
    cbn [Nat.ltb Nat.leb]. rewrite andb_false_r.
    rewrite paragraphLoop_idle by (exact Hnone || discriminate).
    eexists. split; [reflexivity|].
    destruct slideCount as [|n]; [lia|].
    unfold slice. simpl. rewrite firstn_nil. reflexivity.
Qed.

Lemma paragraph_fill_adds_nothing_to_cleaned_content_witness :
  exists deck : Deck,
    scrapedToBasicSlides
      (mkScrapedPage (lit "Wind power") [] (cleanContent windText) [] []) 5
    = Some deck
    /\ length (slides deck) = 1.
Proof.
  apply (proj2 (paragraph_fill_adds_nothing_to_cleaned_content windText)
           (lit "Wind power") [] 5).
  lia.
Defined.

End ScrapeMore.

(** ** More on the slide count *)

Module SlideCountMore.

Import PptxExport GenerateController Statements MoreStatements.















End SlideCountMore.

(** ** The generative service, and from generation to export *)

Module GenerationMore.

Import PdfHandler UrlHandler Ai PptxExport GenerateController Generation.
Import Statements MoreStatements.

Lemma startsWith_other (pattern : str) (c : char) (r : str) :
  c <> 96%N -> startsWith (96%N :: pattern) (c :: r) = false.
Proof.
  intros Hc. cbn [startsWith].
  replace (96 =? c)%N with false; [reflexivity|].
  symmetry. apply N.eqb_neq. intros <-. contradiction.
Qed.

Lemma removeFenceFrom_free (pattern body rest : str) :
  ~ In 96%N body ->
  removeFenceFrom (96%N :: pattern) 0 (body ++ rest)
  = body ++ removeFenceFrom (96%N :: pattern) 0 rest.
Proof.
  induction body as [|c body IH]; intros Hfree; [reflexivity|].
  simpl app. cbn [removeFenceFrom].
  rewrite startsWith_other by (intros ->; apply Hfree; left; reflexivity).
  rewrite IH by (intros Hin; apply Hfree; right; exact Hin).
  reflexivity.
Qed.

Lemma includes_free (pattern body rest : str) :
  ~ In 96%N body ->
  includes (body ++ rest) (96%N :: pattern) = includes rest (96%N :: pattern).
Proof.
  induction body as [|c body IH]; intros Hfree; [reflexivity|].
  simpl app. cbn [includes].
  rewrite startsWith_other by (intros ->; apply Hfree; left; reflexivity).
  rewrite IH by (intros Hin; apply Hfree; right; exact Hin).
  reflexivity.
Qed.

Lemma trimStart_app_blank (s rest : str) :
  trimStart s = [] -> trimStart (s ++ rest) = trimStart rest.
Proof.
  induction s as [|c s IH]; [reflexivity|]. simpl.
  destruct (isWhiteSpace c); [exact IH|discriminate].
Qed.

Lemma trimStart_app_text (s rest : str) :
  trimStart s <> [] -> trimStart (s ++ rest) = trimStart s ++ rest.
Proof.
  induction s as [|c s IH]; [contradiction|]. simpl.
  destruct (isWhiteSpace c); [exact IH|reflexivity].
Qed.

Lemma trim_newline (body : str) : trim (body ++ [LF]) = trim body.
Proof.
  unfold trim, trimEnd.
  destruct (trimStart body) as [|c t] eqn:Hstart.
  - rewrite trimStart_app_blank by exact Hstart. reflexivity.
  - rewrite trimStart_app_text by (rewrite Hstart; discriminate).
    rewrite Hstart, rev_app_distr. reflexivity.
Qed.

Lemma stripFences_bare (body : str) : ~ In 96%N body -> stripFences body = body.
Proof.
  intros Hfree. unfold stripFences, jsonFence, fence.
  rewrite <- (app_nil_r body).
  change (lit "```json") with (96%N :: lit "``json").
  change (lit "```") with (96%N :: lit "``").
  rewrite !includes_free by exact Hfree. reflexivity.
Qed.

Lemma stripFences_json (body : str) :
  ~ In 96%N body ->
  stripFences (jsonFence ++ [LF] ++ body ++ [LF] ++ fence) = body ++ [LF].
Proof.
  intros Hfree. unfold stripFences.
  replace (includes (jsonFence ++ [LF] ++ body ++ [LF] ++ fence) jsonFence)
    with true by reflexivity.
  unfold removeFence.
  assert (Hfirst : removeFenceFrom jsonFence 0
                     (jsonFence ++ [LF] ++ body ++ [LF] ++ fence)
                   = body ++ [LF] ++ fence).
  { change (removeFenceFrom jsonFence 0
              (jsonFence ++ [LF] ++ body ++ [LF] ++ fence))
      with (removeFenceFrom jsonFence 0 (body ++ [LF] ++ fence)).
    unfold jsonFence at 1.
    change (lit "```json") with (96%N :: lit "``json").
    rewrite removeFenceFrom_free by exact Hfree. reflexivity. }
  rewrite Hfirst. unfold fence at 1.
  change (lit "```") with (96%N :: lit "``").
  rewrite removeFenceFrom_free by exact Hfree. reflexivity.
Qed.

Lemma stripFences_plain (body : str) :
  ~ In 96%N body ->
  stripFences (fence ++ [LF] ++ body ++ [LF] ++ fence) = body ++ [LF].
Proof.
  intros Hfree. unfold stripFences.
  assert (Hjson : includes (fence ++ [LF] ++ body ++ [LF] ++ fence) jsonFence
                  = false).
  { change (includes (fence ++ [LF] ++ body ++ [LF] ++ fence) jsonFence)
      with (includes (body ++ [LF] ++ fence) jsonFence).
    unfold jsonFence. change (lit "```json") with (96%N :: lit "``json").
    rewrite includes_free by exact Hfree. reflexivity. }
  rewrite Hjson.
  replace (includes (fence ++ [LF] ++ body ++ [LF] ++ fence) fence)
    with true by reflexivity.
  unfold removeFence.
  change (removeFenceFrom fence 0 (fence ++ [LF] ++ body ++ [LF] ++ fence))
    with (removeFenceFrom fence 0 (body ++ [LF] ++ fence)).
  unfold fence at 1. change (lit "```") with (96%N :: lit "``").
  rewrite removeFenceFrom_free by exact Hfree. reflexivity.
Qed.

(** X24.  A reply wrapped in a markdown code fence, with or without
    the [json] tag, is parsed like the bare reply, as long as the reply
    itself holds no backtick. *)
Theorem fenced_reply_parses_like_the_bare_one :
  forall (jsonParse : str -> option (str * option (list Slide)))
         (body : str),
    ~ In 96%N body ->
    parseAIResponse jsonParse (jsonFence ++ [LF] ++ body ++ [LF] ++ fence)
    = parseAIResponse jsonParse body
    /\ parseAIResponse jsonParse (fence ++ [LF] ++ body ++ [LF] ++ fence)
       = parseAIResponse jsonParse body.
Proof.
  intros jsonParse body Hfree. unfold parseAIResponse.
  rewrite (stripFences_json body Hfree), (stripFences_plain body Hfree),
    (stripFences_bare body Hfree), trim_newline.
  split; reflexivity.
Qed.

Lemma fenced_reply_parses_like_the_bare_one_witness :
  parseAIResponse parsesSolar
    (jsonFence ++ [LF] ++ lit "{ }" ++ [LF] ++ fence)
  = parseAIResponse parsesSolar (lit "{ }").
Proof.
  apply (proj1 (fenced_reply_parses_like_the_bare_one parsesSolar (lit "{ }")
                  ltac:(simpl; lia))).
Defined.

Lemma parseAIResponse_valid jsonParse responseText presentation :
  parseAIResponse jsonParse responseText = Resolved presentation ->
  title presentation <> []
  /\ forallb validSlide (slides presentation) = true.
Proof.
  unfold parseAIResponse.
  destruct (jsonParse (trim (stripFences responseText)))
    as [[[|c t] [slides|]]|]; try discriminate.
  cbn [length Nat.eqb].
  destruct (forallb validSlide slides) eqn:Hvalid; [|discriminate].
  intros [= <-]. split; [discriminate|exact Hvalid].
Qed.

(** A deck as the generative service returns it. *)
Lemma withImages_wellFormed presentation :
  title presentation <> [] ->
  forallb validSlide (slides presentation) = true ->
  wellFormed (withImages presentation).
Proof.
  intros Htitle Hvalid. split; [exact Htitle|].
  unfold withImages, fetchImagesForSlides. cbn [slides].
  apply Forall_map, Forall_forall. intros slide Hin.
  rewrite forallb_forall in Hvalid. apply Hvalid in Hin.
  unfold validSlide in Hin. apply andb_prop in Hin as [Hnamed Hpoints].
  assert (Htitled : slideTitle slide <> []).
  { intros Hempty. rewrite Hempty in Hnamed. discriminate. }
  assert (Hlisted : points slide <> None).
  { destruct (points slide); [discriminate|discriminate]. }
  destruct (imageKeyword slide) as [[|c keyword]|] eqn:Hkeyword;
    cbn [slideTitle points imageKeyword]; rewrite ?Hkeyword;
    repeat split; try assumption.
  unfold hasImageOf. cbn [imageUrl].
  pose proof (ImageMore.fetchImageForSlide_nonempty (c :: keyword)) as Hsome.
  destruct (fst (fetchImageForSlide (c :: keyword)));
    [contradiction|reflexivity].
Qed.

Lemma parsed_reply_wellFormed jsonParse text presentation :
  parseAIResponse jsonParse text = Resolved presentation ->
  wellFormed (withImages presentation).
Proof.
  intros Hparse. apply parseAIResponse_valid in Hparse as [Htitle Hvalid].
  apply withImages_wellFormed; assumption.
Qed.

(** X25.  Every deck that [generatePresentation] returns has a title,
    and each of its slides has a title and a list of points; a slide
    with a keyword has got an image URL that the renderer accepts. *)
Theorem generated_decks_are_well_formed :
  forall (jsonParse : str -> option (str * option (list Slide)))
         (gemini openai : str -> Z -> Outcome str) (openaiKey : bool)
         (content : str) (slideCount : Z) (deck : Deck),
    generatePresentation jsonParse gemini openai openaiKey content slideCount
    = Resolved deck ->
    title deck <> []
    /\ Forall (fun slide =>
                 slideTitle slide <> [] /\ points slide <> None
                 /\ match imageKeyword slide with
                    | Some (_ :: _) => hasImageOf slide = true
                    | _ => True
                    end)
         (slides deck).
Proof.
  intros jsonParse gemini openai openaiKey content slideCount deck.
  change (generatePresentation jsonParse gemini openai openaiKey content
            slideCount = Resolved deck -> wellFormed deck).
  unfold generatePresentation, generateWithGemini, generateWithOpenAI.
  destruct (gemini content slideCount) as [text|message].
  - destruct (parseAIResponse jsonParse (trim text)) as [parsed|failure]
      eqn:Hparse.
    + intros [= <-]. eapply parsed_reply_wellFormed; eassumption.
    + destruct openaiKey; [|discriminate]. cbn [negb].
      destruct (openai content slideCount) as [reply|message];
        [|discriminate].
      destruct (parseAIResponse jsonParse (trim reply)) as [parsed|failure']
        eqn:Hreply; [|discriminate].
      intros [= <-]. eapply parsed_reply_wellFormed; eassumption.
  - destruct openaiKey; [|discriminate]. cbn [negb].
    destruct (openai content slideCount) as [reply|message'];
      [|discriminate].
    destruct (parseAIResponse jsonParse (trim reply)) as [parsed|failure]
      eqn:Hreply; [|discriminate].
    intros [= <-]. eapply parsed_reply_wellFormed; eassumption.
Qed.

Lemma generated_decks_are_well_formed_witness :
  exists deck : Deck,
    generatePresentation parsesSolar geminiReplies openaiUnused false
      (lit "Solar energy") 5 = Resolved deck
    /\ title deck <> [].
Proof.
  destruct (generatePresentation parsesSolar geminiReplies openaiUnused false
              (lit "Solar energy") 5) as [deck|message] eqn:Hdeck;
    [|vm_compute in Hdeck; discriminate].
  exists deck. split; [reflexivity|].
  exact (proj1 (generated_decks_are_well_formed parsesSolar geminiReplies
                  openaiUnused false (lit "Solar energy") 5 deck Hdeck)).
Defined.

Lemma textToBasicSlides_title text slideCount deck :
  textToBasicSlides text slideCount = Some deck ->
  title deck = lit "Extracted Content".
Proof.
  unfold textToBasicSlides.
  destruct (slidesLoop _ _ _ _ _ _ _); [|discriminate].
  intros [= <-]. reflexivity.
Qed.

Lemma scrapedToBasicSlides_title scrapedData slideCount deck :
  scrapedToBasicSlides scrapedData slideCount = Some deck ->
  title deck <> [].
Proof.
  unfold scrapedToBasicSlides.
  match goal with
  | |- match ?items with Some _ => _ | None => None end = _ -> _ =>
      destruct items as [afterItems|]; [|discriminate]
  end.
  destruct (paragraphLoop _ _ _ _); [|discriminate].
  intros [= <-]. simpl. destruct (pageTitle scrapedData); discriminate.
Qed.

(** X26.  A deck that the PDF or the URL handler has built itself, with
    enhancement switched off or after the generative service has
    failed, can be sent to the export route as it was answered: with
    a theme name that is not inherited from [Object.prototype], it is
    exported to a file of two slides more. *)
Theorem fallback_decks_can_be_exported :
  forall (generatePresentation : str -> Z -> Outcome Deck)
         (extractTextFromBuffer : list N -> Outcome ExtractedData)
         (isValidURL : str -> bool) (scrapeUrl : str -> Outcome ScrapedPage)
         (db : Store)
         (fetch : FetchSite -> str -> FetchOutcome) (today : str)
         (messageOf : ExportFailure -> str) (themeName : str),
    existsb (str_eqb themeName) objectPrototypeKeys = false ->
    (forall (req : PdfRequest) (result : Response * Store),
        enhanceWithAIOf (pdfEnhance req) = false
        \/ serviceFails generatePresentation ->
        generateFromPDF generatePresentation extractTextFromBuffer req db
        = Some result ->
        exportable fetch today messageOf themeName (fst result))
    /\ (forall (req : UrlRequest) (result : Response * Store),
           enhanceWithAIOf (urlEnhance req) = false
           \/ serviceFails generatePresentation ->
           generateFromURL generatePresentation isValidURL scrapeUrl req db
           = Some result ->
           exportable fetch today messageOf themeName (fst result)).
Proof.
  intros gen extract valid scrape db fetch today messageOf themeName Htheme.
  assert (Hsent : forall who doc (deck : Deck) store,
             title deck <> [] ->
             exportable fetch today messageOf themeName
               (fst (saveAndRespond who doc deck store))).
  { intros who doc deck store Htitle status title slides.
    unfold saveAndRespond. destruct (saveFor who doc store);
      [|discriminate].
    intros [= _ <- <-].
    apply ControllerMore.export_renders;
      [exact Htitle|apply ControllerMore.slideObjects_of_objects
      |exact Htheme]. }
  assert (Herror : forall message statusCode,
             exportable fetch today messageOf themeName
               (AppError message statusCode)).
  { intros message statusCode status title slides. discriminate. }
  assert (Hraised : forall error,
             exportable fetch today messageOf themeName (Thrown error)).
  { intros error status title slides. discriminate. }
  split.
  - intros req result Hown. unfold generateFromPDF.
    destruct (file req) as [buffer|]; [|intros [= <-]; apply Herror].
    destruct (extract buffer) as [extracted|message];
      [|intros [= <-]; apply Herror].
    cbv zeta. ControllerMore.branch; [intros [= <-]; apply Herror|].
    match goal with
    | |- match ?built with Some _ => _ | None => _ end = _ -> _ =>
        destruct built as [deck|] eqn:Hbuilt; [|discriminate]
    end.
    intros [= <-]. apply Hsent.
    assert (Hplain : basicSlidesOfPdf
                       (cleanExtractedText (extractedText extracted))
                       (validateSlideCount (pdfSlideCount req)) extracted
                     = Some deck -> title deck <> []).
    { unfold basicSlidesOfPdf.
      destruct (textToBasicSlides _ _) as [basic|] eqn:Hbasic;
        [|discriminate].
      intros [= <-]. destruct (infoTitle extracted); [|discriminate].
      rewrite (textToBasicSlides_title _ _ _ Hbasic). discriminate. }
    destruct (enhanceWithAIOf (pdfEnhance req)); [|exact (Hplain Hbuilt)].
    destruct Hown as [Hoff | Hfails]; [discriminate|].
    destruct (Hfails (cleanExtractedText (extractedText extracted))
                (validateSlideCount (pdfSlideCount req)))
      as [message Hrejected].
    rewrite Hrejected in Hbuilt.
    rewrite (textToBasicSlides_title _ _ _ Hbuilt). discriminate.
  - intros req result Hown. unfold generateFromURL.
    destruct (url req) as [| |[|]|shown|address|shown];
      try (ControllerMore.no_string
             ltac:(intros [= <-]; first [apply Herror | apply Hraised]);
           fail).
    repeat (ControllerMore.branch; [intros [= <-]; apply Herror|]).
    destruct (scrape _) as [page|message]; [|intros [= <-]; apply Herror].
    cbv zeta. ControllerMore.branch; [intros [= <-]; apply Herror|].
    match goal with
    | |- match ?built with Some _ => _ | None => _ end = _ -> _ =>
        destruct built as [deck|] eqn:Hbuilt; [|discriminate]
    end.
    intros [= <-]. apply Hsent.
    destruct (enhanceWithAIOf (urlEnhance req));
      [|eapply scrapedToBasicSlides_title; eassumption].
    destruct Hown as [Hoff | Hfails]; [discriminate|].
    match type of Hbuilt with
    | match gen ?c ?n with _ => _ end = _ =>
        destruct (Hfails c n) as [message Hrejected]
    end.
    rewrite Hrejected in Hbuilt.
    eapply scrapedToBasicSlides_title; eassumption.
Qed.

Lemma fallback_decks_can_be_exported_witness :
  exists file : Presentation,
    exportToPowerPoint offline aDate engineMessage
      (mkExportRequest
         (Some (JString (title windDeck), Some (map Some (slides windDeck))))
         (JString (lit "dark")))
    = Download (filenameOf (title windDeck)) file
    /\ length (renderedSlides file) = 4.
Proof.
  exact (proj1
           (fallback_decks_can_be_exported serviceUp parsesToWindText
              acceptsEveryUrl unreachable [] offline aDate engineMessage
              (lit "dark") eq_refl)
           plainPdfRequest
           (Json 200 (title windDeck) (slides windDeck), [])
           (or_introl eq_refl) eq_refl 200%Z (title windDeck)
           (slides windDeck) eq_refl).
Defined.

End GenerationMore.

(** ** The functions on sample inputs *)

Module Examples.

Import PdfHandler UrlHandler Ai PptxExport ErrorMiddleware.
Import GenerateController Statements.

Example split_on_blank_lines :
  splitParagraphs (lit "a" ++ [LF; LF; LF] ++ lit "b" ++ [LF] ++ lit "c"
                     ++ [LF; LF])
  = [lit "a"; lit "b" ++ [LF] ++ lit "c"; []].
Proof. reflexivity. Qed.

Example split_on_sentence_ends :
  splitRuns isTerminator false (lit "Hello there. How are you?! Fine")
  = [lit "Hello there"; lit " How are you"; lit " Fine"].
Proof. reflexivity. Qed.

Example cleaning_a_page :
  cleanExtractedText
    (lit "  wo-" ++ [LF] ++ lit "rd  x " ++ [LF; LF; LF; LF] ++ lit " y ")
  = lit "word x" ++ [LF; LF] ++ lit "y".
Proof. reflexivity. Qed.

Example substring_clamps_and_swaps :
  substring (lit "presentation") 7 (-2) = lit "present".
Proof. reflexivity. Qed.

Example hash_of_ab : keywordHashOf (lit "ab") = 3105%Z.
Proof. reflexivity. Qed.

Example unknown_keyword_uses_the_pool :
  snd (fetchImageForSlide (lit "Quantum Zebra!")) = UsingFallback 1.
Proof. reflexivity. Qed.

Example parseInt_samples :
  map parseIntOfString
    [lit "42"; lit "  -7 slides"; lit "0x1F"; lit "seven"; lit ""; lit "3.9"]
  = [Some 42%Z; Some (-7)%Z; Some 31%Z; None; None; Some 3%Z].
Proof. reflexivity. Qed.

Example slide_counts :
  map validateSlideCount
    [Missing; JNull; JNumber (lit "0"); JNumber (lit "-3");
     JNumber (lit "7"); JNumber (lit "99"); JNumber (lit "7.5");
     JNumber (lit "1e+21"); JString (lit "12"); JString (lit "many");
     JBool true; JObject (lit "8,9"); JObject (lit "[object Object]")]
  = [5; 5; 5; 1; 7; 20; 7; 1; 12; 5; 5; 8; 5]%Z.
Proof. reflexivity. Qed.

Example schema_refuses_a_long_title :
  schemaFailures
    (urlDocument (mkDeck (repeat 97%N 201) [basicSlide (lit " ") []])
       (lit "content") true 5 (lit "ada"))
  = [titleMaxlength; slideTitleRequired 0].
Proof. reflexivity. Qed.

Example a_numeric_topic_raises :
  received
    (fst (generateFromTopic serviceDown
            (mkTopicRequest (JNumber (lit "42")) Missing Missing Missing None)
            []))
  = mkHttpResponse 500 (RaisedJson (NotAFunction (lit "topic.trim"))).
Proof. reflexivity. Qed.

Example layouts_of_threeSlideDeck :
  map (fun k => determineSlideLayout (Z.of_nat k) 3
                  (nth k (slides threeSlideDeck) (basicSlide [] [])))
    [0; 1; 2]
  = [TITLE_FULL_IMAGE; SPLIT_LEFT_IMAGE; SUMMARY_CLEAN].
Proof. reflexivity. Qed.

Example a_png_download :
  option_map type
    (downloadImageAsBase64
       (FetchResponse true (Some (lit "image/png")) (lit "iVBORw0KGgo=")))
  = Some png.
Proof. reflexivity. Qed.

Example a_missing_image :
  downloadImageAsBase64 (FetchResponse false None []) = None.
Proof. reflexivity. Qed.

Example scraped_page_without_structure :
  option_map (fun deck => map slideTitle (slides deck))
    (scrapedToBasicSlides
       (mkScrapedPage (lit "Wind power") [] windText [] []) 3)
  = Some [lit "Wind power"].
Proof. reflexivity. Qed.

Example cleaning_a_scraped_page :
  UrlHandler.cleanContent
    (lit "Intro  line" ++ [LF] ++ lit "Subscribe to our newsletter" ++ [LF]
       ++ lit "Body" ++ [LF; LF; LF] ++ lit "We use cookies")
  = lit "Intro line" ++ [LF] ++ lit "Body" ++ [LF] ++ lit "We use cookies".
Proof. vm_compute. reflexivity. Qed.

Example export_file_name :
  GenerateController.filenameOf (lit "Q3 plan: wind & solar")
  = lit "Q3_plan__wind___solar_presentation.pptx".
Proof. vm_compute. reflexivity. Qed.

Example stripping_a_fenced_reply :
  Generation.stripFences
    (lit "```json" ++ [LF] ++ lit "{ }" ++ [LF] ++ lit "```")
  = lit "{ }" ++ [LF].
Proof. vm_compute. reflexivity. Qed.

End Examples.
